(** * Autonomous Onboarding Orchestrator: the workflow-correctness core

    A shallow embedding of the rule engine of the orchestrator
    (escalation logic, task assignment, integration lifecycle validation,
    audit trail and its query route) and the properties the specification
    states about it.

    Conventions of the embedding:
    - JavaScript numbers that the code computes are integers here; a number
      that may be [NaN] is a [JsNum].
    - A date string is represented by the time value [new Date(s)] gives it
      (milliseconds since the epoch), or [InvalidDate] when it does not
      parse; an absent (or empty, hence falsy) string is [None].
    - The clock ([new Date()]), the host's local-midnight normalisation
      ([setHours(0,0,0,0)]), [process.env] and the persistence client are
      explicit arguments.
    - Plain JS objects used as maps are [gmap]s with string keys.
    - Code that awaits the database or the notification webhook passes
      the outside world along explicitly; the services are arguments. *)

From Stdlib Require Import ZArith Lia Bool List String Ascii.
From Stdlib Require Import DecimalString DecimalPos.
From Stdlib Require Import Sorting.Sorted.
From stdpp Require Import base tactics option list strings gmap.

Local Open Scope Z_scope.

(** ** JavaScript values and primitives used by the sources *)

Module Js.

(** A JS number that is either an integer or NaN. *)
Inductive JsNum : Type :=
| Num (z : Z)
| NaN.

(** Relational operators: every comparison with NaN is false. *)
Definition le (a b : JsNum) : bool :=
  match a, b with Num x, Num y => x <=? y | _, _ => false end.
Definition lt (a b : JsNum) : bool :=
  match a, b with Num x, Num y => x <? y | _, _ => false end.
Definition ge (a b : JsNum) : bool :=
  match a, b with Num x, Num y => y <=? x | _, _ => false end.
Definition gt (a b : JsNum) : bool :=
  match a, b with Num x, Num y => y <? x | _, _ => false end.

(** Arithmetic propagates NaN. *)
Definition lift1 (f : Z -> Z) (x : JsNum) : JsNum :=
  match x with Num z => Num (f z) | NaN => NaN end.
Definition lift2 (f : Z -> Z -> Z) (x y : JsNum) : JsNum :=
  match x, y with Num a, Num b => Num (f a b) | _, _ => NaN end.

Definition add : JsNum -> JsNum -> JsNum := lift2 Z.add.
Definition sub : JsNum -> JsNum -> JsNum := lift2 Z.sub.
Definition mul : JsNum -> JsNum -> JsNum := lift2 Z.mul.

(** [Math.floor(x / d)] for a positive integer constant [d]. *)
Definition floorDiv (x : JsNum) (d : Z) : JsNum := lift1 (fun z => z / d) x.

(** [Math.max(1, x)]: NaN as soon as an argument is NaN. *)
Definition max1 (x : JsNum) : JsNum := lift1 (Z.max 1) x.

(** [Math.round((s / t) * 100)] for counts [0 <= s <= t], [0 < t]: the
    quotient rounded to the nearest integer, halves upwards.  The double
    evaluation agrees with the exact quotient on the counts the sources
    produce (test batteries of one or three results). *)
Definition roundPercent (s t : Z) : Z := (200 * s + t) / (2 * t).

(** *** [parseInt(s)] without a radix

    Leading white space (the ASCII part of it), a sign, an optional [0x]
    prefix, then the longest prefix of digits; NaN when there is no digit.
    The value is the exact integer: a double rounds it beyond 2^53, which
    no comparison of the sources can observe; where the sources compute
    with the value (the row window of an audit query) the properties
    keep it within the safe integers. *)

Definition isWhiteSpace (c : ascii) : bool :=
  let n := nat_of_ascii c in
  ((9 <=? n)%nat && (n <=? 13)%nat) || (n =? 32)%nat.

Fixpoint trimStart (s : string) : string :=
  match s with
  | String c rest => if isWhiteSpace c then trimStart rest else s
  | EmptyString => s
  end.

Definition digitValue (c : ascii) : option Z :=
  let n := Z.of_nat (nat_of_ascii c) in
  if (48 <=? n) && (n <=? 57) then Some (n - 48)
  else if (97 <=? n) && (n <=? 122) then Some (n - 87)
  else if (65 <=? n) && (n <=? 90) then Some (n - 55)
  else None.

(** Value of the longest prefix of digits of the radix; [acc] is [None]
    until a digit was read. *)
Fixpoint parseDigits (radix : Z) (acc : option Z) (s : string) : option Z :=
  match s with
  | EmptyString => acc
  | String c rest =>
      match digitValue c with
      | Some d =>
          if d <? radix then parseDigits radix (Some (default 0 acc * radix + d)) rest
          else acc
      | None => acc
      end
  end.

Definition stripSign (s : string) : Z * string :=
  match s with
  | String "-" rest => (-1, rest)
  | String "+" rest => (1, rest)
  | _ => (1, s)
  end.

Definition stripHexPrefix (s : string) : Z * string :=
  match s with
  | String "0" (String "x" rest) => (16, rest)
  | String "0" (String "X" rest) => (16, rest)
  | _ => (10, s)
  end.

Definition parseInt (s : string) : JsNum :=
  let '(sign, s1) := stripSign (trimStart s) in
  let '(radix, s2) := stripHexPrefix s1 in
  match parseDigits radix None s2 with
  | Some v => Num (sign * v)
  | None => NaN
  end.

(** Decimal rendering of a number inside a template literal. *)
Definition showZ (z : Z) : string := NilZero.string_of_int (Z.to_int z).
Definition show (n : JsNum) : string :=
  match n with Num z => showZ z | NaN => "NaN"%string end.

(** A [Date]: its time value in milliseconds, or Invalid Date. *)
Inductive JsDate : Type :=
| ValidDate (ms : Z)
| InvalidDate.

Definition getTime (d : JsDate) : JsNum :=
  match d with ValidDate ms => Num ms | InvalidDate => NaN end.

(** [new Date(n)] for a number [n]. *)
Definition dateOfNum (n : JsNum) : JsDate :=
  match n with Num ms => ValidDate ms | NaN => InvalidDate end.

(** Values found in configuration and metadata bags ([Record<string, any>]).
    [JsOther] stands for every value that is always truthy and whose
    content the code never inspects (objects, arrays, non-integral
    numbers). *)
Inductive JsValue : Type :=
| JsUndefined
| JsNull
| JsBool (b : bool)
| JsNumber (n : JsNum)
| JsString (s : string)
| JsOther.

(** [!!v] *)
Definition truthy (v : JsValue) : bool :=
  match v with
  | JsUndefined | JsNull => false
  | JsBool b => b
  | JsNumber (Num z) => negb (z =? 0)
  | JsNumber NaN => false
  | JsString s => negb (String.eqb s "")
  | JsOther => true
  end.

(** [obj.key] on a bag: a missing key reads as [undefined]. *)
Definition prop (obj : gmap string JsValue) (key : string) : JsValue :=
  default JsUndefined (obj !! key).

(** [s.includes(sub)] *)
Fixpoint includes (s sub : string) : bool :=
  if String.prefix sub s then true
  else match s with
       | EmptyString => false
       | String _ rest => includes rest sub
       end.

(** [arr.slice(0, n)]: a negative end counts from the end of the array. *)
Definition slice0 {A} (l : list A) (n : Z) : list A :=
  if n <? 0 then firstn (Z.to_nat (Z.max (Z.of_nat (length l) + n) 0)) l
  else firstn (Z.to_nat n) l.

(** Property names every object literal inherits from [Object.prototype]. *)
Definition objectPrototypeKeys : list string :=
  [ "constructor"; "hasOwnProperty"; "isPrototypeOf"; "propertyIsEnumerable";
    "toLocaleString"; "toString"; "valueOf"; "__proto__";
    "__defineGetter__"; "__defineSetter__"; "__lookupGetter__";
    "__lookupSetter__" ]%string.

(** Result of [literal[key]] on an object literal used as a table: an own
    entry, a member inherited from [Object.prototype] (truthy, but not an
    entry of the table), or [undefined]. *)
Inductive Lookup (A : Type) : Type :=
| Own (a : A)
| Inherited
| Absent.
Arguments Own {A} a.
Arguments Inherited {A}.
Arguments Absent {A}.

Definition lookupLiteral {A} (table : gmap string A) (key : string) : Lookup A :=
  match table !! key with
  | Some a => Own a
  | None => if bool_decide (key ∈ objectPrototypeKeys) then Inherited else Absent
  end.

End Js.

(** ** Data model (src: the data model interfaces) *)

Inductive Level : Type := low | medium | high | critical.

Inductive TaskStatus : Type := pending | in_progress | completed | blocked.

#[global] Instance Level_eq_dec : EqDecision Level.
Proof. solve_decision. Defined.
#[global] Instance TaskStatus_eq_dec : EqDecision TaskStatus.
Proof. solve_decision. Defined.

Record OnboardingTask : Type := {
  task_id : string;
  task_type : string;
  title : string;
  owner_role : string;
  assigned_to : option string;
  status : TaskStatus;
  priority : Level;
  due_date : option Js.JsDate;
  is_blocker : bool;
  blocker_reason : option string
}.

Record Stakeholder : Type := {
  stakeholder_id : string;
  role : string;
  name : string;
  email : string
}.

(** [stakeholders.find(s => s.role === r)] *)
Definition findByRole (stakeholders : list Stakeholder) (r : string) : option Stakeholder :=
  List.find (fun s => String.eqb (role s) r) stakeholders.

(** ** Escalation logic (src/lib/escalation-logic.ts) *)

Module Escalation.

Record EscalationRule : Type := {
  taskType : string;
  overdueThresholdDays : Z;
  escalationChain : list string;
  ruleUrgencyLevel : Level
}.

Record EscalationResult : Type := {
  shouldEscalate : bool;
  escalateTo : list string;
  urgencyLevel : Level;
  escalationReason : string;
  daysOverdue : Js.JsNum
}.

Definition ESCALATION_RULES : list EscalationRule :=
  [ {| taskType := "kickoff_meeting"; overdueThresholdDays := 1;
       escalationChain := ["project_manager"; "owner"]%string;
       ruleUrgencyLevel := high |};
    {| taskType := "sis_setup"; overdueThresholdDays := 2;
       escalationChain := ["technical_lead"; "project_manager"; "owner"]%string;
       ruleUrgencyLevel := critical |};
    {| taskType := "crm_setup"; overdueThresholdDays := 3;
       escalationChain := ["technical_lead"; "project_manager"]%string;
       ruleUrgencyLevel := high |};
    {| taskType := "sftp_setup"; overdueThresholdDays := 3;
       escalationChain := ["technical_lead"; "project_manager"]%string;
       ruleUrgencyLevel := high |};
    {| taskType := "api_setup"; overdueThresholdDays := 3;
       escalationChain := ["technical_lead"; "project_manager"]%string;
       ruleUrgencyLevel := high |};
    {| taskType := "security_review"; overdueThresholdDays := 2;
       escalationChain := ["technical_lead"; "project_manager"; "owner"]%string;
       ruleUrgencyLevel := critical |};
    {| taskType := "compliance_check"; overdueThresholdDays := 2;
       escalationChain := ["technical_lead"; "project_manager"; "owner"]%string;
       ruleUrgencyLevel := critical |};
    {| taskType := "go_live_preparation"; overdueThresholdDays := 1;
       escalationChain := ["project_manager"; "owner"]%string;
       ruleUrgencyLevel := critical |} ].

Definition DEFAULT_ESCALATION_RULE : EscalationRule :=
  {| taskType := "default"; overdueThresholdDays := 3;
     escalationChain := ["project_manager"; "owner"]%string;
     ruleUrgencyLevel := medium |}.

(** [ESCALATION_RULES.find(r => r.taskType === t) || DEFAULT_ESCALATION_RULE] *)
Definition ruleFor (t : string) : EscalationRule :=
  default DEFAULT_ESCALATION_RULE
          (List.find (fun r => String.eqb (taskType r) t) ESCALATION_RULES).

Definition MS_PER_DAY : Z := 1000 * 60 * 60 * 24.

(** The escalation level of lines 124-132, for a rule and an overdue
    amount that passed the threshold test. *)
Definition escalationLevel (rule : EscalationRule) (days : Js.JsNum) : Z :=
  let len := Z.of_nat (length (escalationChain rule)) in
  if Js.ge days (Js.Num (overdueThresholdDays rule * 3)) then Z.min (len - 1) 2
  else if Js.ge days (Js.Num (overdueThresholdDays rule * 2)) then Z.min (len - 1) 1
  else 0.

(** Lines 114-142: the verdict once the rule and the overdue amount are
    known (the amount is not [<= 0]). *)
Definition evaluateOverdue (rule : EscalationRule) (days : Js.JsNum) : EscalationResult :=
  if Js.lt days (Js.Num (overdueThresholdDays rule)) then
    {| shouldEscalate := false; escalateTo := []; urgencyLevel := low;
       escalationReason :=
         "Task overdue by " +:+ Js.show days +:+ " days, but below threshold of "
           +:+ Js.showZ (overdueThresholdDays rule) +:+ " days";
       daysOverdue := days |}
  else
    {| shouldEscalate := true;
       escalateTo := Js.slice0 (escalationChain rule) (escalationLevel rule days + 1);
       urgencyLevel := ruleUrgencyLevel rule;
       escalationReason :=
         "Task overdue by " +:+ Js.show days +:+ " days (threshold: "
           +:+ Js.showZ (overdueThresholdDays rule) +:+ " days)";
       daysOverdue := days |}.

Section WithHost.
(** [d.setHours(0, 0, 0, 0)] on a valid time value: local midnight of
    its calendar day in the host's time zone. *)
Variable startOfDay : Z -> Z.

(** [Math.floor((now - dueDate) / MS_PER_DAY)] after both were
    normalised to local midnight. *)
Definition computeDaysOverdue (now : Z) (due : Js.JsDate) : Js.JsNum :=
  match due with
  | Js.ValidDate d => Js.Num ((startOfDay now - startOfDay d) / MS_PER_DAY)
  | Js.InvalidDate => Js.NaN
  end.

Definition shouldEscalateTask (now : Z) (task : OnboardingTask) : EscalationResult :=
  match due_date task with
  | None =>
      {| shouldEscalate := false; escalateTo := []; urgencyLevel := low;
         escalationReason := "No due date set"; daysOverdue := Js.Num 0 |}
  | Some dueDate =>
      let days := computeDaysOverdue now dueDate in
      if Js.le days (Js.Num 0) then
        {| shouldEscalate := false; escalateTo := []; urgencyLevel := low;
           escalationReason := "Task not overdue"; daysOverdue := Js.Num 0 |}
      else evaluateOverdue (ruleFor (task_type task)) days
  end.

(** The loop of [findTasksNeedingEscalation]: completed tasks are
    skipped, the others are kept when their verdict says so. *)
Fixpoint findTasksNeedingEscalation (now : Z) (tasks : list OnboardingTask)
  : list (OnboardingTask * EscalationResult) :=
  match tasks with
  | [] => []
  | task :: rest =>
      if bool_decide (status task = completed) then
        findTasksNeedingEscalation now rest
      else
        let escalationResult := shouldEscalateTask now task in
        if shouldEscalate escalationResult then
          (task, escalationResult) :: findTasksNeedingEscalation now rest
        else findTasksNeedingEscalation now rest
  end.
End WithHost.

(** Midnight in UTC, the normalisation of a host whose zone is UTC. *)
Definition utcStartOfDay (t : Z) : Z := t / MS_PER_DAY * MS_PER_DAY.

(** *** Blocker escalation *)

Definition escalationMap : gmap string (list string) :=
  list_to_map
    [ ("it_contact", ["technical_lead"; "project_manager"]);
      ("technical_lead", ["project_manager"; "owner"]);
      ("project_manager", ["owner"]);
      ("owner", ["project_manager"]) ]%string.

(** The recipient loop: roles without a stakeholder are dropped. *)
Fixpoint collectRecipients (stakeholders : list Stakeholder) (roles : list string)
  : list string :=
  match roles with
  | [] => []
  | r :: rest =>
      match findByRole stakeholders r with
      | Some stakeholder => email stakeholder :: collectRecipients stakeholders rest
      | None => collectRecipients stakeholders rest
      end
  end.

Definition blockerUrgency (task : OnboardingTask) : Level :=
  if bool_decide (priority task = critical)
     || Js.includes (task_type task) "security"
     || Js.includes (task_type task) "sis" then critical
  else if bool_decide (priority task = high)
     || Js.includes (task_type task) "setup"
     || Js.includes (task_type task) "go_live" then high
  else if bool_decide (priority task = low) then low
  else medium.

Record BlockerEscalation : Type := {
  blockerEscalateTo : list string;
  blockerUrgencyLevel : Level
}.

(** [None] is the [TypeError] of iterating a member inherited from
    [Object.prototype] when [owner_role] names one. *)
Definition getBlockerEscalationRecipients
    (task : OnboardingTask) (stakeholders : list Stakeholder)
  : option BlockerEscalation :=
  match Js.lookupLiteral escalationMap (owner_role task) with
  | Js.Inherited => None
  | found =>
      let escalationRoles :=
        match found with
        | Js.Own roles => roles
        | _ => ["project_manager"%string]
        end in
      Some {| blockerEscalateTo := collectRecipients stakeholders escalationRoles;
              blockerUrgencyLevel := blockerUrgency task |}
  end.

End Escalation.

(** ** Task assignment (src/lib/demo-data.ts, the task-assignment module) *)

Module TaskAssignment.

Record TaskAssignmentRule : Type := {
  taskType : string;
  preferredRoles : list string;
  fallbackRole : string
}.

Definition TASK_ASSIGNMENT_RULES : list TaskAssignmentRule :=
  [ {| taskType := "kickoff_meeting";
       preferredRoles := ["project_manager"; "owner"]; fallbackRole := "project_manager" |};
    {| taskType := "requirements_review";
       preferredRoles := ["owner"; "project_manager"]; fallbackRole := "owner" |};
    {| taskType := "timeline_planning";
       preferredRoles := ["project_manager"]; fallbackRole := "project_manager" |};
    {| taskType := "security_review";
       preferredRoles := ["technical_lead"; "it_contact"]; fallbackRole := "technical_lead" |};
    {| taskType := "compliance_check";
       preferredRoles := ["technical_lead"; "owner"]; fallbackRole := "technical_lead" |};
    {| taskType := "go_live_preparation";
       preferredRoles := ["project_manager"; "technical_lead"];
       fallbackRole := "project_manager" |} ]%string.

Definition INTEGRATION_TASK_RULES : gmap string TaskAssignmentRule :=
  list_to_map
    [ ("sis_setup", {| taskType := "sis_setup";
         preferredRoles := ["it_contact"; "technical_lead"]; fallbackRole := "it_contact" |});
      ("crm_setup", {| taskType := "crm_setup";
         preferredRoles := ["it_contact"; "technical_lead"]; fallbackRole := "it_contact" |});
      ("sftp_setup", {| taskType := "sftp_setup";
         preferredRoles := ["technical_lead"; "it_contact"]; fallbackRole := "technical_lead" |});
      ("api_setup", {| taskType := "api_setup";
         preferredRoles := ["technical_lead"]; fallbackRole := "technical_lead" |});
      ("sis_testing", {| taskType := "sis_testing";
         preferredRoles := ["technical_lead"; "it_contact"]; fallbackRole := "technical_lead" |});
      ("crm_testing", {| taskType := "crm_testing";
         preferredRoles := ["technical_lead"; "it_contact"]; fallbackRole := "technical_lead" |});
      ("sftp_testing", {| taskType := "sftp_testing";
         preferredRoles := ["technical_lead"]; fallbackRole := "technical_lead" |});
      ("api_testing", {| taskType := "api_testing";
         preferredRoles := ["technical_lead"]; fallbackRole := "technical_lead" |}) ]%string.

Record Assignment : Type := {
  ownerRole : string;
  assignedTo : option string
}.

(** The three outcomes of
    [INTEGRATION_TASK_RULES[taskType] || TASK_ASSIGNMENT_RULES.find(...)]. *)
Definition lookupRule (t : string) : Js.Lookup TaskAssignmentRule :=
  match Js.lookupLiteral INTEGRATION_TASK_RULES t with
  | Js.Absent =>
      match List.find (fun r => String.eqb (taskType r) t) TASK_ASSIGNMENT_RULES with
      | Some rule => Js.Own rule
      | None => Js.Absent
      end
  | found => found
  end.

(** [{ ownerRole: r, assignedTo: stakeholders.find(s => s.role === r)?.email }] *)
Definition assignToRole (r : string) (stakeholders : list Stakeholder) : Assignment :=
  {| ownerRole := r; assignedTo := email <$> findByRole stakeholders r |}.

(** The loop over [rule.preferredRoles]: returns at the first role that
    has a stakeholder. *)
Fixpoint firstPreferred (stakeholders : list Stakeholder) (roles : list string)
  : option Assignment :=
  match roles with
  | [] => None
  | preferredRole :: rest =>
      match findByRole stakeholders preferredRole with
      | Some stakeholder =>
          Some {| ownerRole := preferredRole; assignedTo := Some (email stakeholder) |}
      | None => firstPreferred stakeholders rest
      end
  end.

(** A member inherited from [Object.prototype] is truthy, has neither
    [preferredRoles] nor [fallbackRole], and leaves through the guard on
    [rule.preferredRoles] with the project-manager default; the guard never
    fires for a rule of the tables, whose [preferredRoles] is an array. *)
Definition assignTaskToStakeholder (t : string) (stakeholders : list Stakeholder)
  : Assignment :=
  match lookupRule t with
  | Js.Absent => assignToRole "project_manager" stakeholders
  | Js.Inherited => assignToRole "project_manager" stakeholders
  | Js.Own rule =>
      match firstPreferred stakeholders (preferredRoles rule) with
      | Some assignment => assignment
      | None => assignToRole (fallbackRole rule) stakeholders
      end
  end.

Definition MS_PER_DAY : Z := 24 * 60 * 60 * 1000.

(** The number of days [calculateTaskDueDate] adds to [now]. *)
Definition dueDays (now : Z) (t : string) (goLiveDate : option Js.JsDate)
    (customerSize : option string) : Js.JsNum :=
  if Js.includes t "kickoff" then Js.Num 1
  else if Js.includes t "requirements" then Js.Num 2
  else if Js.includes t "setup" then
    (if Js.includes t "sis" then Js.Num 3 else Js.Num 5)
  else if Js.includes t "testing" then
    (if Js.includes t "sis" then Js.Num 5 else Js.Num 7)
  else if Js.includes t "security" || Js.includes t "compliance" then
    (if bool_decide (customerSize = Some "enterprise"%string) then Js.Num 5 else Js.Num 7)
  else if Js.includes t "go_live" then
    match goLiveDate with
    | Some goLive =>
        let daysUntilGoLive :=
          Js.floorDiv (Js.sub (Js.getTime goLive) (Js.Num now)) (1000 * 60 * 60 * 24) in
        Js.max1 (Js.sub daysUntilGoLive (Js.Num 2))
    | None => Js.Num 14
    end
  else Js.Num 7.

(** [now] is the reading of [new Date()] at the start of the call. *)
Definition calculateTaskDueDate (now : Z) (t : string) (goLiveDate : option Js.JsDate)
    (customerSize : option string) : Js.JsDate :=
  Js.dateOfNum
    (Js.add (Js.Num now) (Js.mul (dueDays now t goLiveDate customerSize) (Js.Num MS_PER_DAY))).

End TaskAssignment.

(** ** Integration lifecycle (src/lib/integration-lifecycle.ts) *)

Module IntegrationLifecycle.

Inductive IntegrationType : Type := SIS | CRM | SFTP | API | other.

Inductive TestType : Type := connectivity | authentication | data_flow | configuration.

Inductive OverallStatus : Type := passed | failed | warning.

#[global] Instance OverallStatus_eq_dec : EqDecision OverallStatus.
Proof. solve_decision. Defined.

(** [details] is left out: it carries simulated measurements
    ([Math.random()]) that nothing reads. *)
Record IntegrationTestResult : Type := {
  success : bool;
  message : string;
  timestamp : string;
  test_type : TestType
}.

Record Integration : Type := {
  integration_id : string;
  integration_type : IntegrationType;
  integration_name : string;
  integration_configuration : option (gmap string Js.JsValue)
}.

Record IntegrationValidationResult : Type := {
  validated_integration_id : string;
  overall_status : OverallStatus;
  test_results : list IntegrationTestResult;
  completion_percentage : Z;
  next_steps : list string
}.

Definition showTestType (t : TestType) : string :=
  match t with
  | connectivity => "connectivity"
  | authentication => "authentication"
  | data_flow => "data_flow"
  | configuration => "configuration"
  end.

Definition showIntegrationType (t : IntegrationType) : string :=
  match t with
  | SIS => "SIS" | CRM => "CRM" | SFTP => "SFTP" | API => "API" | other => "other"
  end.

Section WithClock.
(** [new Date().toISOString()] at the start of a battery. *)
Variable now : string.

(** Nothing in the [try] blocks below can throw, so their [catch]
    branches contribute no result. *)

Definition testSISIntegration (config : gmap string Js.JsValue)
  : list IntegrationTestResult :=
  let hasKey := Js.truthy (Js.prop config "api_key") in
  [ {| success := true; message := "SIS endpoint connectivity verified";
       timestamp := now; test_type := connectivity |};
    {| success := hasKey;
       message := if hasKey then "SIS authentication successful"
                  else "SIS API key missing or invalid";
       timestamp := now; test_type := authentication |};
    {| success := true; message := "SIS data flow test completed successfully";
       timestamp := now; test_type := data_flow |} ].

Definition testCRMIntegration (config : gmap string Js.JsValue)
  : list IntegrationTestResult :=
  let hasPair := Js.truthy (Js.prop config "client_id")
                 && Js.truthy (Js.prop config "client_secret") in
  [ {| success := true; message := "CRM endpoint connectivity verified";
       timestamp := now; test_type := connectivity |};
    {| success := hasPair;
       message := if hasPair then "CRM OAuth authentication successful"
                  else "CRM OAuth credentials missing or invalid";
       timestamp := now; test_type := authentication |};
    {| success := true; message := "CRM data synchronization test completed";
       timestamp := now; test_type := data_flow |} ].

Definition testSFTPIntegration (config : gmap string Js.JsValue)
  : list IntegrationTestResult :=
  let hasCredentials :=
    Js.truthy (Js.prop config "username")
    && (Js.truthy (Js.prop config "password")
        || Js.truthy (Js.prop config "private_key")) in
  [ {| success := true; message := "SFTP server connectivity verified";
       timestamp := now; test_type := connectivity |};
    {| success := hasCredentials;
       message := if hasCredentials then "SFTP authentication successful"
                  else "SFTP credentials missing (username and password/key required)";
       timestamp := now; test_type := authentication |};
    {| success := true; message := "SFTP file transfer test completed";
       timestamp := now; test_type := data_flow |} ].

Definition testAPIIntegration (config : gmap string Js.JsValue)
  : list IntegrationTestResult :=
  let hasCredentials :=
    Js.truthy (Js.prop config "api_key")
    || Js.truthy (Js.prop config "bearer_token") in
  [ {| success := true; message := "API endpoint connectivity verified";
       timestamp := now; test_type := connectivity |};
    {| success := hasCredentials;
       message := if hasCredentials then "API authentication successful"
                  else "API authentication credentials missing";
       timestamp := now; test_type := authentication |};
    {| success := true; message := "API configuration validation completed";
       timestamp := now; test_type := configuration |} ].

(** The [switch] of [runIntegrationTests]. *)
Definition runBattery (integration : Integration) : list IntegrationTestResult :=
  let config := default ∅ (integration_configuration integration) in
  match integration_type integration with
  | SIS => testSISIntegration config
  | CRM => testCRMIntegration config
  | SFTP => testSFTPIntegration config
  | API => testAPIIntegration config
  | other =>
      [ {| success := true;
           message := "Generic integration test for "
                        +:+ showIntegrationType (integration_type integration);
           timestamp := now; test_type := configuration |} ]
  end.

Definition completionPercentage (testResults : list IntegrationTestResult) : Z :=
  let successfulTests := Z.of_nat (length (filter (fun t => success t = true) testResults)) in
  let totalTests := Z.of_nat (length testResults) in
  if 0 <? totalTests then Js.roundPercent successfulTests totalTests else 0.

Definition overallStatus (pct : Z) : OverallStatus :=
  if pct =? 100 then passed
  else if 70 <=? pct then warning
  else failed.

Definition nextSteps (testResults : list IntegrationTestResult) (st : OverallStatus)
  : list string :=
  let failedTests := filter (fun t => success t = false) testResults in
  (if (0 <? length failedTests)%nat then
     ("Address " +:+ Js.showZ (Z.of_nat (length failedTests)) +:+ " failed test(s)")
       :: map (fun t => "- Fix " +:+ showTestType (test_type t) +:+ ": " +:+ message t)
              failedTests
   else [])
  ++ match st with
     | passed => ["Integration ready for production use";
                  "Schedule go-live validation"]%string
     | warning => ["Review warnings and optimize configuration";
                   "Consider additional testing before go-live"]%string
     | failed => []
     end.

Definition runIntegrationTests (integration : Integration)
  : IntegrationValidationResult :=
  let testResults := runBattery integration in
  let pct := completionPercentage testResults in
  {| validated_integration_id := integration_id integration;
     overall_status := overallStatus pct;
     test_results := testResults;
     completion_percentage := pct;
     next_steps := nextSteps testResults (overallStatus pct) |}.
End WithClock.

(** The credentials the authentication test of each type looks for; a
    credential counts as present when its value is truthy, as in the
    [key_present] / [credentials_present] details of the sources. *)
Definition credentialsPresent (t : IntegrationType) (config : gmap string Js.JsValue)
  : bool :=
  let present k := Js.truthy (Js.prop config k) in
  match t with
  | SIS => present "api_key"
  | CRM => present "client_id" && present "client_secret"
  | SFTP => present "username" && (present "password" || present "private_key")
  | API => present "api_key" || present "bearer_token"
  | other => true
  end.

End IntegrationLifecycle.

(** ** Audit trail (the audit-trail module) *)

Module AuditTrail.

(** Entity and event types are strings at run time (several callers cast
    event names the unions do not list). *)
Record CreateAuditRecord : Type := {
  entity_type : string;
  entity_id : string;
  event_type : string;
  metadata : option (gmap string Js.JsValue)
}.

(** The row handed to [insert]. *)
Record AuditRow : Type := {
  row_entity_type : string;
  row_entity_id : string;
  row_event_type : string;
  row_metadata : gmap string Js.JsValue
}.

(** A stored row, with the columns the database fills in. *)
Record EventsAudit : Type := {
  audit_id : string;
  audit_row : AuditRow;
  created_at : string
}.

(** The part of [process.env] the module reads. *)
Record Env : Type := {
  npm_package_version : option string;
  NODE_ENV : option string
}.

(** [process.env.X || fallback]: unset and empty both fall back. *)
Definition orElse (v : option string) (fallback : string) : string :=
  match v with
  | Some s => if String.eqb s "" then fallback else s
  | None => fallback
  end.

(** [{ ...metadata, timestamp, system_version, environment }] *)
Definition enhanceMetadata (env : Env) (isoNow : string)
    (md : option (gmap string Js.JsValue)) : gmap string Js.JsValue :=
  <["environment" := Js.JsString (orElse (NODE_ENV env) "development")]>
    (<["system_version" := Js.JsString (orElse (npm_package_version env) "unknown")]>
       (<["timestamp" := Js.JsString isoNow]> (default ∅ md))).

Definition enhanceRecord (env : Env) (isoNow : string) (record : CreateAuditRecord)
  : AuditRow :=
  {| row_entity_type := entity_type record;
     row_entity_id := entity_id record;
     row_event_type := event_type record;
     row_metadata := enhanceMetadata env isoNow (metadata record) |}.

Section WithClient.
Context {Store : Type}.
(** [supabase.from("events_audit").insert(rows).select()]: the new
    store, and the error message or the stored rows. *)
Variable insertSelect : list AuditRow -> Store -> Store * (string + list EventsAudit).
Variable env : Env.
(** The successive readings of [new Date().toISOString()]. *)
Variable clock : nat -> string.

(** [.single()] *)
Definition single (rows : list EventsAudit) : string + EventsAudit :=
  match rows with
  | [row] => inr row
  | _ => inl "JSON object requested, multiple (or no) rows returned"%string
  end.

(** [inl] is the thrown [Error]'s message. *)
Definition createAuditRecord (record : CreateAuditRecord) (st : Store)
  : Store * (string + EventsAudit) :=
  let enhanced := enhanceRecord env (clock 0%nat) record in
  match insertSelect [enhanced] st with
  | (st', inl msg) => (st', inl ("Audit logging failed: " +:+ msg))
  | (st', inr rows) =>
      match single rows with
      | inl msg => (st', inl ("Audit logging failed: " +:+ msg))
      | inr auditRecord => (st', inr auditRecord)
      end
  end.

Definition createAuditRecords (records : list CreateAuditRecord) (st : Store)
  : Store * (string + list EventsAudit) :=
  let enhancedRecords := imap (fun i record => enhanceRecord env (clock i) record) records in
  match insertSelect enhancedRecords st with
  | (st', inl msg) => (st', inl ("Batch audit logging failed: " +:+ msg))
  | (st', inr rows) => (st', inr rows)
  end.
End WithClient.

(** An in-memory table standing for the database when a run is needed:
    rows are appended, ids count the rows, [created_at] is fixed. *)
Definition memoryInsert (rows : list AuditRow) (st : list EventsAudit)
  : list EventsAudit * (string + list EventsAudit) :=
  let stored :=
    imap (fun i r => {| audit_id := Js.showZ (Z.of_nat (length st + i));
                        audit_row := r;
                        created_at := "1970-01-01T00:00:00.000Z" |}) rows in
  (st ++ stored, inr stored).

End AuditTrail.

(** ** The audit query route ([GET /api/audit]) *)

Module AuditRoute.

Record AuditQueryFilters : Type := {
  f_entity_type : option string;
  f_entity_id : option string;
  f_event_type : option string;
  f_onboarding_id : option string;
  f_customer_id : option string;
  f_date_from : option string;
  f_date_to : option string;
  f_source : option string;
  f_limit : option Z;
  f_offset : option Z
}.

(** [searchParams.get(key)]: the first value of the key, if any. *)
Definition get (searchParams : list (string * string)) (key : string) : option string :=
  snd <$> List.find (fun kv => String.eqb (fst kv) key) searchParams.

(** [if (searchParams.get(key)) filters.key = searchParams.get(key)]: a
    missing or empty value leaves the field unset. *)
Definition textFilter (searchParams : list (string * string)) (key : string)
  : option string :=
  match get searchParams key with
  | Some v => if String.eqb v "" then None else Some v
  | None => None
  end.

(** Lines 69-74: the limit is kept when [0 < limit <= 1000]. *)
Definition limitFilter (searchParams : list (string * string)) : option Z :=
  match textFilter searchParams "limit" with
  | Some v =>
      let limit := Js.parseInt v in
      if Js.gt limit (Js.Num 0) && Js.le limit (Js.Num 1000) then
        match limit with Js.Num l => Some l | Js.NaN => None end
      else None
  | None => None
  end.

(** Lines 76-81: the offset is kept when [offset >= 0]. *)
Definition offsetFilter (searchParams : list (string * string)) : option Z :=
  match textFilter searchParams "offset" with
  | Some v =>
      let offset := Js.parseInt v in
      if Js.ge offset (Js.Num 0) then
        match offset with Js.Num o => Some o | Js.NaN => None end
      else None
  | None => None
  end.

Definition buildFilters (searchParams : list (string * string)) : AuditQueryFilters :=
  {| f_entity_type := textFilter searchParams "entity_type";
     f_entity_id := textFilter searchParams "entity_id";
     f_event_type := textFilter searchParams "event_type";
     f_onboarding_id := textFilter searchParams "onboarding_id";
     f_customer_id := textFilter searchParams "customer_id";
     f_date_from := textFilter searchParams "date_from";
     f_date_to := textFilter searchParams "date_to";
     f_source := textFilter searchParams "source";
     f_limit := limitFilter searchParams;
     f_offset := offsetFilter searchParams |}.

Section WithLedger.
Context {Summary : Type}.
(** The two functions the handler imports from the audit-trail module;
    [inl] is the message of the error they throw. *)
Variable queryAuditTrail : AuditQueryFilters -> string + list AuditTrail.EventsAudit.
Variable generateAuditSummary : AuditQueryFilters -> string + Summary.

Inductive Response : Type :=
| JsonRecords (audit_records : list AuditTrail.EventsAudit) (count : Z)
              (filters : AuditQueryFilters)
| JsonSummary (summary : Summary)
| JsonError (error details : string).

Definition statusCode (r : Response) : Z :=
  match r with
  | JsonRecords _ _ _ | JsonSummary _ => 200
  | JsonError _ _ => 500
  end.

(** The handler, on the query parameters of the request URL. *)
Definition GET (searchParams : list (string * string)) : Response :=
  let summaryRequested := bool_decide (get searchParams "summary" = Some "true"%string) in
  let filters := buildFilters searchParams in
  if summaryRequested then
    match generateAuditSummary filters with
    | inr summary => JsonSummary summary
    | inl msg => JsonError "Failed to query audit trail" msg
    end
  else
    match queryAuditTrail filters with
    | inr auditRecords =>
        JsonRecords auditRecords (Z.of_nat (length auditRecords)) filters
    | inl msg => JsonError "Failed to query audit trail" msg
    end.
End WithLedger.

(** A request is refused when the handler answers with an error instead
    of the records or the summary. *)
Definition refused {Summary} (r : @Response Summary) : bool :=
  match r with
  | JsonError _ _ => true
  | _ => false
  end.

End AuditRoute.

(** ** Vocabulary of the properties *)

(** Some stakeholder of the list has the role. *)
Definition hasRole (stakeholders : list Stakeholder) (r : string) : Prop :=
  exists s, In s stakeholders /\ role s = r.

(** The date is valid and strictly later than the instant [now]. *)
Definition strictlyAfter (d : Js.JsDate) (now : Z) : Prop :=
  match d with
  | Js.ValidDate ms => now < ms
  | Js.InvalidDate => False
  end.

(** The task type reaches the go-live branch of [calculateTaskDueDate]: it
    names go-live and none of the families tested before it. *)
Definition isGoLiveTask (t : string) : bool :=
  Js.includes t "go_live"
  && negb (Js.includes t "kickoff") && negb (Js.includes t "requirements")
  && negb (Js.includes t "setup") && negb (Js.includes t "testing")
  && negb (Js.includes t "security") && negb (Js.includes t "compliance").

(** Number of successful results of a battery. *)
Definition passedCount (results : list IntegrationLifecycle.IntegrationTestResult) : Z :=
  Z.of_nat (length (filter (fun t => IntegrationLifecycle.success t = true) results)).

(** Sample data for running the definitions. *)
Module Sample.

Definition DAY : Z := 86400000.

(** 2023-11-15T00:00:00.000Z *)
Definition now : Z := 1700006400000.

Definition task (ty owner : string) (st : TaskStatus) (due : option Js.JsDate)
  : OnboardingTask :=
  {| task_id := "task-1"; task_type := ty; title := "Sample task";
     owner_role := owner; assigned_to := None; status := st; priority := medium;
     due_date := due; is_blocker := false; blocker_reason := None |}.

Definition daysAgo (n : Z) : option Js.JsDate := Some (Js.ValidDate (now - n * DAY)).

Definition lead : Stakeholder :=
  {| stakeholder_id := "s1"; role := "technical_lead"; name := "Lee";
     email := "lee@example.edu" |}.
Definition manager : Stakeholder :=
  {| stakeholder_id := "s2"; role := "project_manager"; name := "Pat";
     email := "pat@example.edu" |}.
Definition sponsor : Stakeholder :=
  {| stakeholder_id := "s3"; role := "owner"; name := "Sam";
     email := "sam@example.edu" |}.

Definition env : AuditTrail.Env :=
  {| AuditTrail.npm_package_version := Some "0.1.0"%string;
     AuditTrail.NODE_ENV := Some "production"%string |}.

Definition clock (i : nat) : string := "2023-11-15T00:00:00.000Z".

Definition bareRecord : AuditTrail.CreateAuditRecord :=
  {| AuditTrail.entity_type := "customer"; AuditTrail.entity_id := "c1";
     AuditTrail.event_type := "customer_created"; AuditTrail.metadata := None |}.

(** An SFTP drop whose password is the empty string. *)
Definition sftpDrop : IntegrationLifecycle.Integration :=
  {| IntegrationLifecycle.integration_id := "i1";
     IntegrationLifecycle.integration_type := IntegrationLifecycle.SFTP;
     IntegrationLifecycle.integration_name := "Roster drop";
     IntegrationLifecycle.integration_configuration :=
       Some (<["username" := Js.JsString "svc"]> (<["password" := Js.JsString ""]> ∅)) |}.

Definition isoNow : string := "2023-11-15T00:00:00.000Z".

(** An empty ledger: every query succeeds with no record. *)
Definition emptyQuery (_ : AuditRoute.AuditQueryFilters)
  : string + list AuditTrail.EventsAudit := inr [].
Definition emptySummary (_ : AuditRoute.AuditQueryFilters) : string + unit := inr tt.

End Sample.

(** ** Task priority (the task-assignment module, [calculateTaskPriority]) *)

Module TaskPriority.

(** The optional [integration] argument is never read. *)
Definition calculateTaskPriority (t : string) : Level :=
  if Js.includes t "security" || Js.includes t "sis_setup" then critical
  else if Js.includes t "kickoff" || Js.includes t "requirements"
          || Js.includes t "go_live" || Js.includes t "setup" then high
  else if Js.includes t "testing" || Js.includes t "planning" then medium
  else medium.

End TaskPriority.

(** ** Integration status tracking
       (src/lib/integration-lifecycle.ts, [IntegrationStatusTracker]) *)

Module IntegrationStatusTracker.

Inductive IntegrationStatus : Type :=
  not_configured | configured | testing | active | failed.

#[global] Instance IntegrationStatus_eq_dec : EqDecision IntegrationStatus.
Proof. solve_decision. Defined.

(** An integration with the fields the tracker reads besides those the
    tester reads. *)
Record TrackedIntegration : Type := {
  integration : IntegrationLifecycle.Integration;
  integration_status : IntegrationStatus;
  integration_test_results : option (gmap string Js.JsValue)
}.

Definition determineIntegrationStatus
    (validationResult : IntegrationLifecycle.IntegrationValidationResult)
  : IntegrationStatus :=
  match IntegrationLifecycle.overall_status validationResult with
  | IntegrationLifecycle.passed => active
  | IntegrationLifecycle.warning => testing
  | IntegrationLifecycle.failed => failed
  end.

(** The [statusBreakdown] object: one counter per status. *)
Record StatusBreakdown : Type := {
  count_not_configured : Z;
  count_configured : Z;
  count_testing : Z;
  count_active : Z;
  count_failed : Z
}.

Definition emptyBreakdown : StatusBreakdown :=
  {| count_not_configured := 0; count_configured := 0; count_testing := 0;
     count_active := 0; count_failed := 0 |}.

(** [statusBreakdown[status]++] *)
Definition increment (b : StatusBreakdown) (s : IntegrationStatus) : StatusBreakdown :=
  match s with
  | not_configured =>
      {| count_not_configured := count_not_configured b + 1;
         count_configured := count_configured b; count_testing := count_testing b;
         count_active := count_active b; count_failed := count_failed b |}
  | configured =>
      {| count_not_configured := count_not_configured b;
         count_configured := count_configured b + 1; count_testing := count_testing b;
         count_active := count_active b; count_failed := count_failed b |}
  | testing =>
      {| count_not_configured := count_not_configured b;
         count_configured := count_configured b; count_testing := count_testing b + 1;
         count_active := count_active b; count_failed := count_failed b |}
  | active =>
      {| count_not_configured := count_not_configured b;
         count_configured := count_configured b; count_testing := count_testing b;
         count_active := count_active b + 1; count_failed := count_failed b |}
  | failed =>
      {| count_not_configured := count_not_configured b;
         count_configured := count_configured b; count_testing := count_testing b;
         count_active := count_active b; count_failed := count_failed b + 1 |}
  end.

Record IntegrationProgress : Type := {
  total_integrations : Z;
  completed_integrations : Z;
  progress_percentage : Z;
  status_breakdown : StatusBreakdown
}.

Record ReportDetail : Type := {
  detail_integration_name : string;
  detail_type : IntegrationLifecycle.IntegrationType;
  detail_status : IntegrationStatus;
  detail_last_tested : Js.JsValue;
  detail_issues : option (list string)
}.

Record StatusReport : Type := {
  summary : string;
  details : list ReportDetail;
  recommendations : list string
}.

Section WithArithmetic.
(** [Math.round((completed / total) * 100)] as the double arithmetic of the
    host evaluates it, for [0 <= completed <= total] and [0 < total]. *)
Variable percentOf : Z -> Z -> Z.

Definition calculateIntegrationProgress (integrations : list TrackedIntegration)
  : IntegrationProgress :=
  let total := Z.of_nat (length integrations) in
  let completed :=
    Z.of_nat (length (filter (fun i => integration_status i = active) integrations)) in
  let percentage := if 0 <? total then percentOf completed total else 0 in
  {| total_integrations := total;
     completed_integrations := completed;
     progress_percentage := percentage;
     status_breakdown :=
       fold_left (fun b i => increment b (integration_status i)) integrations
                 emptyBreakdown |}.

Definition detailOf (i : TrackedIntegration) : ReportDetail :=
  {| detail_integration_name := IntegrationLifecycle.integration_name (integration i);
     detail_type := IntegrationLifecycle.integration_type (integration i);
     detail_status := integration_status i;
     detail_last_tested :=
       match integration_test_results i with
       | Some results => Js.prop results "timestamp"
       | None => Js.JsUndefined
       end;
     detail_issues :=
       if bool_decide (integration_status i = failed)
       then Some ["Integration tests failed"%string] else None |}.

Definition generateStatusReport (integrations : list TrackedIntegration) : StatusReport :=
  let progress := calculateIntegrationProgress integrations in
  let breakdown := status_breakdown progress in
  {| summary :=
       "Integration Progress: " +:+ Js.showZ (progress_percentage progress)
         +:+ "% complete (" +:+ Js.showZ (completed_integrations progress)
         +:+ "/" +:+ Js.showZ (total_integrations progress) +:+ ")";
     details := map detailOf integrations;
     recommendations :=
       (if 0 <? count_not_configured breakdown then
          ["Configure " +:+ Js.showZ (count_not_configured breakdown)
             +:+ " pending integration(s)"]
        else [])
       ++ (if 0 <? count_failed breakdown then
             ["Fix " +:+ Js.showZ (count_failed breakdown) +:+ " failed integration(s)"]
           else [])
       ++ (if 0 <? count_testing breakdown then
             ["Complete testing for " +:+ Js.showZ (count_testing breakdown)
                +:+ " integration(s)"]
           else [])
       ++ (if progress_percentage progress =? 100 then
             ["All integrations ready - proceed with go-live"%string]
           else []) |}.
End WithArithmetic.

(** Number of integrations of the list in a status. *)
Definition countStatus (s : IntegrationStatus) (integrations : list TrackedIntegration) : Z :=
  Z.of_nat (length (filter (fun i => integration_status i = s) integrations)).

End IntegrationStatusTracker.

(** Rank of a level, from [low] to [critical]. *)
Definition levelRank (l : Level) : Z :=
  match l with low => 0 | medium => 1 | high => 2 | critical => 3 end.

(** The four stakeholder roles. *)
Definition stakeholderRoles : list string :=
  ["owner"; "it_contact"; "project_manager"; "technical_lead"]%string.

(** ** Audit queries and summaries (the audit-trail module) *)

Module AuditQuery.

(** The calls chained on [supabase.from("events_audit").select("*")], in
    the order they are made. *)
Inductive Clause : Type :=
| WhereEq (column value : string)
| WhereGte (column value : string)
| WhereLte (column value : string)
| Limit (count : Z)
| Range (from to : Z)
| OrderDescending (column : string).

(** What awaiting a query gives: [data] may be [null], [error] is set on
    failure. *)
Record QueryResponse (Row : Type) : Type := {
  data : option (list Row);
  error : option string
}.
Arguments data {Row} _.
Arguments error {Row} _.

(** [if (filters.key) query = query.op(column, filters.key)] *)
Definition whenText (v : option string) (clause : string -> Clause) : list Clause :=
  match v with
  | Some s => if String.eqb s "" then [] else [clause s]
  | None => []
  end.

(** A number that is set and not 0. *)
Definition whenNumber (n : option Z) : option Z :=
  match n with
  | Some z => if z =? 0 then None else Some z
  | None => None
  end.

(** The calls of [queryAuditTrail] on the query, for filters whose
    numbers are integers.  The end of the row window is computed on the
    integers: that is the sum of the doubles as long as it stays within
    the safe integers. *)
Definition buildQuery (filters : AuditRoute.AuditQueryFilters) : list Clause :=
  whenText (AuditRoute.f_entity_type filters) (WhereEq "entity_type")
  ++ whenText (AuditRoute.f_entity_id filters) (WhereEq "entity_id")
  ++ whenText (AuditRoute.f_event_type filters) (WhereEq "event_type")
  ++ whenText (AuditRoute.f_onboarding_id filters) (WhereEq "metadata->onboarding_id")
  ++ whenText (AuditRoute.f_customer_id filters) (WhereEq "metadata->customer_id")
  ++ whenText (AuditRoute.f_date_from filters) (WhereGte "created_at")
  ++ whenText (AuditRoute.f_date_to filters) (WhereLte "created_at")
  ++ whenText (AuditRoute.f_source filters) (WhereEq "metadata->source")
  ++ match whenNumber (AuditRoute.f_limit filters) with
     | Some limit => [Limit limit]
     | None => []
     end
  ++ match whenNumber (AuditRoute.f_offset filters) with
     | Some offset =>
         [Range offset
                (offset + default 100 (whenNumber (AuditRoute.f_limit filters)) - 1)]
     | None => []
     end
  ++ [OrderDescending "created_at"].

Definition noFilters : AuditRoute.AuditQueryFilters :=
  {| AuditRoute.f_entity_type := None; AuditRoute.f_entity_id := None;
     AuditRoute.f_event_type := None; AuditRoute.f_onboarding_id := None;
     AuditRoute.f_customer_id := None; AuditRoute.f_date_from := None;
     AuditRoute.f_date_to := None; AuditRoute.f_source := None;
     AuditRoute.f_limit := None; AuditRoute.f_offset := None |}.

(** [{ ...filters, limit }] *)
Definition withLimit (filters : AuditRoute.AuditQueryFilters) (limit : Z)
  : AuditRoute.AuditQueryFilters :=
  {| AuditRoute.f_entity_type := AuditRoute.f_entity_type filters;
     AuditRoute.f_entity_id := AuditRoute.f_entity_id filters;
     AuditRoute.f_event_type := AuditRoute.f_event_type filters;
     AuditRoute.f_onboarding_id := AuditRoute.f_onboarding_id filters;
     AuditRoute.f_customer_id := AuditRoute.f_customer_id filters;
     AuditRoute.f_date_from := AuditRoute.f_date_from filters;
     AuditRoute.f_date_to := AuditRoute.f_date_to filters;
     AuditRoute.f_source := AuditRoute.f_source filters;
     AuditRoute.f_limit := Some limit;
     AuditRoute.f_offset := AuditRoute.f_offset filters |}.

(** *** Pieces of [generateAuditSummary] *)

(** A counter of [eventsByType] / [eventsByEntity].  Both start as [{}], so
    for a key that names a member inherited from [Object.prototype]
    [(counts[key] || 0) + 1] appends "1" to the text of a function: the
    value is then [Mangled], not a number, and stays so. *)
Inductive Counter : Type :=
| Count (n : Z)
| Mangled.

(** [counts[key] = (counts[key] || 0) + 1]; assigning a string to
    [__proto__] is ignored. *)
Definition bump (counts : gmap string Counter) (key : string) : gmap string Counter :=
  if String.eqb key "__proto__" then counts
  else
    <[key := match Js.lookupLiteral counts key with
             | Js.Own (Count n) => Count (n + 1)
             | Js.Own Mangled => Mangled
             | Js.Inherited => Mangled
             | Js.Absent => Count 1
             end]> counts.

(** [entityActivity], whose keys all contain a colon and so are neither
    inherited member names nor array indices: entries stay in insertion
    order, which is the order of [Object.entries]. *)
Fixpoint bumpEntry (entries : list (string * Z)) (key : string) : list (string * Z) :=
  match entries with
  | [] => [(key, 1)]
  | (k, n) :: rest =>
      if String.eqb k key then (k, n + 1) :: rest
      else (k, n) :: bumpEntry rest key
  end.

(** [key.split(':')] *)
Fixpoint splitColon (s : string) : list string :=
  match s with
  | EmptyString => [EmptyString]
  | String c rest =>
      if Ascii.eqb c ":" then EmptyString :: splitColon rest
      else match splitColon rest with
           | first :: others => String c first :: others
           | [] => [String c EmptyString]
           end
  end.

Record ActiveEntity : Type := {
  active_entity_type : option string;
  active_entity_id : option string;
  event_count : Z
}.

(** [const [entity_type, entity_id] = key.split(':')] *)
Definition activeEntityOf (entry : string * Z) : ActiveEntity :=
  let parts := splitColon (fst entry) in
  {| active_entity_type := nth_error parts 0;
     active_entity_id := nth_error parts 1;
     event_count := snd entry |}.

(** [sort((a, b) => b.event_count - a.event_count)], a stable sort: an
    entity goes after those seen before it that have at least its count. *)
Fixpoint insertByCount (e : ActiveEntity) (sorted : list ActiveEntity) : list ActiveEntity :=
  match sorted with
  | [] => [e]
  | first :: rest =>
      if event_count e <=? event_count first then first :: insertByCount e rest
      else e :: sorted
  end.

Definition sortByCount (entities : list ActiveEntity) : list ActiveEntity :=
  fold_left (fun sorted e => insertByCount e sorted) entities [].

Record AuditSummary : Type := {
  total_events : Z;
  events_by_type : gmap string Counter;
  events_by_entity : gmap string Counter;
  earliest : string;
  latest : string;
  most_active_entities : list ActiveEntity
}.

(** The accumulators of the loop over the records. *)
Record Tally : Type := {
  eventsByType : gmap string Counter;
  eventsByEntity : gmap string Counter;
  entityActivity : list (string * Z);
  tallyEarliest : string;
  tallyLatest : string
}.

(** A column value inside a template literal: [null] prints as "null". *)
Definition showColumn (v : option string) : string := default "null"%string v.

(** [value || 'unknown'] *)
Definition orUnknown (v : option string) : string :=
  match v with
  | Some s => if String.eqb s "" then "unknown"%string else s
  | None => "unknown"%string
  end.

Section WithRows.
(** Rows as the database returns them: the three text columns may be
    [null]. *)
Context {Row : Type}.
Variable rowEntityType : Row -> option string.
Variable rowEntityId : Row -> option string.
Variable rowEventType : Row -> option string.
Variable rowCreatedAt : Row -> string.
(** [await query] for the chained calls. *)
Variable runSelect : list Clause -> QueryResponse Row.

(** [inl] is the message of the thrown error. *)
Definition queryAuditTrail (filters : AuditRoute.AuditQueryFilters) : string + list Row :=
  let response := runSelect (buildQuery filters) in
  match error response with
  | Some msg => inl ("Audit query failed: " +:+ msg)
  | None => inr (default [] (data response))
  end.

Definition getOnboardingAuditTrail (onboardingId : string) : string + list Row :=
  queryAuditTrail
    {| AuditRoute.f_entity_type := None; AuditRoute.f_entity_id := None;
       AuditRoute.f_event_type := None; AuditRoute.f_onboarding_id := Some onboardingId;
       AuditRoute.f_customer_id := None; AuditRoute.f_date_from := None;
       AuditRoute.f_date_to := None; AuditRoute.f_source := None;
       AuditRoute.f_limit := None; AuditRoute.f_offset := None |}.

Definition getEntityAuditTrail (entityType entityId : string) : string + list Row :=
  queryAuditTrail
    {| AuditRoute.f_entity_type := Some entityType; AuditRoute.f_entity_id := Some entityId;
       AuditRoute.f_event_type := None; AuditRoute.f_onboarding_id := None;
       AuditRoute.f_customer_id := None; AuditRoute.f_date_from := None;
       AuditRoute.f_date_to := None; AuditRoute.f_source := None;
       AuditRoute.f_limit := None; AuditRoute.f_offset := None |}.

Definition entityKey (record : Row) : string :=
  showColumn (rowEntityType record) +:+ ":" +:+ showColumn (rowEntityId record).

(** The body of [auditRecords.forEach]. *)
Definition tallyRecord (t : Tally) (record : Row) : Tally :=
  {| eventsByType := bump (eventsByType t) (orUnknown (rowEventType record));
     eventsByEntity := bump (eventsByEntity t) (orUnknown (rowEntityType record));
     entityActivity := bumpEntry (entityActivity t) (entityKey record);
     tallyEarliest :=
       if String.ltb (rowCreatedAt record) (tallyEarliest t)
       then rowCreatedAt record else tallyEarliest t;
     tallyLatest :=
       if String.ltb (tallyLatest t) (rowCreatedAt record)
       then rowCreatedAt record else tallyLatest t |}.

Definition epochIso : string := "1970-01-01T00:00:00.000Z".

(** [isoNow] is [new Date().toISOString()], read after the query. *)
Definition summarize (isoNow : string) (auditRecords : list Row) : AuditSummary :=
  let t := fold_left tallyRecord auditRecords
             {| eventsByType := ∅; eventsByEntity := ∅; entityActivity := [];
                tallyEarliest := isoNow; tallyLatest := epochIso |} in
  {| total_events := Z.of_nat (length auditRecords);
     events_by_type := eventsByType t;
     events_by_entity := eventsByEntity t;
     earliest := tallyEarliest t;
     latest := tallyLatest t;
     most_active_entities :=
       firstn 10 (sortByCount (map activeEntityOf (entityActivity t))) |}.

Definition generateAuditSummary (isoNow : string) (filters : AuditRoute.AuditQueryFilters)
  : string + AuditSummary :=
  match queryAuditTrail (withLimit filters 10000) with
  | inl msg => inl msg
  | inr auditRecords => inr (summarize isoNow auditRecords)
  end.

End WithRows.

(** The handler of [GET /api/audit] with the two functions it imports, on
    rows whose text columns are set. *)
Definition auditGET (runSelect : list Clause -> QueryResponse AuditTrail.EventsAudit)
    (isoNow : string) (searchParams : list (string * string))
  : @AuditRoute.Response AuditSummary :=
  AuditRoute.GET
    (queryAuditTrail runSelect)
    (generateAuditSummary
       (fun r => Some (AuditTrail.row_entity_type (AuditTrail.audit_row r)))
       (fun r => Some (AuditTrail.row_entity_id (AuditTrail.audit_row r)))
       (fun r => Some (AuditTrail.row_event_type (AuditTrail.audit_row r)))
       AuditTrail.created_at runSelect isoNow)
    searchParams.

(** Sum of the numeric counters. *)
Definition counted (counts : gmap string Counter) : Z :=
  map_fold (fun _ c acc => match c with Count n => n + acc | Mangled => acc end) 0 counts.

End AuditQuery.

(** Number of records of a list whose key, under [key], is [k]. *)
Definition occurrences {Row} (key : Row -> string) (k : string) (records : list Row) : Z :=
  Z.of_nat (length (filter (fun r => key r = k) records)).

(** Clauses that cap or window the result of a query. *)
Definition isPaging (c : AuditQuery.Clause) : bool :=
  match c with
  | AuditQuery.Limit _ | AuditQuery.Range _ _ => true
  | _ => false
  end.

(** The string has no colon. *)
Definition colonFree (s : string) : Prop := ~ In ":"%char (list_ascii_of_string s).

(** What a counter adds to the sum of the counts. *)
Definition weight (c : AuditQuery.Counter) : Z :=
  match c with AuditQuery.Count n => n | AuditQuery.Mangled => 0 end.

(** Sum of the counts of a list of entries. *)
Definition totalCount (entries : list (string * Z)) : Z :=
  fold_right (fun e acc => snd e + acc) 0 entries.

(** Numbers sit at keys that are not inherited member names, and only
    there. *)
Definition counters_ok (m : gmap string AuditQuery.Counter) : Prop :=
  forall k c, m !! k = Some c ->
              match c with
              | AuditQuery.Count n => (k ∉ Js.objectPrototypeKeys) /\ 1 <= n
              | AuditQuery.Mangled => k ∈ Js.objectPrototypeKeys
              end.

(** ** The audit routes by path
       ([GET /api/audit/entity/[entity_type]/[entity_id]] and
        [GET /api/audit/onboarding/[onboarding_id]]) *)

Module AuditPathRoutes.

Definition validEntityTypes : list string :=
  ["customer"; "onboarding"; "task"; "stakeholder";
   "integration"; "blocker"; "escalation"; "system"]%string.

(** [arr.join(sep)] *)
Fixpoint join (sep : string) (l : list string) : string :=
  match l with
  | [] => ""
  | [x] => x
  | x :: rest => x +:+ sep +:+ join sep rest
  end.

Inductive Response (Row : Type) : Type :=
| JsonEntityTrail (entity_type entity_id : string) (audit_records : list Row) (count : Z)
| JsonOnboardingTrail (onboarding_id : string) (audit_records : list Row) (count : Z)
| JsonBadRequest (error : string)
| JsonFailure (error details : string).
Arguments JsonEntityTrail {Row} _ _ _ _.
Arguments JsonOnboardingTrail {Row} _ _ _.
Arguments JsonBadRequest {Row} _.
Arguments JsonFailure {Row} _ _.

Definition statusCode {Row} (r : Response Row) : Z :=
  match r with
  | JsonEntityTrail _ _ _ _ | JsonOnboardingTrail _ _ _ => 200
  | JsonBadRequest _ => 400
  | JsonFailure _ _ => 500
  end.

Section WithLedger.
Context {Row : Type}.
(** [await query] of the audit-trail module. *)
Variable runSelect : list AuditQuery.Clause -> AuditQuery.QueryResponse Row.

Definition entityGET (entity_type entity_id : string) : Response Row :=
  if String.eqb entity_type "" || String.eqb entity_id "" then
    JsonBadRequest "Missing entity_type or entity_id parameter"
  else if negb (bool_decide (entity_type ∈ validEntityTypes)) then
    JsonBadRequest ("Invalid entity_type. Must be one of: " +:+ join ", " validEntityTypes)
  else
    match AuditQuery.getEntityAuditTrail runSelect entity_type entity_id with
    | inr auditRecords =>
        JsonEntityTrail entity_type entity_id auditRecords
                        (Z.of_nat (length auditRecords))
    | inl msg => JsonFailure "Failed to retrieve entity audit trail" msg
    end.

Definition onboardingGET (onboarding_id : string) : Response Row :=
  if String.eqb onboarding_id "" then
    JsonBadRequest "Missing onboarding_id parameter"
  else
    match AuditQuery.getOnboardingAuditTrail runSelect onboarding_id with
    | inr auditRecords =>
        JsonOnboardingTrail onboarding_id auditRecords (Z.of_nat (length auditRecords))
    | inl msg => JsonFailure "Failed to retrieve onboarding audit trail" msg
    end.
End WithLedger.

End AuditPathRoutes.

(** Rows of a ledger for running the audit definitions. *)
Module LedgerSample.

Definition row (ident ty entity event stamp : string) : AuditTrail.EventsAudit :=
  {| AuditTrail.audit_id := ident;
     AuditTrail.audit_row :=
       {| AuditTrail.row_entity_type := ty; AuditTrail.row_entity_id := entity;
          AuditTrail.row_event_type := event; AuditTrail.row_metadata := ∅ |};
     AuditTrail.created_at := stamp |}.

Definition rows : list AuditTrail.EventsAudit :=
  [ row "1" "task" "t1" "task_created" "2023-11-01T09:00:00.000Z";
    row "2" "task" "t1" "task_status_changed" "2023-11-02T09:00:00.000Z";
    row "3" "integration" "urn:sis:7" "integration_tested" "2023-11-03T09:00:00.000Z";
    row "4" "task" "t2" "task_created" "2023-11-04T09:00:00.000Z";
    row "5" "task" "t1" "task_completed" "2023-11-05T09:00:00.000Z" ].

Definition typeOf (r : AuditTrail.EventsAudit) : option string :=
  Some (AuditTrail.row_entity_type (AuditTrail.audit_row r)).
Definition idOf (r : AuditTrail.EventsAudit) : option string :=
  Some (AuditTrail.row_entity_id (AuditTrail.audit_row r)).
Definition eventOf (r : AuditTrail.EventsAudit) : option string :=
  Some (AuditTrail.row_event_type (AuditTrail.audit_row r)).

Definition summary : AuditQuery.AuditSummary :=
  AuditQuery.summarize typeOf idOf eventOf AuditTrail.created_at Sample.isoNow rows.

(** A ledger that answers every query with [rows]. *)
Definition runSelect (_ : list AuditQuery.Clause)
  : AuditQuery.QueryResponse AuditTrail.EventsAudit :=
  {| AuditQuery.data := Some rows; AuditQuery.error := None |}.

End LedgerSample.

(** ** Stakeholder notifications (src/lib/notification-system.ts) *)

Module Notification.

Inductive NotificationType : Type :=
  blocker_created | task_escalated | task_reminder | blocker_resolved.

Record NotificationPayload : Type := {
  type : NotificationType;
  recipients : list string;
  subject : string;
  message : string;
  urgency : Level;
  metadata : list (string * Js.JsValue)
}.

Record NotificationResult : Type := {
  success : bool;
  notificationId : option string;
  error : option string
}.

(** What awaiting [fetch] gives: a response with its status, or a
    rejection with the message of its error. *)
Inductive FetchOutcome : Type :=
| Responded (status : Z)
| Rejected (reason : string).

(** [response.ok] *)
Definition ok (status : Z) : bool := (200 <=? status) && (status <=? 299).

Definition sent (notificationId : string) : NotificationResult :=
  {| success := true; notificationId := Some notificationId; error := None |}.

Definition failed (reason : string) : NotificationResult :=
  {| success := false; notificationId := None; error := Some reason |}.

Section WithHost.
Context {World : Type}.
(** [process.env.N8N_NOTIFICATION_WEBHOOK_URL] *)
Variable webhookUrl : option string.
(** The [POST] of a payload to a URL. *)
Variable post : string -> NotificationPayload -> World -> World * FetchOutcome.
(** [Date.now()] *)
Variable dateNow : World -> Z.
(** The message bodies and metadata objects: templates over the task
    (lines 256-351 and the object literals), whose text depends on the
    host's date format and on how an absent column is stored. *)
Variable generateBlockerNotificationMessage : OnboardingTask -> string -> string.
Variable generateEscalationNotificationMessage :
  OnboardingTask -> Escalation.EscalationResult -> string -> string.
Variable generateBlockerResolutionMessage :
  OnboardingTask -> string -> option string -> string.
Variable blockerMetadata : OnboardingTask -> string -> list (string * Js.JsValue).
Variable escalationMetadata :
  OnboardingTask -> Escalation.EscalationResult -> string -> list (string * Js.JsValue).
Variable resolutionMetadata :
  OnboardingTask -> string -> option string -> list (string * Js.JsValue).

Definition sendNotification (notification : NotificationPayload) (w : World)
  : World * NotificationResult :=
  match webhookUrl with
  | Some url =>
      if String.eqb url "" then (w, sent ("log-" +:+ Js.showZ (dateNow w)))
      else
        match post url notification w with
        | (w', Responded status) =>
            if ok status then (w', sent ("n8n-" +:+ Js.showZ (dateNow w')))
            else (w', failed ("Notification webhook failed: " +:+ Js.showZ status))
        | (w', Rejected reason) => (w', failed reason)
        end
  | None => (w, sent ("log-" +:+ Js.showZ (dateNow w)))
  end.

Definition blockerNotice (task : OnboardingTask) (customerName : string)
    (escalationRecipients : list string) : NotificationPayload :=
  {| type := blocker_created;
     recipients := escalationRecipients;
     subject := "[BLOCKED] Task Blocked: " +:+ title task +:+ " - " +:+ customerName;
     message := generateBlockerNotificationMessage task customerName;
     urgency := if bool_decide (priority task = critical) then critical else high;
     metadata := blockerMetadata task customerName |}.

Definition notifyStakeholdersAboutBlocker
    (task : OnboardingTask) (stakeholders : list Stakeholder) (customerName : string)
    (escalationRecipients : list string) (w : World) : World * NotificationResult :=
  sendNotification (blockerNotice task customerName escalationRecipients) w.

Definition escalationNotice (task : OnboardingTask)
    (escalationResult : Escalation.EscalationResult) (customerName : string)
    (recipients : list string) : NotificationPayload :=
  {| type := task_escalated;
     recipients := recipients;
     subject := "[OVERDUE] Task Escalation: " +:+ title task +:+ " - " +:+ customerName;
     message := generateEscalationNotificationMessage task escalationResult customerName;
     urgency := Escalation.urgencyLevel escalationResult;
     metadata := escalationMetadata task escalationResult customerName |}.

Definition notifyStakeholdersAboutEscalation
    (task : OnboardingTask) (escalationResult : Escalation.EscalationResult)
    (stakeholders : list Stakeholder) (customerName : string) (w : World)
  : World * NotificationResult :=
  let recipients :=
    Escalation.collectRecipients stakeholders (Escalation.escalateTo escalationResult) in
  match recipients with
  | [] => (w, failed "No valid recipients found for escalation")
  | _ => sendNotification (escalationNotice task escalationResult customerName recipients) w
  end.

(** The recipient list of [notifyBlockerResolution]: the assignee, then
    the project manager's address unless it is already there. *)
Definition resolutionRecipients (task : OnboardingTask) (stakeholders : list Stakeholder)
  : list string :=
  let recipients :=
    match assigned_to task with
    | Some a => if String.eqb a "" then [] else [a]
    | None => []
    end in
  match findByRole stakeholders "project_manager" with
  | Some projectManager =>
      if bool_decide (email projectManager ∈ recipients) then recipients
      else recipients ++ [email projectManager]
  | None => recipients
  end.

Definition resolutionNotice (task : OnboardingTask) (customerName : string)
    (resolutionNotes : option string) (recipients : list string) : NotificationPayload :=
  {| type := blocker_resolved;
     recipients := recipients;
     subject := "[RESOLVED] Blocker Cleared: " +:+ title task +:+ " - " +:+ customerName;
     message := generateBlockerResolutionMessage task customerName resolutionNotes;
     urgency := medium;
     metadata := resolutionMetadata task customerName resolutionNotes |}.

Definition notifyBlockerResolution
    (task : OnboardingTask) (stakeholders : list Stakeholder) (customerName : string)
    (resolutionNotes : option string) (w : World) : World * NotificationResult :=
  match resolutionRecipients task stakeholders with
  | [] => (w, failed "No valid recipients found for blocker resolution notification")
  | recipients =>
      sendNotification (resolutionNotice task customerName resolutionNotes recipients) w
  end.

(** Whether the host takes a notification: without a webhook it is only
    logged, with one the response must be a 2xx. *)
Definition accepted (notification : NotificationPayload) (w : World) : bool :=
  match webhookUrl with
  | Some url =>
      String.eqb url "" ||
      match snd (post url notification w) with
      | Responded status => ok status
      | Rejected _ => false
      end
  | None => true
  end.

(** The world after the host was handed a notification. *)
Definition handed (notification : NotificationPayload) (w : World) : World :=
  match webhookUrl with
  | Some url => if String.eqb url "" then w else fst (post url notification w)
  | None => w
  end.
End WithHost.

End Notification.

(** A result either carries an identifier and no error, or an error and
    no identifier. *)
Definition wellFormed (r : Notification.NotificationResult) : Prop :=
  if Notification.success r
  then Notification.notificationId r <> None /\ Notification.error r = None
  else Notification.notificationId r = None /\ Notification.error r <> None.

(** The task type has one of the words that make a blocker critical. *)
Definition criticalWord (t : string) : bool :=
  Js.includes t "security" || Js.includes t "sis".

(** The task type has one of the words that make a blocker high. *)
Definition highWord (t : string) : bool :=
  Js.includes t "setup" || Js.includes t "go_live".

(** A host for running the notification definitions: the world is the
    list of payloads posted so far, and the webhook answers 200. *)
Module NoticeSample.

Definition World : Type := list Notification.NotificationPayload.

Definition post (url : string) (n : Notification.NotificationPayload) (w : World)
  : World * Notification.FetchOutcome :=
  (w ++ [n], Notification.Responded 200).

Definition dateNow (_ : World) : Z := Sample.now.

Definition webhookUrl : option string := Some "https://n8n.example/webhook/notify"%string.

Definition noMessage (_ : OnboardingTask) (_ : string) : string := ""%string.
Definition noMetadata (_ : OnboardingTask) (_ : string) : list (string * Js.JsValue) := [].

(** A blocked SIS task of medium priority, owned by the IT contact. *)
Definition blockedTask : OnboardingTask :=
  {| task_id := "t-sis"; task_type := "sis_setup"; title := "Connect the SIS";
     owner_role := "it_contact"; assigned_to := Some "dana@school.example"%string;
     status := blocked; priority := medium; due_date := None;
     is_blocker := true; blocker_reason := Some "Waiting for credentials"%string |}.

End NoticeSample.

(** ** The escalation route (src/app/api/escalations/route.ts) *)

Module EscalationRoute.

(** The filter calls chained on a [select], in the order they are made. *)
Inductive Call : Type :=
| eq (column value : string)
| isIn (column : string) (values : list string)
| gte (column value : string)
| orderDescending (column : string)
| limit (count : Z).

Record Outcome : Type := {
  onboarding_id : string;
  escalationsTriggered : Z;
  errors : list string
}.

Definition levelName (l : Level) : string :=
  match l with
  | low => "low" | medium => "medium" | high => "high" | critical => "critical"
  end.

(** A column of a database row that may be null. *)
Definition nullable (v : option string) : Js.JsValue :=
  match v with
  | Some s => Js.JsString s
  | None => Js.JsNull
  end.

(** The audit record of an overdue escalation (lines 139-158).  The
    array [escalated_to] is content the ledger never inspects. *)
Definition overdueRecord (onboardingId customerName : string) (task : OnboardingTask)
    (escalationResult : Escalation.EscalationResult) : AuditTrail.CreateAuditRecord :=
  {| AuditTrail.entity_type := "escalation";
     AuditTrail.entity_id := task_id task;
     AuditTrail.event_type := "escalation_triggered";
     AuditTrail.metadata := Some (list_to_map
       [ ("escalation_type", Js.JsString "task_overdue");
         ("escalation_reason",
            Js.JsString (Escalation.escalationReason escalationResult));
         ("days_overdue", Js.JsNumber (Escalation.daysOverdue escalationResult));
         ("escalated_to", Js.JsOther);
         ("urgency_level",
            Js.JsString (levelName (Escalation.urgencyLevel escalationResult)));
         ("onboarding_id", Js.JsString onboardingId);
         ("customer_name", Js.JsString customerName);
         ("task_type", Js.JsString (task_type task));
         ("task_title", Js.JsString (title task));
         ("owner_role", Js.JsString (owner_role task));
         ("assigned_to", nullable (assigned_to task));
         ("source", Js.JsString "system");
         ("trigger", Js.JsString "automated") ]%string) |}.

(** The audit record of a blocker escalation (lines 203-220). *)
Definition blockerRecord (onboardingId customerName : string) (task : OnboardingTask)
  : AuditTrail.CreateAuditRecord :=
  {| AuditTrail.entity_type := "escalation";
     AuditTrail.entity_id := task_id task;
     AuditTrail.event_type := "escalation_triggered";
     AuditTrail.metadata := Some (list_to_map
       [ ("escalation_type", Js.JsString "blocker");
         ("blocker_reason", nullable (blocker_reason task));
         ("escalated_to", Js.JsOther);
         ("onboarding_id", Js.JsString onboardingId);
         ("customer_name", Js.JsString customerName);
         ("task_type", Js.JsString (task_type task));
         ("task_title", Js.JsString (title task));
         ("owner_role", Js.JsString (owner_role task));
         ("assigned_to", nullable (assigned_to task));
         ("source", Js.JsString "system");
         ("trigger", Js.JsString "automated") ]%string) |}.

(** The look-up of a blocker escalation in the last 24 hours
    (lines 175-183), on the column [created_at] of [events_audit]. *)
Definition recentQuery (task : OnboardingTask) (since : string) : list Call :=
  [ eq "entity_type" "escalation"; eq "entity_id" (task_id task);
    eq "event_type" "blocker_escalated"; gte "created_at" since;
    orderDescending "created_at"; limit 1 ].

(** The query of [GET /api/escalations] (lines 270-279). *)
Definition listingQuery (onboardingId : option string) : list Call :=
  [ eq "entity_type" "escalation";
    isIn "event_type" ["task_escalated"; "blocker_escalated"]%string;
    orderDescending "created_at" ]
  ++ match onboardingId with
     | Some i => if String.eqb i "" then [] else [eq "metadata->onboarding_id" i]
     | None => []
     end.

Section WithServices.
Context {World DbError : Type}.
(** [DEMO_MODE]: the database client is [null] exactly in demo mode. *)
Variable DEMO_MODE : bool.
(** How a template string renders the error object of the database
    client, and the [TypeError] of iterating what is not iterable. *)
Variable showDbError : DbError -> string.
Variable notIterable : string.
(** The reads: an error, or the rows (the client gives an array whenever
    it gives no error); for the onboarding, [customers?.name]. *)
Variable selectTasks : string -> World -> World * (DbError + list OnboardingTask).
Variable selectStakeholders : string -> World -> World * (DbError + list Stakeholder).
Variable selectOnboarding : string -> World -> World * (DbError + option string).
Variable selectRecent : list Call -> World -> World * (DbError + list string).
(** The audit ledger. *)
Variable insertSelect :
  list AuditTrail.AuditRow -> World -> World * (string + list AuditTrail.EventsAudit).
Variable env : AuditTrail.Env.
(** The host: [Date.now()], [toISOString], local midnight. *)
Variable dateNow : World -> Z.
Variable toISOString : Z -> string.
Variable startOfDay : Z -> Z.
(** The notification host and templates. *)
Variable webhookUrl : option string.
Variable post :
  string -> Notification.NotificationPayload -> World -> World * Notification.FetchOutcome.
Variable generateBlockerNotificationMessage : OnboardingTask -> string -> string.
Variable generateEscalationNotificationMessage :
  OnboardingTask -> Escalation.EscalationResult -> string -> string.
Variable blockerMetadata : OnboardingTask -> string -> list (string * Js.JsValue).
Variable escalationMetadata :
  OnboardingTask -> Escalation.EscalationResult -> string -> list (string * Js.JsValue).

(** [await createAuditRecord(record)]; [inl] is the thrown [Error]'s
    message. *)
Definition writeAudit (record : AuditTrail.CreateAuditRecord) (w : World)
  : World * (string + AuditTrail.EventsAudit) :=
  AuditTrail.createAuditRecord insertSelect env (fun _ => toISOString (dateNow w)) record w.

(** The running state of the two loops: the world, [escalationsTriggered]
    and [errors]. *)
Definition Progress : Type := World * Z * list string.

(** The body of the loop over the overdue tasks (lines 128-166). *)
Definition escalateOverdue (onboardingId customerName : string)
    (stakeholders : list Stakeholder) (acc : Progress)
    (item : OnboardingTask * Escalation.EscalationResult) : Progress :=
  let '(w, triggered, errs) := acc in
  let '(task, escalationResult) := item in
  let '(w1, notificationResult) :=
    Notification.notifyStakeholdersAboutEscalation webhookUrl post dateNow
      generateEscalationNotificationMessage escalationMetadata
      task escalationResult stakeholders customerName w in
  if Notification.success notificationResult then
    match writeAudit (overdueRecord onboardingId customerName task escalationResult) w1 with
    | (w2, inr _) => (w2, triggered + 1, errs)
    | (w2, inl msg) =>
        (w2, triggered,
         errs ++ ["Error escalating task " +:+ task_id task +:+ ": Error: " +:+ msg])
    end
  else
    (w1, triggered,
     errs ++ ["Failed to escalate task " +:+ task_id task +:+ ": "
              +:+ default "undefined"%string (Notification.error notificationResult)]).

(** The body of the loop over the blocked tasks (lines 173-229). *)
Definition escalateBlocker (onboardingId customerName : string)
    (stakeholders : list Stakeholder) (acc : Progress) (task : OnboardingTask)
  : Progress :=
  let '(w, triggered, errs) := acc in
  let since := toISOString (dateNow w - 24 * 60 * 60 * 1000) in
  match selectRecent (recentQuery task since) w with
  | (w1, inl escalationCheckError) =>
      (w1, triggered,
       errs ++ ["Error escalating blocker " +:+ task_id task +:+ ": "
                +:+ showDbError escalationCheckError])
  | (w1, inr (_ :: _)) => (w1, triggered, errs)
  | (w1, inr []) =>
      match Escalation.getBlockerEscalationRecipients task stakeholders with
      | None =>
          (w1, triggered,
           errs ++ ["Error escalating blocker " +:+ task_id task +:+ ": " +:+ notIterable])
      | Some found =>
          let '(w2, notificationResult) :=
            Notification.notifyStakeholdersAboutBlocker webhookUrl post dateNow
              generateBlockerNotificationMessage blockerMetadata
              task stakeholders customerName (Escalation.blockerEscalateTo found) w1 in
          if Notification.success notificationResult then
            match writeAudit (blockerRecord onboardingId customerName task) w2 with
            | (w3, inr _) => (w3, triggered + 1, errs)
            | (w3, inl msg) =>
                (w3, triggered,
                 errs ++ ["Error escalating blocker " +:+ task_id task
                          +:+ ": Error: " +:+ msg])
            end
          else
            (w2, triggered,
             errs ++ ["Failed to escalate blocker " +:+ task_id task +:+ ": "
                      +:+ default "undefined"%string
                            (Notification.error notificationResult)])
      end
  end.

(** The outcome when one of the three reads fails (line 233). *)
Definition generalError (onboardingId : string) (e : DbError) : Outcome :=
  {| onboarding_id := onboardingId; escalationsTriggered := 0;
     errors := ["General error processing onboarding " +:+ onboardingId +:+ ": "
                +:+ showDbError e] |}.

Definition processOnboardingEscalations (onboardingId : string) (w : World)
  : World * Outcome :=
  if DEMO_MODE then
    (w, {| onboarding_id := onboardingId; escalationsTriggered := 0;
           errors := ["Database not configured"%string] |})
  else
    match selectTasks onboardingId w with
    | (w1, inl tasksError) => (w1, generalError onboardingId tasksError)
    | (w1, inr tasks) =>
        match selectStakeholders onboardingId w1 with
        | (w2, inl stakeholdersError) => (w2, generalError onboardingId stakeholdersError)
        | (w2, inr stakeholders) =>
            match selectOnboarding onboardingId w2 with
            | (w3, inl onboardingError) => (w3, generalError onboardingId onboardingError)
            | (w3, inr name) =>
                let customerName := AuditTrail.orElse name "Unknown Customer" in
                let tasksNeedingEscalation :=
                  Escalation.findTasksNeedingEscalation startOfDay (dateNow w3) tasks in
                let overdueDone :=
                  fold_left (escalateOverdue onboardingId customerName stakeholders)
                            tasksNeedingEscalation (w3, 0, []) in
                let blockedTasks := List.filter is_blocker tasks in
                let '(w5, triggered, errs) :=
                  fold_left (escalateBlocker onboardingId customerName stakeholders)
                            blockedTasks overdueDone in
                (w5, {| onboarding_id := onboardingId;
                        escalationsTriggered := triggered; errors := errs |})
            end
        end
    end.
End WithServices.

(** What a run does to the ledger and the notification host. *)
Inductive Event : Type :=
| Posted (notification : Notification.NotificationPayload)
| Asked (query : list Call)
| Inserted (rows : list AuditTrail.AuditRow).

(** A service that also records what it was asked. *)
Definition recording {World A B : Type} (note : A -> Event)
    (service : A -> World -> World * B) (a : A) (wl : World * list Event)
  : (World * list Event) * B :=
  let '(w', b) := service a (fst wl) in ((w', snd wl ++ [note a]), b).

(** A service that is left unrecorded. *)
Definition silent {World A B : Type}
    (service : A -> World -> World * B) (a : A) (wl : World * list Event)
  : (World * list Event) * B :=
  let '(w', b) := service a (fst wl) in ((w', snd wl), b).

End EscalationRoute.

(** The three text columns of an audit row. *)
Definition textColumn (row : AuditTrail.AuditRow) (column : string) : option string :=
  if String.eqb column "entity_type" then Some (AuditTrail.row_entity_type row)
  else if String.eqb column "entity_id" then Some (AuditTrail.row_entity_id row)
  else if String.eqb column "event_type" then Some (AuditTrail.row_event_type row)
  else None.

(** Whether a filter call lets a row through, as far as it constrains one
    of the three text columns; any other call is taken to let it
    through. *)
Definition admits (c : EscalationRoute.Call) (row : AuditTrail.AuditRow) : bool :=
  match c with
  | EscalationRoute.eq column value =>
      match textColumn row column with
      | Some x => String.eqb x value
      | None => true
      end
  | EscalationRoute.isIn column values =>
      match textColumn row column with
      | Some x => bool_decide (x ∈ values)
      | None => true
      end
  | _ => true
  end.

Definition admitted (query : list EscalationRoute.Call) (row : AuditTrail.AuditRow) : bool :=
  forallb (fun c => admits c row) query.

Definition isPosted (e : EscalationRoute.Event) : bool :=
  match e with EscalationRoute.Posted _ => true | _ => false end.
Definition isAsked (e : EscalationRoute.Event) : bool :=
  match e with EscalationRoute.Asked _ => true | _ => false end.
Definition isInserted (e : EscalationRoute.Event) : bool :=
  match e with EscalationRoute.Inserted _ => true | _ => false end.

(** How many events of a kind a log holds. *)
Definition tally (kind : EscalationRoute.Event -> bool) (log : list EscalationRoute.Event) : Z :=
  Z.of_nat (length (List.filter kind log)).

(** What the route writes and asks: one row per insert, filed under the
    entity type [escalation] and the event type [escalation_triggered]
    with the source and trigger of an automated run; look-ups of recent
    blocker escalations; notices of the two escalation kinds. *)
Definition routeEvent (e : EscalationRoute.Event) : Prop :=
  match e with
  | EscalationRoute.Inserted rows =>
      exists row, rows = [row] /\
        AuditTrail.row_entity_type row = "escalation"%string /\
        AuditTrail.row_event_type row = "escalation_triggered"%string /\
        AuditTrail.row_metadata row !! "source"%string = Some (Js.JsString "system") /\
        AuditTrail.row_metadata row !! "trigger"%string = Some (Js.JsString "automated")
  | EscalationRoute.Asked query =>
      exists task since, query = EscalationRoute.recentQuery task since
  | EscalationRoute.Posted notification =>
      Notification.type notification = Notification.task_escalated \/
      Notification.type notification = Notification.blocker_created
  end.

Section Observation.
Context {World DbError : Type}.
Variable DEMO_MODE : bool.
Variable showDbError : DbError -> string.
Variable notIterable : string.
Variable selectTasks : string -> World -> World * (DbError + list OnboardingTask).
Variable selectStakeholders : string -> World -> World * (DbError + list Stakeholder).
Variable selectOnboarding : string -> World -> World * (DbError + option string).
Variable selectRecent : list EscalationRoute.Call -> World -> World * (DbError + list string).
Variable insertSelect :
  list AuditTrail.AuditRow -> World -> World * (string + list AuditTrail.EventsAudit).
Variable env : AuditTrail.Env.
Variable dateNow : World -> Z.
Variable toISOString : Z -> string.
Variable startOfDay : Z -> Z.
Variable webhookUrl : option string.
Variable post :
  string -> Notification.NotificationPayload -> World -> World * Notification.FetchOutcome.
Variable generateBlockerNotificationMessage : OnboardingTask -> string -> string.
Variable generateEscalationNotificationMessage :
  OnboardingTask -> Escalation.EscalationResult -> string -> string.
Variable blockerMetadata : OnboardingTask -> string -> list (string * Js.JsValue).
Variable escalationMetadata :
  OnboardingTask -> Escalation.EscalationResult -> string -> list (string * Js.JsValue).

(** A run of [processOnboardingEscalations] on services that record the
    posts, the look-ups and the inserts, from an empty log. *)
Definition observedRun (onboardingId : string) (w : World)
  : (World * list EscalationRoute.Event) * EscalationRoute.Outcome :=
  EscalationRoute.processOnboardingEscalations DEMO_MODE showDbError notIterable
    (EscalationRoute.silent selectTasks)
    (EscalationRoute.silent selectStakeholders)
    (EscalationRoute.silent selectOnboarding)
    (EscalationRoute.recording EscalationRoute.Asked selectRecent)
    (EscalationRoute.recording EscalationRoute.Inserted insertSelect)
    env (fun wl => dateNow (fst wl)) toISOString startOfDay webhookUrl
    (fun url => EscalationRoute.recording EscalationRoute.Posted (post url))
    generateBlockerNotificationMessage generateEscalationNotificationMessage
    blockerMetadata escalationMetadata onboardingId (w, []).

(** The same run on the services themselves. *)
Definition plainRun (onboardingId : string) (w : World)
  : World * EscalationRoute.Outcome :=
  EscalationRoute.processOnboardingEscalations DEMO_MODE showDbError notIterable
    selectTasks selectStakeholders selectOnboarding selectRecent insertSelect
    env dateNow toISOString startOfDay webhookUrl post
    generateBlockerNotificationMessage generateEscalationNotificationMessage
    blockerMetadata escalationMetadata onboardingId w.
End Observation.

(** How far a loop of the route got after at most [n] tasks: the log of
    the recording run grew by route events, with at most [n] inserts and
    posts and [asked] look-ups; every task left between [lo] and one
    entry in the counter or the errors; the counter grew by no more than
    the inserts; and the run on the services themselves is in step. *)
Definition advanced {World : Type} (n asked lo : Z)
    (before after : (World * list EscalationRoute.Event) * Z * list string)
    (plain : World * Z * list string) : Prop :=
  let '(wl, t, e) := before in
  let '(wl', t', e') := after in
  exists new,
    snd wl' = snd wl ++ new /\
    plain = (fst wl', t', e') /\
    Forall routeEvent new /\
    tally isInserted new <= n /\
    tally isPosted new <= n /\
    tally isAsked new = asked /\
    lo <= (t' - t) + (Z.of_nat (length e') - Z.of_nat (length e)) <= n /\
    0 <= t' - t <= tally isInserted new /\
    (length e <= length e')%nat.

(** Services for running the escalation route: the world is the audit
    ledger, kept in memory; the look-up filters it with [admitted]; the
    onboarding has one blocked task and two stakeholders; the webhook
    answers 200. *)
Module RouteSample.

Definition World : Type := list AuditTrail.EventsAudit.

Definition selectTasks (_ : string) (w : World) : World * (string + list OnboardingTask) :=
  (w, inr [NoticeSample.blockedTask]).

Definition selectStakeholders (_ : string) (w : World)
  : World * (string + list Stakeholder) :=
  (w, inr [Sample.lead; Sample.manager]).

Definition selectOnboarding (_ : string) (w : World) : World * (string + option string) :=
  (w, inr (Some "Acme"%string)).

Definition selectRecent (query : list EscalationRoute.Call) (w : World)
  : World * (string + list string) :=
  (w, inr (map AuditTrail.created_at
             (List.filter (fun r => admitted query (AuditTrail.audit_row r)) w))).

Definition post (_ : string) (_ : Notification.NotificationPayload) (w : World)
  : World * Notification.FetchOutcome :=
  (w, Notification.Responded 200).

Definition dateNow (_ : World) : Z := Sample.now.
Definition toISOString (_ : Z) : string := Sample.isoNow.

Definition noVerdictMessage (_ : OnboardingTask) (_ : Escalation.EscalationResult)
    (_ : string) : string := ""%string.
Definition noVerdictMetadata (_ : OnboardingTask) (_ : Escalation.EscalationResult)
    (_ : string) : list (string * Js.JsValue) := [].

Definition run (onboardingId : string) (w : World)
  : (World * list EscalationRoute.Event) * EscalationRoute.Outcome :=
  observedRun false (fun e : string => e) "TypeError: escalationRoles is not iterable"
    selectTasks selectStakeholders selectOnboarding selectRecent AuditTrail.memoryInsert
    Sample.env dateNow toISOString Escalation.utcStartOfDay NoticeSample.webhookUrl post
    NoticeSample.noMessage noVerdictMessage NoticeSample.noMetadata noVerdictMetadata
    onboardingId w.

(** The row a run files for the blocked task. *)
Definition filed : AuditTrail.AuditRow :=
  AuditTrail.enhanceRecord Sample.env Sample.isoNow
    (EscalationRoute.blockerRecord "onb-1" "Acme" NoticeSample.blockedTask).

End RouteSample.

(** The rules of the two assignment tables: the entries of
    [TASK_ASSIGNMENT_RULES] and the values of [INTEGRATION_TASK_RULES]. *)
Definition tableRule (rule : TaskAssignment.TaskAssignmentRule) : Prop :=
  In rule TaskAssignment.TASK_ASSIGNMENT_RULES \/
  exists key, TaskAssignment.INTEGRATION_TASK_RULES !! key = Some rule.

(** [Number.MAX_SAFE_INTEGER], 2^53 - 1: up to it the integers are
    doubles and their sums are exact. *)
Definition MAX_SAFE_INTEGER : Z := 9007199254740991.

(** Every character of the string is an ASCII character. *)
Definition asciiOnly (s : string) : Prop :=
  Forall (fun c => (nat_of_ascii c < 128)%nat) (list_ascii_of_string s).

(** A request whose paging parameters are written in ASCII and whose
    offset leaves room for a window of a thousand rows below
    [MAX_SAFE_INTEGER]: on these [Js.parseInt] reads what [parseInt]
    reads and the integer arithmetic of the row window is that of the
    doubles. *)
Definition plainPaging (searchParams : list (string * string)) : Prop :=
  (forall v, AuditRoute.get searchParams "limit" = Some v -> asciiOnly v) /\
  (forall v, AuditRoute.get searchParams "offset" = Some v ->
     asciiOnly v /\
     forall m, Js.parseInt v = Js.Num m -> m + 1000 <= MAX_SAFE_INTEGER).

(** Filters whose offset, if any, is a safe integer that leaves room for
    a window of ten thousand rows. *)
Definition safeWindow (filters : AuditRoute.AuditQueryFilters) : Prop :=
  forall a, AuditRoute.f_offset filters = Some a ->
            - MAX_SAFE_INTEGER <= a /\ a + 10000 <= MAX_SAFE_INTEGER.

(** The number a decimal numeral denotes, read digit by digit from
    [acc]. *)
Fixpoint uintValue (d : Decimal.uint) (acc : Z) : Z :=
  match d with
  | Decimal.Nil => acc
  | Decimal.D0 l => uintValue l (acc * 10 + 0)
  | Decimal.D1 l => uintValue l (acc * 10 + 1)
  | Decimal.D2 l => uintValue l (acc * 10 + 2)
  | Decimal.D3 l => uintValue l (acc * 10 + 3)
  | Decimal.D4 l => uintValue l (acc * 10 + 4)
  | Decimal.D5 l => uintValue l (acc * 10 + 5)
  | Decimal.D6 l => uintValue l (acc * 10 + 6)
  | Decimal.D7 l => uintValue l (acc * 10 + 7)
  | Decimal.D8 l => uintValue l (acc * 10 + 8)
  | Decimal.D9 l => uintValue l (acc * 10 + 9)
  end.

(** * Properties *)

(** ** Escalation *)

Section EscalationFacts.
Import Escalation.

Lemma ruleFor_in_tables (t : string) :
  In (ruleFor t) (DEFAULT_ESCALATION_RULE :: ESCALATION_RULES).
Proof.
  unfold ruleFor.
  destruct (List.find _ ESCALATION_RULES) as [r|] eqn:Hfind; simpl default.
  - right. apply (List.find_some _ _ Hfind).
  - now left.
Qed.

(** Every rule the engine can select has a threshold of at least one day
    and a chain of two or three roles; a threshold of three days comes
    with exactly two roles. *)
Lemma ruleFor_shape (t : string) :
  let rule := ruleFor t in
  1 <= overdueThresholdDays rule /\
  (2 <= length (escalationChain rule) <= 3)%nat /\
  (overdueThresholdDays rule = 3 -> length (escalationChain rule) = 2%nat).
Proof.
  intros rule. pose proof (ruleFor_in_tables t) as Hin. fold rule in Hin.
  simpl in Hin.
  repeat (destruct Hin as [<- | Hin]; [simpl; repeat split; (lia || discriminate) |]).
  destruct Hin.
Qed.

Lemma slice0_length {A} (l : list A) (n : Z) :
  0 <= n -> Z.of_nat (length (Js.slice0 l n)) = Z.min n (Z.of_nat (length l)).
Proof.
  intros Hn. unfold Js.slice0.
  destruct (Z.ltb_spec n 0) as [?|_]; [lia |].
  rewrite List.length_firstn. lia.
Qed.

Lemma escalationLevel_bounds (rule : EscalationRule) (days : Js.JsNum) :
  (1 <= length (escalationChain rule))%nat ->
  0 <= escalationLevel rule days <= 2.
Proof.
  intros Hlen. unfold escalationLevel.
  destruct (Js.ge days _); [lia |]. destruct (Js.ge days _); lia.
Qed.

(** For any rule with a non-empty chain the level never decreases with
    the overdue amount. *)
Lemma escalationLevel_mono (rule : EscalationRule) (d1 d2 : Z) :
  (1 <= length (escalationChain rule))%nat ->
  d1 <= d2 ->
  escalationLevel rule (Js.Num d1) <= escalationLevel rule (Js.Num d2).
Proof.
  intros Hlen Hle. unfold escalationLevel, Js.ge.
  repeat match goal with
         | |- context [?a <=? ?b] => destruct (Z.leb_spec a b)
         end; lia.
Qed.

(** What a positive verdict of [shouldEscalateTask] says about the run. *)
Lemma shouldEscalateTask_true (startOfDay : Z -> Z) (now : Z) (task : OnboardingTask) :
  shouldEscalate (shouldEscalateTask startOfDay now task) = true ->
  exists due,
    due_date task = Some due /\
    let days := computeDaysOverdue startOfDay now due in
    Js.le days (Js.Num 0) = false /\
    Js.lt days (Js.Num (overdueThresholdDays (ruleFor (task_type task)))) = false /\
    shouldEscalateTask startOfDay now task
    = evaluateOverdue (ruleFor (task_type task)) days /\
    daysOverdue (shouldEscalateTask startOfDay now task) = days /\
    escalateTo (shouldEscalateTask startOfDay now task)
    = Js.slice0 (escalationChain (ruleFor (task_type task)))
                (escalationLevel (ruleFor (task_type task)) days + 1).
Proof.
  unfold shouldEscalateTask.
  destruct (due_date task) as [due|]; [| discriminate].
  intros H. exists due. split; [reflexivity |]. cbv zeta.
  destruct (Js.le _ _) eqn:Hle; [discriminate |].
  unfold evaluateOverdue in *.
  destruct (Js.lt _ _) eqn:Hlt; [discriminate |].
  repeat split; reflexivity.
Qed.
End EscalationFacts.

Section EscalationClaims.
Import Escalation.

(** C1. A task due ten days ago whose rule has a threshold of three days
    and a chain of at least two roles is escalated, at tier index 1:
    [escalateTo] is the two-element prefix of the rule's chain.  (Ten days
    is at least three times the threshold, so the tier is the deepest one
    the chain allows; every three-day rule has a chain of two roles.) *)
Theorem C1_ten_days_overdue_threshold_three
    (startOfDay : Z -> Z) (now : Z) (task : OnboardingTask) (due : Js.JsDate) :
  due_date task = Some due ->
  computeDaysOverdue startOfDay now due = Js.Num 10 ->
  overdueThresholdDays (ruleFor (task_type task)) = 3 ->
  (2 <= length (escalationChain (ruleFor (task_type task))))%nat ->
  let rule := ruleFor (task_type task) in
  let result := shouldEscalateTask startOfDay now task in
  shouldEscalate result = true /\
  daysOverdue result = Js.Num 10 /\
  escalationLevel rule (daysOverdue result) = 1 /\
  escalateTo result = firstn 2 (escalationChain rule) /\
  length (escalateTo result) = 2%nat /\
  urgencyLevel result = ruleUrgencyLevel rule.
Proof.
  intros Hdue Hdays Hthr Hlen rule result.
  destruct (ruleFor_shape (task_type task)) as (_ & _ & Htwo).
  specialize (Htwo Hthr). fold rule in Hthr, Htwo.
  assert (Hres : result = evaluateOverdue rule (Js.Num 10)).
  { unfold result, shouldEscalateTask. rewrite Hdue, Hdays. reflexivity. }
  assert (Hlevel : escalationLevel rule (Js.Num 10) = 1).
  { unfold escalationLevel. rewrite Hthr, Htwo. reflexivity. }
  rewrite Hres. unfold evaluateOverdue. rewrite Hthr. simpl.
  rewrite Hlevel. simpl.
  change (Js.slice0 (escalationChain rule) (1 + 1)) with (firstn 2 (escalationChain rule)).
  repeat split; try reflexivity.
  rewrite List.length_firstn, Htwo. reflexivity.
Qed.

(** The rule of a [crm_setup] task is such a rule, and a task of that type
    due ten days before [Sample.now] is escalated to both of its roles. *)
Lemma C1_witness :
  let task := Sample.task "crm_setup" "it_contact" pending (Sample.daysAgo 10) in
  let result := shouldEscalateTask utcStartOfDay Sample.now task in
  shouldEscalate result = true /\
  daysOverdue result = Js.Num 10 /\
  escalationLevel (ruleFor "crm_setup") (daysOverdue result) = 1 /\
  escalateTo result = firstn 2 (escalationChain (ruleFor "crm_setup")) /\
  length (escalateTo result) = 2%nat /\
  urgencyLevel result = ruleUrgencyLevel (ruleFor "crm_setup").
Proof.
  apply (C1_ten_days_overdue_threshold_three utcStartOfDay Sample.now
           (Sample.task "crm_setup" "it_contact" pending (Sample.daysAgo 10))
           (Js.ValidDate (Sample.now - 10 * Sample.DAY)));
    [reflexivity | reflexivity | reflexivity | simpl; lia].
Defined.

(** The level computation itself does not stop at index 1: on a rule value
    with a three-day threshold and three roles it yields index 2 at ten
    days.  No rule of the tables has that shape. *)
Lemma escalationLevel_three_roles_at_ten_days :
  escalationLevel
    {| taskType := "x"; overdueThresholdDays := 3;
       escalationChain := ["technical_lead"; "project_manager"; "owner"]%string;
       ruleUrgencyLevel := high |} (Js.Num 10) = 2.
Proof. reflexivity. Qed.

Example escalate_crm_setup_ten_days :
  shouldEscalateTask utcStartOfDay Sample.now
    (Sample.task "crm_setup" "it_contact" pending (Sample.daysAgo 10))
  = {| shouldEscalate := true;
       escalateTo := ["technical_lead"; "project_manager"]%string;
       urgencyLevel := high;
       escalationReason := "Task overdue by 10 days (threshold: 3 days)";
       daysOverdue := Js.Num 10 |}.
Proof. vm_compute. reflexivity. Qed.

Example below_threshold_crm_setup :
  shouldEscalateTask utcStartOfDay Sample.now
    (Sample.task "crm_setup" "it_contact" pending (Sample.daysAgo 2))
  = {| shouldEscalate := false; escalateTo := []; urgencyLevel := low;
       escalationReason := "Task overdue by 2 days, but below threshold of 3 days";
       daysOverdue := Js.Num 2 |}.
Proof. vm_compute. reflexivity. Qed.

(** A due date that does not parse passes every comparison as NaN and is
    escalated to the first role of its rule. *)
Example escalate_unparsable_due_date :
  shouldEscalateTask utcStartOfDay Sample.now
    (Sample.task "crm_setup" "it_contact" pending (Some Js.InvalidDate))
  = {| shouldEscalate := true;
       escalateTo := ["technical_lead"]%string;
       urgencyLevel := high;
       escalationReason := "Task overdue by NaN days (threshold: 3 days)";
       daysOverdue := Js.NaN |}.
Proof. vm_compute. reflexivity. Qed.

(** C5. [findTasksNeedingEscalation] never returns a completed task:
    completed tasks are dropped before the overdue rule is evaluated (the
    result is that of the list without them), and every returned pair is a
    task of the input with its own verdict, which says to escalate. *)
Theorem C5_no_escalation_for_completed
    (startOfDay : Z -> Z) (now : Z) (tasks : list OnboardingTask) :
  Forall (fun p =>
            status (fst p) <> completed /\
            In (fst p) tasks /\
            snd p = shouldEscalateTask startOfDay now (fst p) /\
            shouldEscalate (snd p) = true)
         (findTasksNeedingEscalation startOfDay now tasks) /\
  findTasksNeedingEscalation startOfDay now tasks
  = findTasksNeedingEscalation startOfDay now
      (filter (fun t => status t <> completed) tasks).
Proof.
  induction tasks as [|task rest [IHall IHeq]]; [split; [constructor | reflexivity] |].
  split.
  - simpl. case_bool_decide as Hst.
    + eapply Forall_impl; [exact IHall |]. simpl. intros p (? & ? & ? & ?). auto.
    + destruct (shouldEscalate _) eqn:Hesc.
      * constructor; [simpl; auto |].
        eapply Forall_impl; [exact IHall |]. simpl. intros p (? & ? & ? & ?). auto.
      * eapply Forall_impl; [exact IHall |]. simpl. intros p (? & ? & ? & ?). auto.
  - rewrite filter_cons. simpl. case_bool_decide as Hst.
    + rewrite decide_False by (intros Hne; apply Hne, Hst). exact IHeq.
    + rewrite decide_True by exact Hst. simpl.
      rewrite bool_decide_eq_false_2 by exact Hst.
      destruct (shouldEscalate _); [f_equal |]; exact IHeq.
Qed.

(** C6. For a fixed rule the tier is monotone in the overdue amount: of
    two escalating verdicts for tasks of the same type, the one with the
    larger [daysOverdue] has a tier, and an [escalateTo] prefix, at least
    as large. *)
Theorem C6_escalation_tier_monotone
    (startOfDay : Z -> Z) (now1 now2 : Z) (task1 task2 : OnboardingTask) (d1 d2 : Z) :
  task_type task1 = task_type task2 ->
  let rule := ruleFor (task_type task1) in
  let r1 := shouldEscalateTask startOfDay now1 task1 in
  let r2 := shouldEscalateTask startOfDay now2 task2 in
  shouldEscalate r1 = true ->
  shouldEscalate r2 = true ->
  daysOverdue r1 = Js.Num d1 ->
  daysOverdue r2 = Js.Num d2 ->
  d1 <= d2 ->
  escalationLevel rule (Js.Num d1) <= escalationLevel rule (Js.Num d2) /\
  escalateTo r1 = Js.slice0 (escalationChain rule) (escalationLevel rule (Js.Num d1) + 1) /\
  escalateTo r2 = Js.slice0 (escalationChain rule) (escalationLevel rule (Js.Num d2) + 1) /\
  (length (escalateTo r1) <= length (escalateTo r2))%nat.
Proof.
  intros Hty rule r1 r2 He1 He2 Hd1 Hd2 Hle.
  destruct (shouldEscalateTask_true _ _ _ He1) as (due1 & _ & _ & _ & _ & Hdays1 & Hto1).
  destruct (shouldEscalateTask_true _ _ _ He2) as (due2 & _ & _ & _ & _ & Hdays2 & Hto2).
  fold r1 in Hdays1, Hto1. fold r2 in Hdays2, Hto2.
  rewrite <- Hty in Hto2. fold rule in Hto1, Hto2.
  rewrite <- Hdays1, Hd1 in Hto1. rewrite <- Hdays2, Hd2 in Hto2.
  destruct (ruleFor_shape (task_type task1)) as (_ & [Hlen _] & _). fold rule in Hlen.
  assert (Hmono := escalationLevel_mono rule d1 d2 ltac:(lia) Hle).
  assert (Hb1 := escalationLevel_bounds rule (Js.Num d1) ltac:(lia)).
  assert (Hb2 := escalationLevel_bounds rule (Js.Num d2) ltac:(lia)).
  repeat split; try assumption.
  apply Nat2Z.inj_le. rewrite Hto1, Hto2, !slice0_length by lia. lia.
Qed.

Lemma C6_witness :
  let t1 := Sample.task "sis_setup" "it_contact" pending (Sample.daysAgo 2) in
  let t2 := Sample.task "sis_setup" "it_contact" blocked (Sample.daysAgo 6) in
  let r1 := shouldEscalateTask utcStartOfDay Sample.now t1 in
  let r2 := shouldEscalateTask utcStartOfDay Sample.now t2 in
  escalationLevel (ruleFor "sis_setup") (Js.Num 2)
  <= escalationLevel (ruleFor "sis_setup") (Js.Num 6) /\
  escalateTo r1 = Js.slice0 (escalationChain (ruleFor "sis_setup"))
                            (escalationLevel (ruleFor "sis_setup") (Js.Num 2) + 1) /\
  escalateTo r2 = Js.slice0 (escalationChain (ruleFor "sis_setup"))
                            (escalationLevel (ruleFor "sis_setup") (Js.Num 6) + 1) /\
  (length (escalateTo r1) <= length (escalateTo r2))%nat.
Proof.
  apply (C6_escalation_tier_monotone utcStartOfDay Sample.now Sample.now
           (Sample.task "sis_setup" "it_contact" pending (Sample.daysAgo 2))
           (Sample.task "sis_setup" "it_contact" blocked (Sample.daysAgo 6)) 2 6);
    [reflexivity | reflexivity | reflexivity | reflexivity | reflexivity | lia].
Defined.

End EscalationClaims.

(** ** Stakeholder lookup *)

Lemma findByRole_Some (stakeholders : list Stakeholder) (r : string) (s : Stakeholder) :
  findByRole stakeholders r = Some s -> In s stakeholders /\ role s = r.
Proof.
  intros H. apply List.find_some in H as [Hin Heq].
  split; [exact Hin | now apply String.eqb_eq].
Qed.

Lemma findByRole_None (stakeholders : list Stakeholder) (r : string) :
  findByRole stakeholders r = None <-> ~ hasRole stakeholders r.
Proof.
  split.
  - intros H (s & Hin & Hr).
    pose proof (List.find_none _ _ H s Hin) as Hne. simpl in Hne.
    apply String.eqb_neq in Hne. contradiction.
  - intros Hno. destruct (findByRole stakeholders r) as [s|] eqn:Hf; [| reflexivity].
    exfalso. apply Hno. exists s. now apply findByRole_Some.
Qed.

Lemma findByRole_hasRole (stakeholders : list Stakeholder) (r : string) :
  hasRole stakeholders r ->
  exists s, findByRole stakeholders r = Some s /\ In s stakeholders /\ role s = r.
Proof.
  intros Hhas. destruct (findByRole stakeholders r) as [s|] eqn:Hf.
  - exists s. split; [reflexivity | now apply findByRole_Some].
  - apply findByRole_None in Hf. contradiction.
Qed.

(** The contact an assignment or escalation gets for a role: the e-mail of
    a stakeholder of the list with that role, or none when there is none. *)
Lemma contact_of_role (stakeholders : list Stakeholder) (r : string) :
  (hasRole stakeholders r ->
   exists s, In s stakeholders /\ role s = r /\
             email <$> findByRole stakeholders r = Some (email s)) /\
  (~ hasRole stakeholders r -> email <$> findByRole stakeholders r = None).
Proof.
  split.
  - intros Hhas. destruct (findByRole_hasRole _ _ Hhas) as (s & Hf & Hin & Hr).
    exists s. rewrite Hf. auto.
  - intros Hno. apply findByRole_None in Hno. now rewrite Hno.
Qed.

Section BlockerClaims.
Import Escalation.

(** C7. For a [sis_setup] task owned by [it_contact] and a stakeholder list
    that contains a technical lead and a project manager,
    [getBlockerEscalationRecipients] returns exactly the e-mails of a
    technical lead and of a project manager of the list, in that order,
    with urgency [critical]. *)
Theorem C7_blocked_sis_setup_recipients
    (task : OnboardingTask) (stakeholders : list Stakeholder) :
  task_type task = "sis_setup"%string ->
  owner_role task = "it_contact"%string ->
  status task = blocked ->
  hasRole stakeholders "technical_lead" ->
  hasRole stakeholders "project_manager" ->
  exists tl pm,
    In tl stakeholders /\ role tl = "technical_lead"%string /\
    In pm stakeholders /\ role pm = "project_manager"%string /\
    findByRole stakeholders "technical_lead" = Some tl /\
    findByRole stakeholders "project_manager" = Some pm /\
    getBlockerEscalationRecipients task stakeholders
    = Some {| blockerEscalateTo := [email tl; email pm];
              blockerUrgencyLevel := critical |}.
Proof.
  intros Hty Howner _ Htl Hpm.
  destruct (findByRole_hasRole _ _ Htl) as (tl & Hftl & Hintl & Hrtl).
  destruct (findByRole_hasRole _ _ Hpm) as (pm & Hfpm & Hinpm & Hrpm).
  exists tl, pm. repeat split; try assumption.
  unfold getBlockerEscalationRecipients. rewrite Howner.
  change (Js.lookupLiteral escalationMap "it_contact")
    with (Js.Own ["technical_lead"; "project_manager"]%string).
  cbv iota beta. simpl collectRecipients.
  rewrite Hftl, Hfpm.
  unfold blockerUrgency. rewrite Hty.
  replace (Js.includes "sis_setup" "sis") with true by reflexivity.
  rewrite !orb_true_r. reflexivity.
Qed.

Lemma C7_witness :
  exists tl pm,
    In tl [Sample.sponsor; Sample.lead; Sample.manager] /\
    role tl = "technical_lead"%string /\
    In pm [Sample.sponsor; Sample.lead; Sample.manager] /\
    role pm = "project_manager"%string /\
    findByRole [Sample.sponsor; Sample.lead; Sample.manager] "technical_lead" = Some tl /\
    findByRole [Sample.sponsor; Sample.lead; Sample.manager] "project_manager" = Some pm /\
    getBlockerEscalationRecipients
      (Sample.task "sis_setup" "it_contact" blocked None)
      [Sample.sponsor; Sample.lead; Sample.manager]
    = Some {| blockerEscalateTo := [email tl; email pm];
              blockerUrgencyLevel := critical |}.
Proof.
  apply (C7_blocked_sis_setup_recipients
           (Sample.task "sis_setup" "it_contact" blocked None)
           [Sample.sponsor; Sample.lead; Sample.manager]);
    [reflexivity | reflexivity | reflexivity | |].
  - exists Sample.lead. simpl. auto.
  - exists Sample.manager. simpl. auto.
Defined.

End BlockerClaims.

(** ** Task assignment *)

Section AssignmentClaims.
Import TaskAssignment.

Lemma firstPreferred_none (stakeholders : list Stakeholder) (roles : list string) :
  (forall r, In r roles -> ~ hasRole stakeholders r) ->
  firstPreferred stakeholders roles = None.
Proof.
  induction roles as [|r rest IH]; intros Hno; [reflexivity |].
  simpl. rewrite (proj2 (findByRole_None stakeholders r)) by (apply Hno; now left).
  apply IH. intros r' Hin. apply Hno. now right.
Qed.

Lemma firstPreferred_first (stakeholders : list Stakeholder)
    (pre : list string) (r : string) (post : list string) :
  (forall r', In r' pre -> ~ hasRole stakeholders r') ->
  hasRole stakeholders r ->
  exists s, findByRole stakeholders r = Some s /\
            firstPreferred stakeholders (pre ++ r :: post)
            = Some {| ownerRole := r; assignedTo := Some (email s) |}.
Proof.
  intros Hpre Hhas.
  destruct (findByRole_hasRole _ _ Hhas) as (s & Hf & _ & _).
  exists s. split; [exact Hf |].
  induction pre as [|r' pre IH]; simpl.
  - now rewrite Hf.
  - rewrite (proj2 (findByRole_None stakeholders r')) by (apply Hpre; now left).
    apply IH. intros r'' Hin. apply Hpre. now right.
Qed.

(** The rule the lookup selects is a rule of the tables, filed under the
    task type. *)
Lemma lookupRule_Own_table (t : string) (rule : TaskAssignmentRule) :
  lookupRule t = Js.Own rule -> tableRule rule /\ taskType rule = t.
Proof.
  unfold lookupRule, Js.lookupLiteral.
  destruct (INTEGRATION_TASK_RULES !! t) as [found |] eqn:Hmap.
  - intros [= <-]. split; [right; exists t; exact Hmap |].
    apply elem_of_list_to_map_2 in Hmap.
    repeat (apply elem_of_cons in Hmap as [[= -> ->] | Hmap]; [reflexivity |]).
    apply elem_of_nil in Hmap. destruct Hmap.
  - case_bool_decide; [discriminate |].
    destruct (List.find _ TASK_ASSIGNMENT_RULES) as [found |] eqn:Hfind; [| discriminate].
    intros [= <-]. apply List.find_some in Hfind as [Hin Heq].
    split; [left; exact Hin | now apply String.eqb_eq].
Qed.

(** Every rule of the tables is the one the lookup selects for its task
    type: no type is filed twice, in one table or across the two. *)
Lemma lookupRule_of_table (rule : TaskAssignmentRule) :
  tableRule rule -> lookupRule (taskType rule) = Js.Own rule.
Proof.
  intros [Hin | [key Hmap]].
  - simpl in Hin.
    repeat (destruct Hin as [<- | Hin]; [vm_compute; reflexivity |]).
    destruct Hin.
  - apply elem_of_list_to_map_2 in Hmap.
    repeat (apply elem_of_cons in Hmap as [[= -> ->] | Hmap]; [vm_compute; reflexivity |]).
    apply elem_of_nil in Hmap. destruct Hmap.
Qed.

(** The assignment, by the outcome of the lookup. *)
Lemma assignment_by_lookup (t : string) (stakeholders : list Stakeholder) :
  let result := assignTaskToStakeholder t stakeholders in
  match lookupRule t with
  | Js.Own rule =>
      (forall pre r post,
          preferredRoles rule = pre ++ r :: post ->
          (forall r', In r' pre -> ~ hasRole stakeholders r') ->
          hasRole stakeholders r ->
          ownerRole result = r /\
          exists s, In s stakeholders /\ role s = r /\
                    findByRole stakeholders r = Some s /\
                    assignedTo result = Some (email s)) /\
      ((forall r, In r (preferredRoles rule) -> ~ hasRole stakeholders r) ->
       ownerRole result = fallbackRole rule /\
       (hasRole stakeholders (fallbackRole rule) ->
        exists s, In s stakeholders /\ role s = fallbackRole rule /\
                  assignedTo result = Some (email s)) /\
       (~ hasRole stakeholders (fallbackRole rule) -> assignedTo result = None))
  | _ =>
      ownerRole result = "project_manager"%string /\
      (hasRole stakeholders "project_manager" ->
       exists s, In s stakeholders /\ role s = "project_manager"%string /\
                 assignedTo result = Some (email s)) /\
      (~ hasRole stakeholders "project_manager" -> assignedTo result = None)
  end.
Proof.
  intros result. unfold result, assignTaskToStakeholder.
  destruct (lookupRule t) as [rule| |].
  - split.
    + intros pre r post Hroles Hpre Hhas.
      destruct (firstPreferred_first stakeholders pre r post Hpre Hhas) as (s & Hf & Hfirst).
      rewrite Hroles, Hfirst. simpl. split; [reflexivity |].
      exists s. destruct (findByRole_Some _ _ _ Hf). auto.
    + intros Hnone. rewrite (firstPreferred_none _ _ Hnone). simpl.
      split; [reflexivity |]. apply contact_of_role.
  - simpl. split; [reflexivity |]. apply contact_of_role.
  - simpl. split; [reflexivity |]. apply contact_of_role.
Qed.

(** C4. [assignTaskToStakeholder] follows the rule the tables hold for
    the task type.  For every rule of [TASK_ASSIGNMENT_RULES] or
    [INTEGRATION_TASK_RULES] filed under the task type: the first
    preferred role (in order) that some stakeholder has is the owner role
    and the task is assigned to the e-mail of the first stakeholder with
    that role; when no preferred role is held, the owner role is the
    rule's fallback role, assigned to a stakeholder of that role when there
    is one and unassigned otherwise.  When neither table has a rule for
    the task type the owner role is [project_manager], assigned to a
    project manager when there is one and unassigned otherwise. *)
Theorem C4_assignment_follows_rule (t : string) (stakeholders : list Stakeholder) :
  let result := assignTaskToStakeholder t stakeholders in
  (forall rule, tableRule rule -> taskType rule = t ->
      (forall pre r post,
          preferredRoles rule = pre ++ r :: post ->
          (forall r', In r' pre -> ~ hasRole stakeholders r') ->
          hasRole stakeholders r ->
          ownerRole result = r /\
          exists s, In s stakeholders /\ role s = r /\
                    findByRole stakeholders r = Some s /\
                    assignedTo result = Some (email s)) /\
      ((forall r, In r (preferredRoles rule) -> ~ hasRole stakeholders r) ->
       ownerRole result = fallbackRole rule /\
       (hasRole stakeholders (fallbackRole rule) ->
        exists s, In s stakeholders /\ role s = fallbackRole rule /\
                  assignedTo result = Some (email s)) /\
       (~ hasRole stakeholders (fallbackRole rule) -> assignedTo result = None))) /\
  ((forall rule, tableRule rule -> taskType rule <> t) ->
      ownerRole result = "project_manager"%string /\
      (hasRole stakeholders "project_manager" ->
       exists s, In s stakeholders /\ role s = "project_manager"%string /\
                 assignedTo result = Some (email s)) /\
      (~ hasRole stakeholders "project_manager" -> assignedTo result = None)).
Proof.
  intros result. pose proof (assignment_by_lookup t stakeholders) as H.
  fold result in H. split.
  - intros rule Htable <-. rewrite (lookupRule_of_table rule Htable) in H. exact H.
  - intros Hnone. destruct (lookupRule t) as [rule | |] eqn:Hlook; try exact H.
    destruct (lookupRule_Own_table t rule Hlook) as [Htable Htype].
    contradiction (Hnone rule Htable Htype).
Qed.

(** The lookup on the tables, and two runs. *)
Example lookupRule_integration :
  lookupRule "sis_setup"
  = Js.Own {| taskType := "sis_setup"; preferredRoles := ["it_contact"; "technical_lead"];
              fallbackRole := "it_contact" |}.
Proof. vm_compute. reflexivity. Qed.

Example lookupRule_general :
  lookupRule "kickoff_meeting"
  = Js.Own {| taskType := "kickoff_meeting"; preferredRoles := ["project_manager"; "owner"];
              fallbackRole := "project_manager" |}.
Proof. vm_compute. reflexivity. Qed.

Example lookupRule_unknown : lookupRule "data_validation" = Js.Absent.
Proof. vm_compute. reflexivity. Qed.

Example lookupRule_inherited : lookupRule "constructor" = Js.Inherited.
Proof. vm_compute. reflexivity. Qed.

Example assign_sis_setup_to_lead :
  assignTaskToStakeholder "sis_setup" [Sample.sponsor; Sample.lead; Sample.manager]
  = {| ownerRole := "technical_lead"; assignedTo := Some "lee@example.edu"%string |}.
Proof. vm_compute. reflexivity. Qed.

Example assign_sis_setup_unassigned :
  assignTaskToStakeholder "sis_setup" [Sample.sponsor; Sample.manager]
  = {| ownerRole := "it_contact"; assignedTo := None |}.
Proof. vm_compute. reflexivity. Qed.

(** The general table at work: a requirements review with only an owner
    on the onboarding goes to the owner. *)
Example assign_requirements_review_to_owner :
  assignTaskToStakeholder "requirements_review" [Sample.sponsor]
  = {| ownerRole := "owner"; assignedTo := Some "sam@example.edu"%string |}.
Proof. vm_compute. reflexivity. Qed.

Lemma C4_witness :
  ownerRole (assignTaskToStakeholder "sis_setup" [Sample.sponsor; Sample.lead; Sample.manager])
  = "technical_lead"%string /\
  ownerRole (assignTaskToStakeholder "requirements_review" [Sample.sponsor])
  = "owner"%string /\
  ownerRole (assignTaskToStakeholder "data_validation" [Sample.sponsor])
  = "project_manager"%string.
Proof.
  split; [| split].
  - destruct (C4_assignment_follows_rule "sis_setup"
                [Sample.sponsor; Sample.lead; Sample.manager]) as [Hrule _].
    destruct (Hrule {| taskType := "sis_setup";
                       preferredRoles := ["it_contact"; "technical_lead"];
                       fallbackRole := "it_contact" |}) as [Hfirst _].
    + right. exists "sis_setup"%string. vm_compute. reflexivity.
    + reflexivity.
    + apply (Hfirst ["it_contact"%string] "technical_lead"%string []).
      * reflexivity.
      * intros r' [<- | []] (s & Hin & Hr).
        simpl in Hin. destruct Hin as [<- | [<- | [<- | []]]]; discriminate Hr.
      * exists Sample.lead. simpl. auto.
  - destruct (C4_assignment_follows_rule "requirements_review" [Sample.sponsor])
      as [Hrule _].
    destruct (Hrule {| taskType := "requirements_review";
                       preferredRoles := ["owner"; "project_manager"];
                       fallbackRole := "owner" |}) as [Hfirst _].
    + left. simpl. auto.
    + reflexivity.
    + apply (Hfirst [] "owner"%string ["project_manager"%string]).
      * reflexivity.
      * intros r' [].
      * exists Sample.sponsor. simpl. auto.
  - destruct (C4_assignment_follows_rule "data_validation" [Sample.sponsor])
      as [_ Hdefault].
    apply Hdefault. intros rule Htable Htype.
    pose proof (lookupRule_of_table rule Htable) as Hlook.
    rewrite Htype in Hlook. discriminate Hlook.
Defined.

End AssignmentClaims.

Section DueDateClaims.
Import TaskAssignment.

(** With a go-live date that is absent or valid, the number of days added
    is a number, at least one. *)
Lemma dueDays_at_least_one (now : Z) (t : string) (goLiveDate : option Js.JsDate)
    (customerSize : option string) :
  goLiveDate <> Some Js.InvalidDate ->
  exists k, dueDays now t goLiveDate customerSize = Js.Num k /\ 1 <= k.
Proof.
  intros Hvalid. unfold dueDays.
  repeat match goal with
         | |- context [if ?b then _ else _] => destruct b
         end; try (eexists; split; [reflexivity | lia]).
  destruct goLiveDate as [[ms|]|]; [| congruence |].
  - simpl. eexists; split; [reflexivity | lia].
  - eexists; split; [reflexivity | lia].
Qed.

Lemma dueDays_go_live (now : Z) (t : string) (goLiveDate : option Js.JsDate)
    (customerSize : option string) :
  isGoLiveTask t = true ->
  dueDays now t goLiveDate customerSize
  = match goLiveDate with
    | Some goLive =>
        Js.max1 (Js.sub (Js.floorDiv (Js.sub (Js.getTime goLive) (Js.Num now))
                                     (1000 * 60 * 60 * 24)) (Js.Num 2))
    | None => Js.Num 14
    end.
Proof.
  unfold isGoLiveTask, dueDays. intros H.
  repeat (apply andb_prop in H as [H ?]).
  repeat match goal with
         | Hn : negb ?b = true |- _ => apply negb_true_iff in Hn; rewrite Hn
         end.
  rewrite H. reflexivity.
Qed.

(** C8 fails as stated: a go-live date string that does not parse makes the
    due date of a go-live task an Invalid Date, which is not later than
    now. *)
Lemma C8_counterexample_unparsable_go_live :
  calculateTaskDueDate Sample.now "go_live_preparation" (Some Js.InvalidDate) None
  = Js.InvalidDate /\
  ~ strictlyAfter
      (calculateTaskDueDate Sample.now "go_live_preparation" (Some Js.InvalidDate) None)
      Sample.now.
Proof. split; [reflexivity | intros H; exact H]. Qed.

(** C8, amended.  For every task type, customer size and go-live date that
    is absent or a valid date, [calculateTaskDueDate] returns a valid date
    a whole number [k >= 1] of days after [now], hence strictly later than
    [now]; that date is a function of [now] and the arguments alone.  On a
    go-live task the horizon is 14 days when no go-live date is given and
    one day (the clamp) when the go-live date is not later than [now]. *)
Theorem C8_due_date_in_future (now : Z) (t : string) (goLiveDate : option Js.JsDate)
    (customerSize : option string) :
  goLiveDate <> Some Js.InvalidDate ->
  let result := calculateTaskDueDate now t goLiveDate customerSize in
  strictlyAfter result now /\
  (exists k, 1 <= k /\ dueDays now t goLiveDate customerSize = Js.Num k /\
             result = Js.ValidDate (now + k * MS_PER_DAY)) /\
  (isGoLiveTask t = true -> goLiveDate = None ->
   result = Js.ValidDate (now + 14 * MS_PER_DAY)) /\
  (isGoLiveTask t = true ->
   forall ms, goLiveDate = Some (Js.ValidDate ms) -> ms <= now ->
              result = Js.ValidDate (now + 1 * MS_PER_DAY)).
Proof.
  intros Hvalid result.
  destruct (dueDays_at_least_one now t goLiveDate customerSize Hvalid) as (k & Hk & Hge).
  assert (Hres : result = Js.ValidDate (now + k * MS_PER_DAY)).
  { unfold result, calculateTaskDueDate. rewrite Hk. reflexivity. }
  split; [rewrite Hres; simpl; unfold MS_PER_DAY; lia |].
  split; [exists k; auto |].
  split.
  - intros Hgo ->. unfold result, calculateTaskDueDate.
    rewrite (dueDays_go_live _ _ _ _ Hgo). reflexivity.
  - intros Hgo ms -> Hpast. unfold result, calculateTaskDueDate.
    rewrite (dueDays_go_live _ _ _ _ Hgo). simpl. do 2 f_equal.
    assert ((ms - now) / 86400000 <= 0) by (apply Z.div_le_upper_bound; lia).
    change (1000 * 60 * 60 * 24) with 86400000. lia.
Qed.

Lemma C8_witness :
  let result :=
    calculateTaskDueDate Sample.now "go_live_preparation"
      (Some (Js.ValidDate (Sample.now - 3 * Sample.DAY))) (Some "enterprise"%string) in
  strictlyAfter result Sample.now /\
  (exists k, 1 <= k /\
             dueDays Sample.now "go_live_preparation"
               (Some (Js.ValidDate (Sample.now - 3 * Sample.DAY)))
               (Some "enterprise"%string) = Js.Num k /\
             result = Js.ValidDate (Sample.now + k * MS_PER_DAY)) /\
  (isGoLiveTask "go_live_preparation" = true ->
   Some (Js.ValidDate (Sample.now - 3 * Sample.DAY)) = None ->
   result = Js.ValidDate (Sample.now + 14 * MS_PER_DAY)) /\
  (isGoLiveTask "go_live_preparation" = true ->
   forall ms, Some (Js.ValidDate (Sample.now - 3 * Sample.DAY)) = Some (Js.ValidDate ms) ->
              ms <= Sample.now ->
              result = Js.ValidDate (Sample.now + 1 * MS_PER_DAY)).
Proof.
  apply (C8_due_date_in_future Sample.now "go_live_preparation"
           (Some (Js.ValidDate (Sample.now - 3 * Sample.DAY))) (Some "enterprise"%string)).
  discriminate.
Defined.

Example due_date_go_live_default :
  calculateTaskDueDate Sample.now "go_live_preparation" None None
  = Js.ValidDate (Sample.now + 14 * Sample.DAY).
Proof. reflexivity. Qed.

Example due_date_go_live_past :
  calculateTaskDueDate Sample.now "go_live_preparation"
    (Some (Js.ValidDate (Sample.now - 3 * Sample.DAY))) None
  = Js.ValidDate (Sample.now + 1 * Sample.DAY).
Proof. reflexivity. Qed.

(** A type that names go-live and an earlier family gets that family's
    horizon. *)
Example due_date_go_live_testing :
  calculateTaskDueDate Sample.now "go_live_testing" None None
  = Js.ValidDate (Sample.now + 7 * Sample.DAY).
Proof. reflexivity. Qed.

End DueDateClaims.

(** ** Integration lifecycle *)

Section LifecycleClaims.
Import IntegrationLifecycle.

(** [roundPercent s t] is the integer nearest to [100 * s / t], halves
    rounded upwards. *)
Lemma roundPercent_nearest (s t : Z) :
  0 < t ->
  200 * s - t < 2 * t * Js.roundPercent s t <= 200 * s + t.
Proof.
  intros Ht. unfold Js.roundPercent.
  pose proof (Z.mul_div_le (200 * s + t) (2 * t) ltac:(lia)).
  pose proof (Z.mul_succ_div_gt (200 * s + t) (2 * t) ltac:(lia)).
  lia.
Qed.

Lemma roundPercent_range (s t : Z) :
  0 <= s <= t -> 0 < t -> 0 <= Js.roundPercent s t <= 100.
Proof.
  intros Hs Ht. pose proof (roundPercent_nearest s t Ht) as Hnear.
  set (p := Js.roundPercent s t) in *. split.
  - destruct (Z.le_gt_cases 0 p) as [|Hneg]; [assumption |].
    assert (t * p <= t * (-1)) by (apply Z.mul_le_mono_nonneg_l; lia). lia.
  - destruct (Z.le_gt_cases p 100) as [|Hbig]; [assumption |].
    assert (t * 101 <= t * p) by (apply Z.mul_le_mono_nonneg_l; lia). lia.
Qed.

Lemma passedCount_le (results : list IntegrationTestResult) :
  0 <= passedCount results <= Z.of_nat (length results).
Proof.
  unfold passedCount.
  pose proof (length_filter (fun t => success t = true) results). lia.
Qed.

(** The aggregation of [runIntegrationTests], on any list of results. *)
Lemma aggregation_consistent (results : list IntegrationTestResult) :
  let s := passedCount results in
  let t := Z.of_nat (length results) in
  let pct := completionPercentage results in
  (t = 0 -> pct = 0) /\
  (0 < t -> 200 * s - t < 2 * t * pct <= 200 * s + t) /\
  0 <= pct <= 100 /\
  (overallStatus pct = passed <-> pct = 100) /\
  (overallStatus pct = warning <-> 70 <= pct < 100) /\
  (overallStatus pct = failed <-> pct < 70).
Proof.
  intros s t pct.
  pose proof (passedCount_le results) as Hs. fold s t in Hs.
  assert (Hpct : pct = if 0 <? t then Js.roundPercent s t else 0) by reflexivity.
  assert (Hrange : 0 <= pct <= 100).
  { rewrite Hpct. destruct (Z.ltb_spec 0 t); [apply roundPercent_range; lia | lia]. }
  split; [intros Ht; rewrite Hpct, Ht; reflexivity |].
  split.
  { intros Ht. rewrite Hpct. destruct (Z.ltb_spec 0 t); [| lia].
    now apply roundPercent_nearest. }
  split; [exact Hrange |].
  unfold overallStatus.
  destruct (Z.eqb_spec pct 100); destruct (Z.leb_spec 70 pct);
    repeat split; intros; try discriminate; try lia; try reflexivity.
Qed.

(** C3. For every result of [runIntegrationTests], [completion_percentage]
    is [100 * passed / total] over its [test_results] rounded to the
    nearest integer (0 when there are no results; a battery has one or
    three), and [overall_status] is [passed] iff the percentage is 100,
    [warning] iff it is in [70, 100), [failed] iff it is below 70. *)
Theorem C3_validation_percentage_consistent (now : string) (integration : Integration) :
  let r := runIntegrationTests now integration in
  let s := passedCount (test_results r) in
  let t := Z.of_nat (length (test_results r)) in
  (t = 1 \/ t = 3) /\
  (t = 0 -> completion_percentage r = 0) /\
  (0 < t ->
   200 * s - t < 2 * t * completion_percentage r <= 200 * s + t) /\
  0 <= completion_percentage r <= 100 /\
  (overall_status r = passed <-> completion_percentage r = 100) /\
  (overall_status r = warning <-> 70 <= completion_percentage r < 100) /\
  (overall_status r = failed <-> completion_percentage r < 70).
Proof.
  intros r s t. split.
  - unfold t, r, runIntegrationTests, runBattery. simpl.
    destruct (integration_type integration); simpl; auto.
  - exact (aggregation_consistent (runBattery now integration)).
Qed.

(** Every battery of a typed integration: three results, the second one
    the authentication test, which alone depends on the configuration. *)
Lemma runBattery_typed (now : string) (integration : Integration) :
  integration_type integration <> other ->
  exists t1 t2 t3,
    runBattery now integration = [t1; t2; t3] /\
    success t1 = true /\ test_type t1 = connectivity /\
    test_type t2 = authentication /\
    success t2 = credentialsPresent (integration_type integration)
                   (default ∅ (integration_configuration integration)) /\
    success t3 = true /\
    (test_type t3 = data_flow \/ test_type t3 = configuration).
Proof.
  intros Hty. unfold runBattery.
  destruct (integration_type integration); try congruence;
    do 3 eexists; (split; [reflexivity |]); simpl; auto 10.
Qed.

(** C10. For an integration of type SIS, CRM, SFTP or API the battery has
    exactly three tests, those other than authentication succeed, the
    completion percentage is 67 or 100, and the overall status is never
    [warning]: it is [passed] exactly when the credentials of the type are
    present in the configuration and [failed] otherwise. *)
Theorem C10_typed_battery_verdict (now : string) (integration : Integration) :
  integration_type integration <> other ->
  let r := runIntegrationTests now integration in
  let present := credentialsPresent (integration_type integration)
                   (default ∅ (integration_configuration integration)) in
  length (test_results r) = 3%nat /\
  Forall (fun t => test_type t <> authentication -> success t = true) (test_results r) /\
  (completion_percentage r = 67 \/ completion_percentage r = 100) /\
  overall_status r <> warning /\
  (overall_status r = passed <-> present = true) /\
  (overall_status r = failed <-> present = false) /\
  (present = true -> completion_percentage r = 100) /\
  (present = false -> completion_percentage r = 67).
Proof.
  intros Hty r present.
  destruct (runBattery_typed now integration Hty)
    as (t1 & t2 & t3 & Hb & Hs1 & _ & Hauth & Hs2 & Hs3 & _).
  fold present in Hs2.
  unfold r, runIntegrationTests. simpl. rewrite Hb.
  split; [reflexivity |].
  split.
  { repeat constructor; intros; congruence. }
  assert (Hpct : completionPercentage [t1; t2; t3] = if present then 100 else 67).
  { unfold completionPercentage. rewrite !filter_cons, filter_nil.
    rewrite Hs1, Hs2, Hs3. destruct present; reflexivity. }
  rewrite Hpct. destruct present; simpl; repeat split; intros; auto; try discriminate.
Qed.

Lemma C10_witness :
  let r := runIntegrationTests Sample.isoNow Sample.sftpDrop in
  let present := credentialsPresent (integration_type Sample.sftpDrop)
                   (default ∅ (integration_configuration Sample.sftpDrop)) in
  length (test_results r) = 3%nat /\
  Forall (fun t => test_type t <> authentication -> success t = true) (test_results r) /\
  (completion_percentage r = 67 \/ completion_percentage r = 100) /\
  overall_status r <> warning /\
  (overall_status r = passed <-> present = true) /\
  (overall_status r = failed <-> present = false) /\
  (present = true -> completion_percentage r = 100) /\
  (present = false -> completion_percentage r = 67).
Proof.
  apply (C10_typed_battery_verdict Sample.isoNow Sample.sftpDrop).
  discriminate.
Defined.

Example sftp_empty_password_fails :
  let r := runIntegrationTests Sample.isoNow Sample.sftpDrop in
  completion_percentage r = 67 /\ overall_status r = failed /\
  next_steps r
  = ["Address 1 failed test(s)";
     "- Fix authentication: SFTP credentials missing (username and password/key required)"
    ]%string.
Proof. vm_compute. auto. Qed.

Example other_type_passes :
  let r := runIntegrationTests Sample.isoNow
             {| integration_id := "i2"; integration_type := other;
                integration_name := "Badge printer"; integration_configuration := None |} in
  length (test_results r) = 1%nat /\ completion_percentage r = 100 /\
  overall_status r = passed.
Proof. vm_compute. auto. Qed.

End LifecycleClaims.

(** ** Audit trail *)

Section AuditClaims.
Import AuditTrail.

Lemma enhanceMetadata_added (env : Env) (isoNow : string)
    (md : option (gmap string Js.JsValue)) :
  enhanceMetadata env isoNow md !! "timestamp" = Some (Js.JsString isoNow) /\
  enhanceMetadata env isoNow md !! "system_version"
  = Some (Js.JsString (orElse (npm_package_version env) "unknown")) /\
  enhanceMetadata env isoNow md !! "environment"
  = Some (Js.JsString (orElse (NODE_ENV env) "development")).
Proof.
  unfold enhanceMetadata. repeat split.
  - rewrite lookup_insert_ne by discriminate.
    rewrite lookup_insert_ne by discriminate.
    apply lookup_insert_eq.
  - rewrite lookup_insert_ne by discriminate. apply lookup_insert_eq.
  - apply lookup_insert_eq.
Qed.

Lemma enhanceMetadata_kept (env : Env) (isoNow : string)
    (md : option (gmap string Js.JsValue)) (k : string) :
  k <> "timestamp"%string -> k <> "system_version"%string -> k <> "environment"%string ->
  enhanceMetadata env isoNow md !! k = default ∅ md !! k.
Proof.
  intros H1 H2 H3. unfold enhanceMetadata.
  rewrite !lookup_insert_ne by congruence. reflexivity.
Qed.

(** C2.  The append falls short of the claim: a record appended without
    metadata (the field is optional) is stored with a timestamp, a system
    version and an environment, and with neither a source nor a trigger,
    although the module sets out to capture metadata consistently and the
    audit tests list timestamp, source, trigger and environment as the
    core fields of every audit record. *)
Lemma C2_counterexample_no_source_no_trigger :
  exists stored,
    createAuditRecord memoryInsert Sample.env Sample.clock Sample.bareRecord []
    = ([stored], inr stored) /\
    row_metadata (audit_row stored) !! "timestamp"
    = Some (Js.JsString "2023-11-15T00:00:00.000Z") /\
    row_metadata (audit_row stored) !! "environment" = Some (Js.JsString "production") /\
    row_metadata (audit_row stored) !! "source" = None /\
    row_metadata (audit_row stored) !! "trigger" = None.
Proof.
  eexists. split; [reflexivity |]. simpl audit_row. simpl row_metadata.
  pose proof (enhanceMetadata_added Sample.env (Sample.clock 0%nat) None) as (Ht & _ & He).
  split; [exact Ht |]. split; [exact He |].
  split; rewrite enhanceMetadata_kept by discriminate; reflexivity.
Qed.

(** What the append does store.  [createAuditRecord] inserts one row, and
    [createAuditRecords] one row per element, whose metadata is the
    caller-supplied metadata with [timestamp], [system_version] and
    [environment] set by the ledger; every other key, [source] and
    [trigger] included, is stored exactly as the caller supplied it (and is
    absent when the caller did not supply it). *)
Lemma stored_metadata_enrichment
    {Store : Type}
    (insertSelect : list AuditRow -> Store -> Store * (string + list EventsAudit))
    (env : Env) (clock : nat -> string) :
  (forall record st,
      fst (createAuditRecord insertSelect env clock record st)
      = fst (insertSelect [enhanceRecord env (clock 0%nat) record] st)) /\
  (forall records st,
      exists rows,
        fst (createAuditRecords insertSelect env clock records st)
        = fst (insertSelect rows st) /\
        length rows = length records /\
        forall i record, records !! i = Some record ->
                         rows !! i = Some (enhanceRecord env (clock i) record)) /\
  (forall isoNow record,
      let row := enhanceRecord env isoNow record in
      let supplied := default ∅ (metadata record) in
      row_entity_type row = entity_type record /\
      row_entity_id row = entity_id record /\
      row_event_type row = event_type record /\
      row_metadata row !! "timestamp" = Some (Js.JsString isoNow) /\
      row_metadata row !! "system_version"
      = Some (Js.JsString (orElse (npm_package_version env) "unknown")) /\
      row_metadata row !! "environment"
      = Some (Js.JsString (orElse (NODE_ENV env) "development")) /\
      row_metadata row !! "source" = supplied !! "source" /\
      row_metadata row !! "trigger" = supplied !! "trigger" /\
      (forall k, k <> "timestamp"%string -> k <> "system_version"%string ->
                 k <> "environment"%string ->
                 row_metadata row !! k = supplied !! k)).
Proof.
  split; [| split].
  - intros record st. unfold createAuditRecord.
    destruct (insertSelect _ st) as [st' [msg | rows]]; [reflexivity |].
    destruct (single rows); reflexivity.
  - intros records st. eexists. split; [| split].
    + unfold createAuditRecords.
      destruct (insertSelect _ st) as [st' [msg | rows]] eqn:Hins;
        simpl; rewrite Hins; reflexivity.
    + apply length_imap.
    + intros i record Hi. rewrite list_lookup_imap, Hi. reflexivity.
  - intros isoNow record row supplied. simpl.
    destruct (enhanceMetadata_added env isoNow (metadata record)) as (Ht & Hv & He).
    repeat split; try assumption;
      try (apply enhanceMetadata_kept; discriminate).
Qed.

(** Metadata supplied with a source and a trigger keeps them. *)
Example supplied_source_is_kept :
  let md : gmap string Js.JsValue :=
    <["source" := Js.JsString "api"]> (<["trigger" := Js.JsString "user_action"]> ∅) in
  enhanceMetadata Sample.env Sample.isoNow (Some md) !! "source" = Some (Js.JsString "api") /\
  enhanceMetadata Sample.env Sample.isoNow (Some md) !! "trigger"
  = Some (Js.JsString "user_action").
Proof.
  intros md. rewrite !enhanceMetadata_kept by discriminate. simpl. unfold md.
  split; [apply lookup_insert_eq |].
  rewrite lookup_insert_ne by discriminate. apply lookup_insert_eq.
Qed.

End AuditClaims.

(** ** The audit query route *)

Section RouteClaims.
Import AuditRoute.

Example parseInt_samples :
  Js.parseInt "250" = Js.Num 250 /\ Js.parseInt "  42abc" = Js.Num 42 /\
  Js.parseInt "-5" = Js.Num (-5) /\ Js.parseInt "0x10" = Js.Num 16 /\
  Js.parseInt "abc" = Js.NaN /\ Js.parseInt "" = Js.NaN.
Proof. repeat split; reflexivity. Qed.

Lemma limitFilter_spec (searchParams : list (string * string)) :
  match limitFilter searchParams with
  | Some l =>
      1 <= l <= 1000 /\
      exists v, get searchParams "limit" = Some v /\ Js.parseInt v = Js.Num l
  | None =>
      forall v l, get searchParams "limit" = Some v -> Js.parseInt v = Js.Num l ->
                  ~ 1 <= l <= 1000
  end.
Proof.
  unfold limitFilter, textFilter.
  destruct (get searchParams "limit") as [v|]; [| intros ? ? [=]].
  destruct (String.eqb_spec v "") as [-> | Hne].
  { intros v l [= <-]. discriminate. }
  destruct (Js.parseInt v) as [n|] eqn:Hparse; simpl.
  - destruct (Z.ltb_spec 0 n); destruct (Z.leb_spec n 1000); simpl;
      try (intros v' l [= <-]; rewrite Hparse; intros [= <-]; lia).
    split; [lia |]. exists v. auto.
  - intros v' l [= <-]. rewrite Hparse. discriminate.
Qed.

Lemma offsetFilter_spec (searchParams : list (string * string)) :
  match offsetFilter searchParams with
  | Some o =>
      0 <= o /\
      exists v, get searchParams "offset" = Some v /\ Js.parseInt v = Js.Num o
  | None =>
      forall v o, get searchParams "offset" = Some v -> Js.parseInt v = Js.Num o -> o < 0
  end.
Proof.
  unfold offsetFilter, textFilter.
  destruct (get searchParams "offset") as [v|]; [| intros ? ? [=]].
  destruct (String.eqb_spec v "") as [-> | Hne].
  { intros v o [= <-]. discriminate. }
  destruct (Js.parseInt v) as [n|] eqn:Hparse; simpl.
  - destruct (Z.leb_spec 0 n); simpl.
    + split; [lia |]. exists v. auto.
    + intros v' o [= <-]. rewrite Hparse. intros [= <-]. lia.
  - intros v' o [= <-]. rewrite Hparse. discriminate.
Qed.

(** C9 fails as stated: with a limit of 5000 and an offset of -5 the
    request is not refused; it is answered from the ledger with both
    values left out of the filters. *)
Lemma C9_counterexample_out_of_range_processed :
  let searchParams := [("limit", "5000"); ("offset", "-5")]%string in
  let response := GET Sample.emptyQuery Sample.emptySummary searchParams in
  response = JsonRecords [] 0 (buildFilters searchParams) /\
  f_limit (buildFilters searchParams) = None /\
  f_offset (buildFilters searchParams) = None /\
  statusCode response = 200 /\
  refused response = false.
Proof. repeat split; reflexivity. Qed.

(** C9, amended.  The handler keeps a supplied limit only when it parses to
    a value in 1..1000 and a supplied offset only when it parses to a value
    of at least 0; any other value is left out of the filters, and the
    request is processed all the same: the answer is the ledger's answer
    for those filters, an error only when the ledger call itself fails. *)
Theorem C9_limit_offset_filtering
    {Summary : Type}
    (queryAuditTrail : AuditQueryFilters -> string + list AuditTrail.EventsAudit)
    (generateAuditSummary : AuditQueryFilters -> string + Summary)
    (searchParams : list (string * string)) :
  let filters := buildFilters searchParams in
  let response := GET queryAuditTrail generateAuditSummary searchParams in
  (forall l, f_limit filters = Some l ->
             1 <= l <= 1000 /\
             exists v, get searchParams "limit" = Some v /\ Js.parseInt v = Js.Num l) /\
  (forall o, f_offset filters = Some o ->
             0 <= o /\
             exists v, get searchParams "offset" = Some v /\ Js.parseInt v = Js.Num o) /\
  (forall v l, get searchParams "limit" = Some v -> Js.parseInt v = Js.Num l ->
               ~ 1 <= l <= 1000 -> f_limit filters = None) /\
  (forall v o, get searchParams "offset" = Some v -> Js.parseInt v = Js.Num o ->
               o < 0 -> f_offset filters = None) /\
  (get searchParams "summary" <> Some "true"%string ->
   forall records, queryAuditTrail filters = inr records ->
                   response = JsonRecords records (Z.of_nat (length records)) filters) /\
  (get searchParams "summary" = Some "true"%string ->
   forall summary, generateAuditSummary filters = inr summary ->
                   response = JsonSummary summary) /\
  (refused response = true <->
   exists msg,
     if bool_decide (get searchParams "summary" = Some "true"%string)
     then generateAuditSummary filters = inl msg
     else queryAuditTrail filters = inl msg).
Proof.
  intros filters response.
  pose proof (limitFilter_spec searchParams) as Hlim.
  pose proof (offsetFilter_spec searchParams) as Hoff.
  change (f_limit filters) with (limitFilter searchParams).
  change (f_offset filters) with (offsetFilter searchParams).
  split; [intros l Hl; rewrite Hl in Hlim; exact Hlim |].
  split; [intros o Ho; rewrite Ho in Hoff; exact Hoff |].
  split.
  { intros v l Hv Hp Hout. destruct (limitFilter searchParams) as [l'|]; [| reflexivity].
    destruct Hlim as (Hin & v' & Hv' & Hp'). congruence. }
  split.
  { intros v o Hv Hp Hneg. destruct (offsetFilter searchParams) as [o'|]; [| reflexivity].
    destruct Hoff as (Hge & v' & Hv' & Hp'). assert (o = o') by congruence. lia. }
  unfold response, GET. fold filters.
  split; [| split].
  - intros Hs records Hq. rewrite bool_decide_eq_false_2 by exact Hs. now rewrite Hq.
  - intros Hs summary Hq. rewrite bool_decide_eq_true_2 by exact Hs. now rewrite Hq.
  - case_bool_decide.
    + destruct (generateAuditSummary filters) as [msg|summary]; simpl; split;
        try discriminate; eauto. intros [msg' [=]].
    + destruct (queryAuditTrail filters) as [msg|records]; simpl; split;
        try discriminate; eauto. intros [msg' [=]].
Qed.

Lemma C9_witness :
  f_limit (buildFilters [("limit", "250"); ("offset", "-5")]%string) = Some 250 /\
  f_offset (buildFilters [("limit", "250"); ("offset", "-5")]%string) = None.
Proof.
  pose proof (C9_limit_offset_filtering Sample.emptyQuery Sample.emptySummary
                [("limit", "250"); ("offset", "-5")]%string) as (_ & _ & _ & Hoff & _).
  split; [reflexivity |].
  apply (Hoff "-5"%string (-5)); [reflexivity | reflexivity | lia].
Defined.

End RouteClaims.

(** * Further properties of the engine *)

(** ** Overdue escalation *)

Section OverdueEscalation.
Import Escalation.

(** X1. With a due date that parses, a task is escalated exactly when the
    whole days between the (normalised) due date and today reach the
    threshold of its rule; the verdict reports that number of days when it
    is positive and 0 otherwise. *)
Theorem escalation_iff_threshold_reached
    (startOfDay : Z -> Z) (now : Z) (task : OnboardingTask) (d : Z) :
  due_date task = Some (Js.ValidDate d) ->
  let days := (startOfDay now - startOfDay d) / MS_PER_DAY in
  let r := shouldEscalateTask startOfDay now task in
  (shouldEscalate r = true <-> overdueThresholdDays (ruleFor (task_type task)) <= days) /\
  (0 < days -> daysOverdue r = Js.Num days) /\
  (days <= 0 -> daysOverdue r = Js.Num 0).
Proof.
  intros Hdue days r.
  destruct (ruleFor_shape (task_type task)) as (Hthr & _ & _).
  unfold r, shouldEscalateTask. rewrite Hdue. simpl. fold days.
  destruct (Z.leb_spec days 0) as [Hle | Hgt]; simpl.
  - repeat split; intros; try discriminate; try lia; reflexivity.
  - unfold evaluateOverdue, Js.lt.
    destruct (Z.ltb_spec days (overdueThresholdDays (ruleFor (task_type task))));
      simpl; repeat split; intros; try discriminate; try lia; reflexivity.
Qed.

Lemma escalation_iff_threshold_reached_witness :
  shouldEscalate
    (shouldEscalateTask utcStartOfDay Sample.now
       (Sample.task "sis_setup" "it_contact" in_progress (Sample.daysAgo 2))) = true.
Proof.
  apply (escalation_iff_threshold_reached utcStartOfDay Sample.now
           (Sample.task "sis_setup" "it_contact" in_progress (Sample.daysAgo 2))
           (Sample.now - 2 * Sample.DAY)); [reflexivity |].
  vm_compute. discriminate.
Defined.

Lemma slice0_prefix {A} (l : list A) (n : Z) :
  0 <= n -> exists rest, l = Js.slice0 l n ++ rest.
Proof.
  intros Hn. unfold Js.slice0. destruct (Z.ltb_spec n 0); [lia |].
  exists (skipn (Z.to_nat n) l). symmetry. apply firstn_skipn.
Qed.

(** X2. Shape of every verdict.  A verdict that escalates names between
    one and three roles, a prefix of the chain of the task's rule that
    starts with its first role, at the urgency of the rule; a verdict that
    does not escalate names nobody and has urgency [low]. *)
Theorem escalation_verdict_shape
    (startOfDay : Z -> Z) (now : Z) (task : OnboardingTask) :
  let r := shouldEscalateTask startOfDay now task in
  let rule := ruleFor (task_type task) in
  if shouldEscalate r then
    (1 <= length (escalateTo r) <= 3)%nat /\
    (exists rest, escalationChain rule = escalateTo r ++ rest) /\
    urgencyLevel r = ruleUrgencyLevel rule
  else
    escalateTo r = [] /\ urgencyLevel r = low.
Proof.
  intros r rule.
  destruct (shouldEscalate r) eqn:Hesc.
  - destruct (shouldEscalateTask_true _ _ _ Hesc) as (due & _ & _ & _ & Heq & _ & Hto).
    fold r in Heq, Hto. fold rule in Heq, Hto.
    destruct (ruleFor_shape (task_type task)) as (_ & [Hlen _] & _). fold rule in Hlen.
    set (days := computeDaysOverdue startOfDay now due) in *.
    pose proof (escalationLevel_bounds rule days ltac:(lia)) as Hb.
    split; [| split].
    + assert (Hl := slice0_length (escalationChain rule)
                      (escalationLevel rule days + 1) ltac:(lia)).
      rewrite <- Hto in Hl. lia.
    + rewrite Hto. apply slice0_prefix. lia.
    + rewrite Heq. unfold evaluateOverdue.
      rewrite Heq in Hesc. unfold evaluateOverdue in Hesc.
      destruct (Js.lt days _); [discriminate | reflexivity].
  - unfold r, shouldEscalateTask in *.
    destruct (due_date task) as [due|]; [| split; reflexivity].
    destruct (Js.le _ _); [split; reflexivity |].
    unfold evaluateOverdue in *.
    destruct (Js.lt _ _); [split; reflexivity | discriminate].
Qed.

(** X3. A due date that does not parse is not treated as missing: the task
    is escalated, to the first role of its rule only, with [NaN] days
    overdue. *)
Theorem unparsable_due_date_is_escalated
    (startOfDay : Z -> Z) (now : Z) (task : OnboardingTask) :
  due_date task = Some Js.InvalidDate ->
  let r := shouldEscalateTask startOfDay now task in
  let rule := ruleFor (task_type task) in
  shouldEscalate r = true /\
  daysOverdue r = Js.NaN /\
  escalateTo r = firstn 1 (escalationChain rule) /\
  length (escalateTo r) = 1%nat /\
  urgencyLevel r = ruleUrgencyLevel rule.
Proof.
  intros Hdue r rule.
  destruct (ruleFor_shape (task_type task)) as (_ & [Hlen _] & _). fold rule in Hlen.
  unfold r, shouldEscalateTask. rewrite Hdue. simpl. fold rule.
  repeat split.
  change (Js.slice0 (escalationChain rule) (escalationLevel rule Js.NaN + 1))
    with (firstn 1 (escalationChain rule)).
  rewrite List.length_firstn. lia.
Qed.

Lemma unparsable_due_date_is_escalated_witness :
  let task := Sample.task "kickoff_meeting" "owner" pending (Some Js.InvalidDate) in
  let r := shouldEscalateTask utcStartOfDay Sample.now task in
  let rule := ruleFor (task_type task) in
  shouldEscalate r = true /\
  daysOverdue r = Js.NaN /\
  escalateTo r = firstn 1 (escalationChain rule) /\
  length (escalateTo r) = 1%nat /\
  urgencyLevel r = ruleUrgencyLevel rule.
Proof.
  apply (unparsable_due_date_is_escalated utcStartOfDay Sample.now
           (Sample.task "kickoff_meeting" "owner" pending (Some Js.InvalidDate))).
  reflexivity.
Defined.

(** X4. [findTasksNeedingEscalation] returns, in the order of the input
    and with its verdict, every task that is not completed and whose
    verdict escalates, and nothing else. *)
Theorem findTasksNeedingEscalation_complete
    (startOfDay : Z -> Z) (now : Z) (tasks : list OnboardingTask) :
  findTasksNeedingEscalation startOfDay now tasks
  = map (fun t => (t, shouldEscalateTask startOfDay now t))
        (filter (fun t => status t <> completed /\
                          shouldEscalate (shouldEscalateTask startOfDay now t) = true)
                tasks).
Proof.
  induction tasks as [|task rest IH]; [reflexivity |].
  rewrite filter_cons. simpl. case_bool_decide as Hst.
  - rewrite decide_False by (intros [Hne _]; contradiction). exact IH.
  - destruct (shouldEscalate (shouldEscalateTask startOfDay now task)) eqn:Hesc.
    + rewrite decide_True by (split; [exact Hst | reflexivity]).
      simpl. f_equal. exact IH.
    + rewrite decide_False by (intros [_ Habs]; discriminate). exact IH.
Qed.

End OverdueEscalation.

(** ** Blocker escalation *)

Section BlockerEscalation.
Import Escalation.

Lemma escalationMap_entries (k : string) (roles : list string) :
  escalationMap !! k = Some roles ->
  (k = "it_contact" /\ roles = ["technical_lead"; "project_manager"])%string \/
  (k = "technical_lead" /\ roles = ["project_manager"; "owner"])%string \/
  (k = "project_manager" /\ roles = ["owner"])%string \/
  (k = "owner" /\ roles = ["project_manager"])%string.
Proof.
  intros H. apply elem_of_list_to_map_2 in H.
  repeat (apply elem_of_cons in H as [[= -> ->] | H]; [tauto |]).
  apply elem_of_nil in H. destruct H.
Qed.

Lemma escalationMap_not_inherited (k : string) :
  In k Js.objectPrototypeKeys -> escalationMap !! k = None.
Proof.
  simpl. intros H.
  repeat (destruct H as [<- | H]; [vm_compute; reflexivity |]). destruct H.
Qed.

(** X5. [getBlockerEscalationRecipients] fails (with the TypeError of
    iterating a non-array) exactly when the task's [owner_role] is the
    name of a member every object inherits, such as [constructor]; for
    every other owner role, known or not, it returns a result. *)
Theorem blocker_recipients_fail_iff_inherited
    (task : OnboardingTask) (stakeholders : list Stakeholder) :
  getBlockerEscalationRecipients task stakeholders = None
  <-> In (owner_role task) Js.objectPrototypeKeys.
Proof.
  unfold getBlockerEscalationRecipients, Js.lookupLiteral. split.
  - destruct (escalationMap !! owner_role task); [discriminate |].
    case_bool_decide as Hin; [| discriminate].
    intros _. now apply list_elem_of_In.
  - intros Hin. rewrite (escalationMap_not_inherited _ Hin).
    rewrite bool_decide_eq_true_2 by now apply list_elem_of_In.
    reflexivity.
Qed.

Lemma collectRecipients_sound (stakeholders : list Stakeholder) (roles : list string) :
  (length (collectRecipients stakeholders roles) <= length roles)%nat /\
  Forall (fun e => exists s, In s stakeholders /\ email s = e /\ In (role s) roles)
         (collectRecipients stakeholders roles).
Proof.
  induction roles as [|r rest [IHlen IHall]]; [split; [simpl; lia | constructor] |].
  simpl. destruct (findByRole stakeholders r) as [s|] eqn:Hf.
  - apply findByRole_Some in Hf as [Hin Hr]. split; [simpl; lia |].
    constructor; [exists s; auto |].
    eapply Forall_impl; [exact IHall |]. simpl. intros e (s' & ? & ? & ?). eauto 6.
  - split; [lia |].
    eapply Forall_impl; [exact IHall |]. simpl. intros e (s' & ? & ? & ?). eauto 6.
Qed.

(** The roles a blocker is escalated to, for an owner role that is not an
    inherited member name. *)
Lemma blocker_roles (task : OnboardingTask) (stakeholders : list Stakeholder)
    (res : BlockerEscalation) :
  getBlockerEscalationRecipients task stakeholders = Some res ->
  exists roles,
    blockerEscalateTo res = collectRecipients stakeholders roles /\
    blockerUrgencyLevel res = blockerUrgency task /\
    (1 <= length roles <= 2)%nat /\
    ~ In (owner_role task) roles /\
    (forall r, In r roles -> In r stakeholderRoles) /\
    (escalationMap !! owner_role task = None -> roles = ["project_manager"%string]).
Proof.
  unfold getBlockerEscalationRecipients, Js.lookupLiteral.
  destruct (escalationMap !! owner_role task) as [roles|] eqn:Hmap.
  - intros [= <-]. exists roles. simpl.
    split; [reflexivity |]. split; [reflexivity |].
    assert (Hshape : (1 <= length roles <= 2)%nat /\
                     ~ In (owner_role task) roles /\
                     (forall r, In r roles -> In r stakeholderRoles)).
    { apply escalationMap_entries in Hmap.
      destruct Hmap as [[-> ->] | [[-> ->] | [[-> ->] | [-> ->]]]];
        (split; [simpl; lia |]);
        (split; [simpl; intros Hin; intuition discriminate |]);
        intros r Hr; unfold stakeholderRoles; simpl in *; intuition. }
    destruct Hshape as (? & ? & ?). repeat split; auto; try lia.
    discriminate.
  - case_bool_decide as Hin; [discriminate |].
    intros [= <-]. exists ["project_manager"%string]. simpl.
    repeat split; try lia; auto.
    + intros [Heq | []]. rewrite <- Heq in Hmap. vm_compute in Hmap. discriminate.
    + intros r [<- | []]. unfold stakeholderRoles. simpl. auto.
Qed.

(** X6. Whenever [getBlockerEscalationRecipients] returns, it names at most
    two recipients, each the e-mail of a stakeholder of the list whose
    role is one of the four roles and differs from the task's owner role;
    roles nobody holds are dropped without error (no stakeholders, no
    recipients). *)
Theorem blocker_recipients_are_other_stakeholders
    (task : OnboardingTask) (stakeholders : list Stakeholder) (res : BlockerEscalation) :
  getBlockerEscalationRecipients task stakeholders = Some res ->
  (length (blockerEscalateTo res) <= 2)%nat /\
  Forall (fun e => exists s, In s stakeholders /\ email s = e /\
                             role s <> owner_role task /\
                             In (role s) stakeholderRoles)
         (blockerEscalateTo res) /\
  (stakeholders = [] -> blockerEscalateTo res = []).
Proof.
  intros Hres.
  destruct (blocker_roles _ _ _ Hres) as (roles & Hto & _ & Hlen & Hown & Hvalid & _).
  destruct (collectRecipients_sound stakeholders roles) as [Hl Hall].
  rewrite Hto. split; [lia |]. split.
  - eapply Forall_impl; [exact Hall |]. simpl. intros e (s & Hin & He & Hr).
    exists s. split; [exact Hin |]. split; [exact He |].
    split; [| now apply Hvalid]. intros Heq. apply Hown. now rewrite <- Heq.
  - intros ->. destruct (collectRecipients [] roles) as [|e l] eqn:Hc; [reflexivity |].
    apply Forall_cons in Hall as [(s & [] & _) _].
Qed.

Lemma blocker_recipients_are_other_stakeholders_witness :
  exists res,
    getBlockerEscalationRecipients
      (Sample.task "crm_setup" "technical_lead" blocked None)
      [Sample.sponsor; Sample.lead; Sample.manager] = Some res /\
    (length (blockerEscalateTo res) <= 2)%nat.
Proof.
  eexists. split; [reflexivity |].
  apply (blocker_recipients_are_other_stakeholders
           (Sample.task "crm_setup" "technical_lead" blocked None)
           [Sample.sponsor; Sample.lead; Sample.manager]).
  reflexivity.
Defined.

(** X7. The urgency of a blocker escalation is never below the priority of
    the blocked task. *)
Theorem blocker_urgency_at_least_priority
    (task : OnboardingTask) (stakeholders : list Stakeholder) (res : BlockerEscalation) :
  getBlockerEscalationRecipients task stakeholders = Some res ->
  levelRank (priority task) <= levelRank (blockerUrgencyLevel res).
Proof.
  intros Hres.
  destruct (blocker_roles _ _ _ Hres) as (_ & _ & -> & _).
  unfold blockerUrgency.
  destruct (priority task); simpl;
    repeat match goal with
           | |- context [if ?b then _ else _] => destruct b; simpl
           end; lia.
Qed.

Lemma blocker_urgency_at_least_priority_witness :
  levelRank medium
  <= levelRank (blockerUrgency (Sample.task "crm_setup" "technical_lead" blocked None)).
Proof.
  apply (blocker_urgency_at_least_priority
           (Sample.task "crm_setup" "technical_lead" blocked None)
           [Sample.sponsor; Sample.lead; Sample.manager]
           {| blockerEscalateTo := ["pat@example.edu"; "sam@example.edu"]%string;
              blockerUrgencyLevel :=
                blockerUrgency (Sample.task "crm_setup" "technical_lead" blocked None) |}).
  reflexivity.
Defined.

End BlockerEscalation.

(** ** Task assignment, priority and due dates *)

Section AssignmentInvariants.
Import TaskAssignment.

Lemma assignToRole_sound (r : string) (stakeholders : list Stakeholder) :
  let a := assignToRole r stakeholders in
  ownerRole a = r /\
  (forall e, assignedTo a = Some e ->
             exists s, In s stakeholders /\ role s = r /\ email s = e) /\
  (assignedTo a = None <-> ~ hasRole stakeholders r).
Proof.
  unfold assignToRole. simpl. split; [reflexivity |].
  destruct (findByRole stakeholders r) as [s|] eqn:Hf; simpl.
  - destruct (findByRole_Some _ _ _ Hf) as [Hin Hr]. split.
    + intros e [= <-]. exists s. auto.
    + split; [discriminate |]. intros Hno. exfalso. apply Hno. exists s. auto.
  - split; [discriminate |]. split; [| reflexivity].
    intros _. now apply findByRole_None.
Qed.

Lemma firstPreferred_sound (stakeholders : list Stakeholder) (roles : list string) :
  match firstPreferred stakeholders roles with
  | Some a =>
      In (ownerRole a) roles /\
      exists s, In s stakeholders /\ role s = ownerRole a /\ assignedTo a = Some (email s)
  | None => forall r, In r roles -> ~ hasRole stakeholders r
  end.
Proof.
  induction roles as [|r rest IH]; simpl; [intros r [] |].
  destruct (findByRole stakeholders r) as [s|] eqn:Hf.
  - destruct (findByRole_Some _ _ _ Hf) as [Hin Hr]. simpl.
    split; [now left |]. exists s. auto.
  - destruct (firstPreferred stakeholders rest) as [a|].
    + destruct IH as [Hin Hs]. split; [now right | exact Hs].
    + intros r' [<- | Hin]; [now apply findByRole_None | now apply IH].
Qed.

(** X8. Whatever the task type and the stakeholders, the contact a task is
    assigned to is the e-mail of a stakeholder of the list who holds the
    owner role returned with it, and the task is left unassigned exactly
    when nobody holds that role. *)
Theorem assignment_contact_holds_owner_role (t : string) (stakeholders : list Stakeholder) :
  let a := assignTaskToStakeholder t stakeholders in
  (forall e, assignedTo a = Some e ->
             exists s, In s stakeholders /\ role s = ownerRole a /\ email s = e) /\
  (assignedTo a = None <-> ~ hasRole stakeholders (ownerRole a)).
Proof.
  unfold assignTaskToStakeholder.
  destruct (lookupRule t) as [rule| |];
    try (exact (proj2 (assignToRole_sound "project_manager" stakeholders))).
  pose proof (firstPreferred_sound stakeholders (preferredRoles rule)) as Hfirst.
  destruct (firstPreferred stakeholders (preferredRoles rule)) as [a|].
  - destruct Hfirst as (_ & s & Hin & Hr & Ha). cbv zeta. rewrite Ha. split.
    + intros e [= <-]. exists s. auto.
    + split; [discriminate |]. intros Hno. exfalso. apply Hno. exists s. auto.
  - exact (proj2 (assignToRole_sound (fallbackRole rule) stakeholders)).
Qed.

(** Every rule of the two tables names only the four stakeholder roles and
    has its fallback role among its preferred roles. *)
Lemma lookupRule_shape (t : string) (rule : TaskAssignmentRule) :
  lookupRule t = Js.Own rule ->
  taskType rule = t /\
  In (fallbackRole rule) (preferredRoles rule) /\
  (forall r, In r (preferredRoles rule) -> In r stakeholderRoles).
Proof.
  unfold lookupRule, Js.lookupLiteral.
  destruct (INTEGRATION_TASK_RULES !! t) as [found|] eqn:Hmap.
  - intros [= <-]. apply elem_of_list_to_map_2 in Hmap.
    repeat (apply elem_of_cons in Hmap as [[= -> ->] | Hmap];
            [unfold stakeholderRoles; simpl; intuition (subst; auto) |]).
    apply elem_of_nil in Hmap. destruct Hmap.
  - case_bool_decide; [discriminate |].
    destruct (List.find _ TASK_ASSIGNMENT_RULES) as [found|] eqn:Hfind; [| discriminate].
    intros [= <-]. apply List.find_some in Hfind as [Hin Heq].
    apply String.eqb_eq in Heq. split; [exact Heq |]. clear Heq.
    simpl in Hin.
    repeat (destruct Hin as [<- | Hin];
            [unfold stakeholderRoles; simpl; intuition (subst; auto) |]).
    destruct Hin.
Qed.

(** X9. The owner role of an assignment is always one of the four
    stakeholder roles, and for a task type that has a rule the task is
    left unassigned exactly when no stakeholder holds any of the rule's
    preferred roles (the fallback role never finds somebody the preferred
    roles missed). *)
Theorem assignment_owner_role_valid (t : string) (stakeholders : list Stakeholder) :
  let a := assignTaskToStakeholder t stakeholders in
  In (ownerRole a) stakeholderRoles /\
  (forall rule, lookupRule t = Js.Own rule ->
     In (ownerRole a) (preferredRoles rule) /\
     (assignedTo a = None <->
      forall r, In r (preferredRoles rule) -> ~ hasRole stakeholders r)).
Proof.
  intros a.
  pose proof (assignment_contact_holds_owner_role t stakeholders) as [_ Hnone].
  fold a in Hnone. unfold a, assignTaskToStakeholder in *.
  destruct (lookupRule t) as [rule| |] eqn:Hlook;
    try (split; [unfold stakeholderRoles; simpl; auto | intros rule [=]]).
  destruct (lookupRule_shape t rule Hlook) as (_ & Hfb & Hvalid).
  pose proof (firstPreferred_sound stakeholders (preferredRoles rule)) as Hfirst.
  destruct (firstPreferred stakeholders (preferredRoles rule)) as [a'|] eqn:Hfp.
  - destruct Hfirst as (Hin & s & Hs & Hr & Ha).
    split; [now apply Hvalid |]. intros rule' [= <-]. split; [exact Hin |].
    rewrite Ha. split; [discriminate |].
    intros Hno. exfalso. apply (Hno (ownerRole a') Hin). exists s. auto.
  - simpl. split; [now apply Hvalid |]. intros rule' [= <-]. split; [exact Hfb |].
    simpl in Hnone. rewrite Hnone. split.
    + intros _. exact Hfirst.
    + intros Hno. now apply Hno.
Qed.

End AssignmentInvariants.

Section PriorityAndDueDates.
Import TaskAssignment TaskPriority.

Lemma prefix_trans (a b c : string) :
  String.prefix a b = true -> String.prefix b c = true -> String.prefix a c = true.
Proof.
  revert b c. induction a as [|x a IH]; intros b c Hab Hbc; [destruct c; reflexivity |].
  destruct b as [|y b]; [discriminate |]. destruct c as [|z c]; [discriminate |].
  simpl in *.
  destruct (ascii_dec x y) as [-> |]; [| discriminate].
  destruct (ascii_dec y z) as [-> |]; [| discriminate].
  eapply IH; eassumption.
Qed.

(** A string that includes [b] includes every prefix of [b]. *)
Lemma includes_prefix (s a b : string) :
  String.prefix a b = true -> Js.includes s b = true -> Js.includes s a = true.
Proof.
  intros Hab. induction s as [|x s IH]; cbn [Js.includes].
  - destruct (String.prefix b "") eqn:Hb; intros H; [| discriminate H].
    now rewrite (prefix_trans a b "" Hab Hb).
  - destruct (String.prefix b (String x s)) eqn:Hb; intros Hrest.
    + now rewrite (prefix_trans a b _ Hab Hb).
    + rewrite (IH Hrest). now destruct (String.prefix a (String x s)).
Qed.

(** X10. A task type that [calculateTaskPriority] classifies as critical is
    escalated as critical when blocked, whatever priority the task itself
    carries. *)
Theorem critical_type_blocks_as_critical
    (task : OnboardingTask) (stakeholders : list Stakeholder)
    (res : Escalation.BlockerEscalation) :
  calculateTaskPriority (task_type task) = critical ->
  Escalation.getBlockerEscalationRecipients task stakeholders = Some res ->
  Escalation.blockerUrgencyLevel res = critical.
Proof.
  intros Hprio Hres.
  destruct (blocker_roles _ _ _ Hres) as (_ & _ & -> & _).
  unfold calculateTaskPriority in Hprio. unfold Escalation.blockerUrgency.
  destruct (Js.includes (task_type task) "security") eqn:Hsec.
  { now rewrite orb_true_r. }
  destruct (Js.includes (task_type task) "sis_setup") eqn:Hsis.
  { rewrite (includes_prefix _ "sis" "sis_setup" eq_refl Hsis). now rewrite !orb_true_r. }
  simpl in Hprio.
  repeat match type of Hprio with
         | (if ?b then _ else _) = _ => destruct b
         end; discriminate.
Qed.

Lemma critical_type_blocks_as_critical_witness :
  Escalation.blockerUrgency (Sample.task "sis_setup_review" "owner" blocked None) = critical.
Proof.
  apply (critical_type_blocks_as_critical
           (Sample.task "sis_setup_review" "owner" blocked None) []
           {| Escalation.blockerEscalateTo := [];
              Escalation.blockerUrgencyLevel :=
                Escalation.blockerUrgency
                  (Sample.task "sis_setup_review" "owner" blocked None) |});
    reflexivity.
Defined.

(** X11. On a go-live task with a valid go-live date at least three days
    away, the due date falls in the day that ends two days before go-live;
    with a go-live date nearer than that (or past) the due date is one day
    from now, which is after the go-live date when that is less than a day
    away. *)
Theorem go_live_due_date_buffer
    (now : Z) (t : string) (ms : Z) (customerSize : option string) :
  isGoLiveTask t = true ->
  exists due,
    calculateTaskDueDate now t (Some (Js.ValidDate ms)) customerSize = Js.ValidDate due /\
    (now + 3 * MS_PER_DAY <= ms ->
     ms - 3 * MS_PER_DAY < due <= ms - 2 * MS_PER_DAY /\ now < due) /\
    (ms < now + 3 * MS_PER_DAY -> due = now + MS_PER_DAY) /\
    (ms < now + MS_PER_DAY -> ms < due).
Proof.
  intros Hgo. unfold calculateTaskDueDate.
  rewrite (dueDays_go_live _ _ _ _ Hgo). simpl.
  change (1000 * 60 * 60 * 24) with 86400000. unfold MS_PER_DAY.
  change (24 * 60 * 60 * 1000) with 86400000.
  eexists. split; [reflexivity |].
  pose proof (Z.mul_div_le (ms - now) 86400000 ltac:(lia)).
  pose proof (Z.mul_succ_div_gt (ms - now) 86400000 ltac:(lia)).
  repeat split; intros; lia.
Qed.

Lemma go_live_due_date_buffer_witness :
  exists due,
    calculateTaskDueDate Sample.now "go_live_preparation"
      (Some (Js.ValidDate (Sample.now + 10 * Sample.DAY + 5))) None = Js.ValidDate due /\
    (Sample.now + 3 * MS_PER_DAY <= Sample.now + 10 * Sample.DAY + 5 ->
     Sample.now + 10 * Sample.DAY + 5 - 3 * MS_PER_DAY < due
     <= Sample.now + 10 * Sample.DAY + 5 - 2 * MS_PER_DAY /\ Sample.now < due) /\
    (Sample.now + 10 * Sample.DAY + 5 < Sample.now + 3 * MS_PER_DAY ->
     due = Sample.now + MS_PER_DAY) /\
    (Sample.now + 10 * Sample.DAY + 5 < Sample.now + MS_PER_DAY ->
     Sample.now + 10 * Sample.DAY + 5 < due).
Proof.
  apply (go_live_due_date_buffer Sample.now "go_live_preparation"
           (Sample.now + 10 * Sample.DAY + 5) None).
  reflexivity.
Defined.

(** X12. Unless the task type reaches the go-live branch, the due date does
    not depend on the go-live date at all (not even on whether it parses):
    it is 1, 2, 3, 5 or 7 days from now. *)
Theorem due_date_without_go_live_branch
    (now : Z) (t : string) (goLiveDate other : option Js.JsDate)
    (customerSize : option string) :
  isGoLiveTask t = false ->
  calculateTaskDueDate now t goLiveDate customerSize
  = calculateTaskDueDate now t other customerSize /\
  exists k, In k [1; 2; 3; 5; 7] /\
            calculateTaskDueDate now t goLiveDate customerSize
            = Js.ValidDate (now + k * MS_PER_DAY).
Proof.
  intros Hno.
  assert (Hk : exists k, In k [1; 2; 3; 5; 7] /\
                         forall g, dueDays now t g customerSize = Js.Num k).
  { unfold isGoLiveTask in Hno. unfold dueDays.
    repeat match goal with
           | |- context [Js.includes t ?k] => destruct (Js.includes t k)
           end; cbn [orb andb negb] in *; cbv iota; try discriminate Hno;
      try destruct (bool_decide _);
      eexists; (split; [| intros g; reflexivity]); simpl; auto 10. }
  destruct Hk as (k & Hin & Hk). unfold calculateTaskDueDate. rewrite !Hk.
  split; [reflexivity |]. exists k. split; [exact Hin | reflexivity].
Qed.

Lemma due_date_without_go_live_branch_witness :
  calculateTaskDueDate Sample.now "go_live_testing" (Some Js.InvalidDate) None
  = calculateTaskDueDate Sample.now "go_live_testing" None None /\
  exists k, In k [1; 2; 3; 5; 7] /\
            calculateTaskDueDate Sample.now "go_live_testing" (Some Js.InvalidDate) None
            = Js.ValidDate (Sample.now + k * MS_PER_DAY).
Proof.
  apply (due_date_without_go_live_branch Sample.now "go_live_testing"
           (Some Js.InvalidDate) None None).
  reflexivity.
Defined.

End PriorityAndDueDates.

(** ** Integration validation and progress *)

Section ValidationOutcome.
Import IntegrationLifecycle.

(** The verdict of a validation run, by credentials. *)
Lemma validation_verdict_by_credentials (now : string) (integration : Integration) :
  let present := credentialsPresent (integration_type integration)
                   (default ∅ (integration_configuration integration)) in
  completion_percentage (runIntegrationTests now integration)
  = (if present then 100 else 67) /\
  overall_status (runIntegrationTests now integration)
  = (if present then passed else failed).
Proof.
  intros present.
  assert (Hpct : completionPercentage (runBattery now integration)
                 = if present then 100 else 67).
  { assert (Hcases : integration_type integration <> other
                     \/ integration_type integration = other).
    { destruct (integration_type integration); auto; left; discriminate. }
    destruct Hcases as [Htyped | Hother].
    - destruct (runBattery_typed now integration Htyped)
        as (t1 & t2 & t3 & Hb & Hs1 & _ & _ & Hs2 & Hs3 & _).
      fold present in Hs2. rewrite Hb.
      unfold completionPercentage. rewrite !filter_cons, filter_nil.
      rewrite Hs1, Hs2, Hs3. destruct present; reflexivity.
    - unfold present, runBattery. rewrite Hother. reflexivity. }
  unfold runIntegrationTests. simpl. rewrite Hpct.
  destruct present; split; reflexivity.
Qed.

(** X13. The status [determineIntegrationStatus] derives from a validation
    run is [active] when the credentials of the integration's type are
    present and [failed] when they are not (an integration of type
    [other] has none to present); a validation run never leaves an
    integration in [testing], [configured] or [not_configured]. *)
Theorem validated_status_follows_credentials (now : string) (integration : Integration) :
  let st := IntegrationStatusTracker.determineIntegrationStatus
              (runIntegrationTests now integration) in
  let present := credentialsPresent (integration_type integration)
                   (default ∅ (integration_configuration integration)) in
  (st = IntegrationStatusTracker.active <-> present = true) /\
  (st = IntegrationStatusTracker.failed <-> present = false) /\
  st <> IntegrationStatusTracker.testing /\
  st <> IntegrationStatusTracker.configured /\
  st <> IntegrationStatusTracker.not_configured.
Proof.
  intros st present.
  destruct (validation_verdict_by_credentials now integration) as [_ Hst].
  fold present in Hst.
  unfold st, IntegrationStatusTracker.determineIntegrationStatus. rewrite Hst.
  destruct present; repeat split; intros; try discriminate; auto.
Qed.

(** X14. What a validation run tells the operator to do next: after a
    passed run, exactly the two go-live lines; after a failed run, exactly
    the count of failed tests (one) and the line for the failed
    authentication test, with no further recommendation. *)
Theorem next_steps_of_validation (now : string) (integration : Integration) :
  let r := runIntegrationTests now integration in
  match overall_status r with
  | passed =>
      next_steps r = ["Integration ready for production use";
                      "Schedule go-live validation"]%string
  | failed =>
      exists t, In t (test_results r) /\ success t = false /\
                test_type t = authentication /\
                next_steps r
                = ["Address 1 failed test(s)";
                   "- Fix authentication: " +:+ message t]%string
  | warning => False
  end.
Proof.
  intros r.
  destruct (validation_verdict_by_credentials now integration) as [_ Hst].
  fold r in Hst. rewrite Hst.
  change (overall_status r)
    with (overallStatus (completionPercentage (runBattery now integration))) in Hst.
  change (next_steps r)
    with (nextSteps (runBattery now integration)
            (overallStatus (completionPercentage (runBattery now integration)))).
  change (test_results r) with (runBattery now integration).
  rewrite Hst. clear Hst r.
  assert (Hcases : integration_type integration <> other
                   \/ integration_type integration = other).
  { destruct (integration_type integration); auto; left; discriminate. }
  destruct Hcases as [Htyped | Hother].
  - destruct (runBattery_typed now integration Htyped)
      as (t1 & t2 & t3 & Hb & Hs1 & _ & Hauth & Hs2 & Hs3 & _).
    rewrite Hb. unfold nextSteps. rewrite !filter_cons, filter_nil.
    rewrite Hs1, Hs3.
    destruct (credentialsPresent _ _); rewrite Hs2; simpl; [reflexivity |].
    exists t2. rewrite Hauth. simpl. auto.
  - unfold runBattery, nextSteps. rewrite Hother. reflexivity.
Qed.

End ValidationOutcome.

Section ProgressArithmetic.
Import IntegrationStatusTracker.

Lemma countStatus_cons (s : IntegrationStatus) (i : TrackedIntegration)
    (l : list TrackedIntegration) :
  countStatus s (i :: l)
  = (if decide (integration_status i = s) then 1 else 0) + countStatus s l.
Proof.
  unfold countStatus. rewrite filter_cons.
  destruct (decide (integration_status i = s)); simpl length; lia.
Qed.

(** The counting loop, from any starting counters. *)
Lemma breakdown_fold (l : list TrackedIntegration) (b : StatusBreakdown) :
  let b' := fold_left (fun b i => increment b (integration_status i)) l b in
  count_not_configured b' = count_not_configured b + countStatus not_configured l /\
  count_configured b' = count_configured b + countStatus configured l /\
  count_testing b' = count_testing b + countStatus testing l /\
  count_active b' = count_active b + countStatus active l /\
  count_failed b' = count_failed b + countStatus failed l.
Proof.
  revert b. induction l as [|i l IH]; intros b.
  - unfold countStatus. simpl. repeat split; lia.
  - simpl. specialize (IH (increment b (integration_status i))).
    cbv zeta in IH. destruct IH as (H1 & H2 & H3 & H4 & H5).
    rewrite H1, H2, H3, H4, H5, !countStatus_cons.
    destruct (integration_status i); simpl; repeat split; lia.
Qed.

Lemma countStatus_total (l : list TrackedIntegration) :
  countStatus not_configured l + countStatus configured l + countStatus testing l
  + countStatus active l + countStatus failed l = Z.of_nat (length l).
Proof.
  induction l as [|i l IH]; [reflexivity |].
  rewrite !countStatus_cons. simpl length.
  destruct (integration_status i); simpl; lia.
Qed.

(** X15. Progress arithmetic.  For every list of integrations the
    breakdown has, for each status, the number of integrations in that
    status; its five counters add up to the total; the completed count is
    the number of active integrations; and with no integration at all the
    percentage is 0. *)
Theorem progress_breakdown_counts
    (percentOf : Z -> Z -> Z) (integrations : list TrackedIntegration) :
  let p := calculateIntegrationProgress percentOf integrations in
  let b := status_breakdown p in
  total_integrations p = Z.of_nat (length integrations) /\
  count_not_configured b = countStatus not_configured integrations /\
  count_configured b = countStatus configured integrations /\
  count_testing b = countStatus testing integrations /\
  count_active b = countStatus active integrations /\
  count_failed b = countStatus failed integrations /\
  count_not_configured b + count_configured b + count_testing b
  + count_active b + count_failed b = total_integrations p /\
  completed_integrations p = count_active b /\
  0 <= completed_integrations p <= total_integrations p /\
  (integrations = [] -> progress_percentage p = 0).
Proof.
  intros p b.
  destruct (breakdown_fold integrations emptyBreakdown) as (H1 & H2 & H3 & H4 & H5).
  change (fold_left _ integrations emptyBreakdown) with b in H1, H2, H3, H4, H5.
  simpl in H1, H2, H3, H4, H5.
  pose proof (countStatus_total integrations) as Htot.
  assert (Hcompleted : completed_integrations p = countStatus active integrations)
    by reflexivity.
  assert (Htotal : total_integrations p = Z.of_nat (length integrations)) by reflexivity.
  assert (0 <= countStatus not_configured integrations) by (unfold countStatus; lia).
  assert (0 <= countStatus configured integrations) by (unfold countStatus; lia).
  assert (0 <= countStatus testing integrations) by (unfold countStatus; lia).
  assert (0 <= countStatus active integrations) by (unfold countStatus; lia).
  assert (0 <= countStatus failed integrations) by (unfold countStatus; lia).
  repeat split; try lia; try assumption.
  intros ->. reflexivity.
Qed.

(** X16. The status report gives no recommendation exactly when no
    integration is unconfigured, failed or in testing and the percentage is
    not 100; integrations that are merely [configured] never produce one.
    The report has one detail per integration, with an issue noted on the
    failed ones only. *)
Theorem status_report_recommendations
    (percentOf : Z -> Z -> Z) (integrations : list TrackedIntegration) :
  let report := generateStatusReport percentOf integrations in
  let p := calculateIntegrationProgress percentOf integrations in
  (recommendations report = [] <->
   countStatus not_configured integrations = 0 /\
   countStatus failed integrations = 0 /\
   countStatus testing integrations = 0 /\
   progress_percentage p <> 100) /\
  (length (recommendations report) <= 4)%nat /\
  length (details report) = length integrations /\
  Forall (fun d => detail_issues d <> None <-> detail_status d = failed) (details report).
Proof.
  intros report p.
  destruct (progress_breakdown_counts percentOf integrations)
    as (_ & Hnc & _ & Hte & _ & Hfa & _).
  fold p in Hnc, Hte, Hfa.
  assert (0 <= countStatus not_configured integrations) by (unfold countStatus; lia).
  assert (0 <= countStatus failed integrations) by (unfold countStatus; lia).
  assert (0 <= countStatus testing integrations) by (unfold countStatus; lia).
  unfold report, generateStatusReport. fold p. cbn [recommendations details].
  rewrite Hnc, Hfa, Hte.
  split; [| split; [| split]].
  - destruct (Z.ltb_spec 0 (countStatus not_configured integrations));
      destruct (Z.ltb_spec 0 (countStatus failed integrations));
      destruct (Z.ltb_spec 0 (countStatus testing integrations));
      destruct (Z.eqb_spec (progress_percentage p) 100);
      cbn [app]; (split; [intros Hrec | intros (? & ? & ? & ?)]);
      try discriminate; try lia; try reflexivity; repeat split; lia.
  - destruct (0 <? _); destruct (0 <? _); destruct (0 <? _); destruct (_ =? 100);
      simpl; lia.
  - apply length_map.
  - apply Forall_map. apply Forall_forall. intros i _. unfold detailOf. simpl.
    case_bool_decide; split; intros; congruence.
Qed.

End ProgressArithmetic.

(** ** Audit queries *)

(** *** Decimal numerals and [parseInt] *)

Lemma parseDigits_numeral (d : Decimal.uint) (acc : Z) :
  Js.parseDigits 10 (Some acc) (NilEmpty.string_of_uint d) = Some (uintValue d acc).
Proof.
  revert acc. induction d; intros acc; try reflexivity; apply IHd.
Qed.

Lemma uintValue_acc (d : Decimal.uint) (acc : positive) :
  uintValue d (Z.pos acc) = Z.pos (Pos.of_uint_acc d acc).
Proof.
  revert acc. induction d; intros acc; cbn [uintValue Pos.of_uint_acc];
    try reflexivity; rewrite <- IHd; f_equal; lia.
Qed.

Lemma uintValue_of_uint (d : Decimal.uint) : uintValue d 0 = Z.of_N (Pos.of_uint d).
Proof.
  induction d; cbn [uintValue Pos.of_uint]; try reflexivity;
    try exact IHd; apply (uintValue_acc d).
Qed.

(** A numeral has no white space, sign or hexadecimal prefix to strip,
    and its digits are read to the number it denotes. *)
Lemma numeral_digits (d : Decimal.uint) :
  d <> Decimal.Nil ->
  Js.trimStart (NilEmpty.string_of_uint d) = NilEmpty.string_of_uint d /\
  Js.stripSign (NilEmpty.string_of_uint d) = (1, NilEmpty.string_of_uint d) /\
  Js.stripHexPrefix (NilEmpty.string_of_uint d) = (10, NilEmpty.string_of_uint d) /\
  Js.parseDigits 10 None (NilEmpty.string_of_uint d) = Some (Z.of_N (Pos.of_uint d)).
Proof.
  intros Hd. rewrite <- uintValue_of_uint.
  destruct d as [| l | l | l | l | l | l | l | l | l | l]; [contradiction | ..];
    (split; [reflexivity |]); (split; [reflexivity |]);
    (split; [try reflexivity; destruct l; reflexivity |]);
    apply (parseDigits_numeral l).
Qed.

(** [parseInt] reads back the decimal rendering of every integer. *)
Lemma parseInt_showZ (z : Z) : Js.parseInt (Js.showZ z) = Js.Num z.
Proof.
  destruct z as [| p | p]; [reflexivity | ..];
    unfold Js.showZ, Z.to_int, NilZero.string_of_int;
    pose proof (Unsigned.to_uint_nonnil p) as Hnil;
    destruct (numeral_digits _ Hnil) as (Ht & Hs & Hx & Hv);
    rewrite Unsigned.of_to in Hv;
    replace (NilZero.string_of_uint (Pos.to_uint p))
      with (NilEmpty.string_of_uint (Pos.to_uint p))
      by (destruct (Pos.to_uint p); [contradiction | reflexivity ..]).
  - unfold Js.parseInt. rewrite Ht, Hs, Hx, Hv. reflexivity.
  - change (Js.parseInt (String "-" ?s))
      with (let '(radix, s2) := Js.stripHexPrefix s in
            match Js.parseDigits radix None s2 with
            | Some v => Js.Num (-1 * v)
            | None => Js.NaN
            end).
    rewrite Hx, Hv. reflexivity.
Qed.

Section QueryClauses.
Import AuditRoute AuditQuery.

Lemma in_whenText (c : Clause) (v : option string) (clause : string -> Clause) :
  In c (whenText v clause) <-> exists s, v = Some s /\ s <> ""%string /\ c = clause s.
Proof.
  unfold whenText. destruct v as [s|].
  - destruct (String.eqb_spec s "") as [-> | Hne]; simpl.
    + split; [intros [] | intros (s & [= <-] & Hne & _); contradiction].
    + split.
      * intros [<- | []]. exists s. auto.
      * intros (s' & [= <-] & _ & ->). now left.
  - simpl. split; [intros [] | intros (s & [=] & _)].
Qed.

(** The paging part of a query, and its other clauses. *)
Lemma buildQuery_paging (filters : AuditQueryFilters) :
  filter (fun c => isPaging c = true) (buildQuery filters)
  = match whenNumber (f_limit filters) with
    | Some limit => [Limit limit]
    | None => []
    end
    ++ match whenNumber (f_offset filters) with
       | Some offset =>
           [Range offset (offset + default 100 (whenNumber (f_limit filters)) - 1)]
       | None => []
       end.
Proof.
  unfold buildQuery. rewrite !filter_app.
  assert (Htext : forall v clause,
             (forall s, isPaging (clause s) = false) ->
             filter (fun c => isPaging c = true) (whenText v clause) = []).
  { intros v clause Hc. unfold whenText. destruct v as [s|]; [| reflexivity].
    destruct (String.eqb s ""); [reflexivity |].
    rewrite filter_cons, decide_False by (rewrite Hc; discriminate). reflexivity. }
  rewrite !Htext by reflexivity. simpl.
  destruct (whenNumber (f_limit filters)); destruct (whenNumber (f_offset filters));
    reflexivity.
Qed.

(** The clauses of a query that are not paging: they depend on the text
    filters only. *)
Lemma buildQuery_filters_part (filters : AuditQueryFilters) :
  filter (fun c => isPaging c = false) (buildQuery filters)
  = whenText (f_entity_type filters) (WhereEq "entity_type")
    ++ whenText (f_entity_id filters) (WhereEq "entity_id")
    ++ whenText (f_event_type filters) (WhereEq "event_type")
    ++ whenText (f_onboarding_id filters) (WhereEq "metadata->onboarding_id")
    ++ whenText (f_customer_id filters) (WhereEq "metadata->customer_id")
    ++ whenText (f_date_from filters) (WhereGte "created_at")
    ++ whenText (f_date_to filters) (WhereLte "created_at")
    ++ whenText (f_source filters) (WhereEq "metadata->source")
    ++ [OrderDescending "created_at"].
Proof.
  unfold buildQuery. rewrite !filter_app.
  assert (Htext : forall v clause,
             (forall s, isPaging (clause s) = false) ->
             filter (fun c => isPaging c = false) (whenText v clause) = whenText v clause).
  { intros v clause Hc. unfold whenText. destruct v as [s|]; [| reflexivity].
    destruct (String.eqb s ""); [reflexivity |].
    rewrite filter_cons, decide_True by apply Hc. reflexivity. }
  rewrite !Htext by reflexivity.
  destruct (whenNumber (f_limit filters)); destruct (whenNumber (f_offset filters));
    reflexivity.
Qed.

Lemma buildQuery_ends_with_order (filters : AuditQueryFilters) :
  exists clauses, buildQuery filters = clauses ++ [OrderDescending "created_at"].
Proof.
  unfold buildQuery. eexists. rewrite !app_assoc. reflexivity.
Qed.

Lemma in_buildQuery_paging (filters : AuditQueryFilters) (c : Clause) :
  isPaging c = true ->
  (In c (buildQuery filters) <->
   In c (match whenNumber (f_limit filters) with
         | Some limit => [Limit limit]
         | None => []
         end
         ++ match whenNumber (f_offset filters) with
            | Some offset =>
                [Range offset (offset + default 100 (whenNumber (f_limit filters)) - 1)]
            | None => []
            end)).
Proof.
  intros Hp. rewrite <- buildQuery_paging, <- !list_elem_of_In, list_elem_of_filter.
  tauto.
Qed.

Lemma in_limit_paging (filters : AuditQueryFilters) (n : Z) :
  In (Limit n) (buildQuery filters) <-> whenNumber (f_limit filters) = Some n.
Proof.
  rewrite (in_buildQuery_paging filters (Limit n) eq_refl), in_app_iff.
  destruct (whenNumber (f_limit filters)) as [limit|];
    destruct (whenNumber (f_offset filters)) as [offset|]; simpl;
    split; intros H; try congruence; intuition congruence.
Qed.

Lemma in_range_paging (filters : AuditQueryFilters) (a b : Z) :
  In (Range a b) (buildQuery filters) <->
  whenNumber (f_offset filters) = Some a /\
  b = a + default 100 (whenNumber (f_limit filters)) - 1.
Proof.
  rewrite (in_buildQuery_paging filters (Range a b) eq_refl), in_app_iff.
  destruct (whenNumber (f_limit filters)) as [limit|];
    destruct (whenNumber (f_offset filters)) as [offset|]; simpl;
    split; intros H; try congruence; intuition congruence.
Qed.

Lemma whenNumber_Some (n : option Z) (z : Z) :
  whenNumber n = Some z <-> n = Some z /\ z <> 0.
Proof.
  unfold whenNumber. destruct n as [y|]; [| split; [discriminate | intros [[=] _]]].
  destruct (Z.eqb_spec y 0); split.
  - discriminate.
  - intros [[= <-] Hne]. contradiction.
  - intros [= <-]. auto.
  - intros [[= <-] _]. reflexivity.
Qed.

(** The limit a request is answered with, in terms of the request. *)
Lemma limit_of_request (searchParams : list (string * string)) (n : Z) :
  f_limit (buildFilters searchParams) = Some n <->
  exists v, get searchParams "limit" = Some v /\ Js.parseInt v = Js.Num n /\
            1 <= n <= 1000.
Proof.
  pose proof (limitFilter_spec searchParams) as Hlim.
  change (f_limit (buildFilters searchParams)) with (limitFilter searchParams).
  destruct (limitFilter searchParams) as [l |]; split.
  - intros [= <-]. destruct Hlim as (Hr & v & Hv & Hp). exists v. auto.
  - intros (v & Hv & Hp & Hr). destruct Hlim as (_ & v' & Hv' & Hp').
    rewrite Hv in Hv'. injection Hv' as <-. rewrite Hp in Hp'. congruence.
  - discriminate.
  - intros (v & Hv & Hp & Hr). contradiction (Hlim v n Hv Hp).
Qed.

(** The offset a request is answered with, in terms of the request. *)
Lemma offset_of_request (searchParams : list (string * string)) (a : Z) :
  f_offset (buildFilters searchParams) = Some a <->
  exists v, get searchParams "offset" = Some v /\ Js.parseInt v = Js.Num a /\ 0 <= a.
Proof.
  pose proof (offsetFilter_spec searchParams) as Hoff.
  change (f_offset (buildFilters searchParams)) with (offsetFilter searchParams).
  destruct (offsetFilter searchParams) as [o |]; split.
  - intros [= <-]. destruct Hoff as (Hr & v & Hv & Hp). exists v. auto.
  - intros (v & Hv & Hp & Hr). destruct Hoff as (_ & v' & Hv' & Hp').
    rewrite Hv in Hv'. injection Hv' as <-. rewrite Hp in Hp'. congruence.
  - discriminate.
  - intros (v & Hv & Hp & Hr). pose proof (Hoff v a Hv Hp). lia.
Qed.

(** X17. Paging of a record request to [GET /api/audit], for a request
    whose [limit] and [offset] are written in ASCII and whose offset
    leaves room for the window below [MAX_SAFE_INTEGER].  The handler
    sends one query and answers from it.  The query has the limit [n]
    exactly when the request carries a [limit] that [parseInt] reads as
    [n], with [n] in 1..1000, and a row window from [a] exactly when it
    carries an [offset] read as [a >= 1]; the window then spans as many
    rows as the limit, or 100 without one.  In particular a [limit]
    written as the decimal numeral of [n] is applied exactly when [n] is
    in 1..1000, and an [offset] written as the numeral of [a] exactly when
    [a >= 1].  A request with neither parameter is not capped at all.  The
    ordering by creation date is always applied last. *)
Theorem record_request_paging
    (runSelect : list Clause -> QueryResponse AuditTrail.EventsAudit)
    (isoNow : string) (searchParams : list (string * string)) :
  plainPaging searchParams ->
  get searchParams "summary" <> Some "true"%string ->
  let asked := buildQuery (buildFilters searchParams) in
  auditGET runSelect isoNow searchParams
  = match AuditQuery.error (runSelect asked) with
    | Some msg =>
        JsonError "Failed to query audit trail" ("Audit query failed: " +:+ msg)
    | None =>
        JsonRecords (default [] (data (runSelect asked)))
                    (Z.of_nat (length (default [] (data (runSelect asked)))))
                    (buildFilters searchParams)
    end /\
  (forall n, In (Limit n) asked <->
     exists v, get searchParams "limit" = Some v /\ Js.parseInt v = Js.Num n /\
               1 <= n <= 1000) /\
  (forall a b, In (Range a b) asked <->
     exists v, get searchParams "offset" = Some v /\ Js.parseInt v = Js.Num a /\
               1 <= a /\
               ((exists n, In (Limit n) asked /\ b = a + n - 1) \/
                ((forall n, ~ In (Limit n) asked) /\ b = a + 100 - 1))) /\
  (forall n, get searchParams "limit" = Some (Js.showZ n) ->
     forall m, In (Limit m) asked <-> m = n /\ 1 <= n <= 1000) /\
  (forall a, get searchParams "offset" = Some (Js.showZ a) ->
     forall a', (exists b, In (Range a' b) asked) <-> a' = a /\ 1 <= a) /\
  (get searchParams "limit" = None -> get searchParams "offset" = None ->
   forall c, In c asked -> isPaging c = false) /\
  (exists others, asked = others ++ [OrderDescending "created_at"]).
Proof.
  intros _ Hsummary asked. set (filters := buildFilters searchParams).
  assert (Hwl : whenNumber (f_limit filters) = f_limit filters).
  { destruct (f_limit filters) as [l |] eqn:Hl; [| reflexivity].
    apply limit_of_request in Hl as (_ & _ & _ & Hr).
    apply whenNumber_Some. split; [reflexivity | lia]. }
  assert (HL : forall n, In (Limit n) asked <->
             exists v, get searchParams "limit" = Some v /\ Js.parseInt v = Js.Num n /\
                       1 <= n <= 1000).
  { intros n. unfold asked. fold filters. rewrite in_limit_paging, Hwl.
    apply limit_of_request. }
  assert (HR : forall a b, In (Range a b) asked <->
             exists v, get searchParams "offset" = Some v /\ Js.parseInt v = Js.Num a /\
                       1 <= a /\
                       ((exists n, In (Limit n) asked /\ b = a + n - 1) \/
                        ((forall n, ~ In (Limit n) asked) /\ b = a + 100 - 1))).
  { intros a b. unfold asked at 1. fold filters.
    rewrite in_range_paging, Hwl, whenNumber_Some. unfold filters at 1.
    rewrite offset_of_request. split.
    - intros [[(v & Hv & Hp & Hge) Hne] ->]. exists v.
      split; [exact Hv |]. split; [exact Hp |]. split; [lia |].
      destruct (f_limit filters) as [l |] eqn:Hl.
      + left. exists l. split; [| reflexivity].
        apply HL. apply limit_of_request. exact Hl.
      + right. split; [| reflexivity]. intros n Hin.
        apply HL, limit_of_request in Hin. fold filters in Hin. congruence.
    - intros (v & Hv & Hp & Hge & Hb).
      split; [split; [exists v; repeat split; (assumption || lia) | lia] |].
      destruct Hb as [(n & Hin & ->) | [Hnone ->]].
      + apply HL, limit_of_request in Hin. fold filters in Hin. rewrite Hin. reflexivity.
      + destruct (f_limit filters) as [l |] eqn:Hl; [| reflexivity].
        exfalso. apply (Hnone l), HL, limit_of_request. exact Hl. }
  split.
  { unfold auditGET, GET. rewrite bool_decide_false by exact Hsummary.
    unfold queryAuditTrail. subst asked filters.
    destruct (AuditQuery.error (runSelect _)); reflexivity. }
  split; [exact HL |]. split; [exact HR |]. split.
  { intros n Hv m. rewrite HL. split.
    - intros (v & Hv' & Hp & Hr). rewrite Hv in Hv'. injection Hv' as <-.
      rewrite parseInt_showZ in Hp. injection Hp as ->. auto.
    - intros [-> Hr]. exists (Js.showZ n). split; [exact Hv |].
      split; [apply parseInt_showZ | exact Hr]. }
  split.
  { intros a Hv a'. split.
    - intros (b & Hin). apply HR in Hin as (v & Hv' & Hp & Hge & _).
      rewrite Hv in Hv'. injection Hv' as <-.
      rewrite parseInt_showZ in Hp. injection Hp as ->. auto.
    - intros [-> Hge].
      destruct (f_limit filters) as [l |] eqn:Hl.
      + exists (a + l - 1). apply HR. exists (Js.showZ a).
        split; [exact Hv |]. split; [apply parseInt_showZ |]. split; [exact Hge |].
        left. exists l. split; [| reflexivity]. apply HL, limit_of_request. exact Hl.
      + exists (a + 100 - 1). apply HR. exists (Js.showZ a).
        split; [exact Hv |]. split; [apply parseInt_showZ |]. split; [exact Hge |].
        right. split; [| reflexivity]. intros n Hin.
        apply HL, limit_of_request in Hin. fold filters in Hin. congruence. }
  split.
  { intros Hnl Hno c Hin. destruct (isPaging c) eqn:Hp; [| reflexivity]. exfalso.
    destruct c as [| | | n | a b |]; try discriminate Hp.
    - apply HL in Hin as (v & Hv & _). congruence.
    - apply HR in Hin as (v & Hv & _). congruence. }
  apply buildQuery_ends_with_order.
Qed.

Section SummaryQuery.
Context {Row : Type}.
Variable rowEntityType rowEntityId rowEventType : Row -> option string.
Variable rowCreatedAt : Row -> string.
Variable runSelect : list Clause -> QueryResponse Row.

(** X18. [generateAuditSummary] sends one query and summarises the rows
    it returns (none when the data is null), or fails with the wrapped
    message of the query's error.  For filters whose offset is a safe
    integer, that query always asks for 10000 rows, whatever limit the
    filters carry; its row window starts at the offset of the filters and
    spans 10000 rows; its other clauses are the text filters given,
    followed by the ordering. *)
Theorem summary_query_overrides_limit (isoNow : string) (filters : AuditQueryFilters) :
  safeWindow filters ->
  let asked := buildQuery (withLimit filters 10000) in
  generateAuditSummary rowEntityType rowEntityId rowEventType rowCreatedAt
                       runSelect isoNow filters
  = match AuditQuery.error (runSelect asked) with
    | Some msg => inl ("Audit query failed: " +:+ msg)
    | None =>
        inr (summarize rowEntityType rowEntityId rowEventType rowCreatedAt isoNow
                       (default [] (data (runSelect asked))))
    end /\
  (forall n, In (Limit n) asked <-> n = 10000) /\
  (forall a b, In (Range a b) asked <->
               f_offset filters = Some a /\ a <> 0 /\ b = a + 10000 - 1) /\
  filter (fun c => isPaging c = false) asked
  = whenText (f_entity_type filters) (WhereEq "entity_type")
    ++ whenText (f_entity_id filters) (WhereEq "entity_id")
    ++ whenText (f_event_type filters) (WhereEq "event_type")
    ++ whenText (f_onboarding_id filters) (WhereEq "metadata->onboarding_id")
    ++ whenText (f_customer_id filters) (WhereEq "metadata->customer_id")
    ++ whenText (f_date_from filters) (WhereGte "created_at")
    ++ whenText (f_date_to filters) (WhereLte "created_at")
    ++ whenText (f_source filters) (WhereEq "metadata->source")
    ++ [OrderDescending "created_at"].
Proof.
  intros _ asked. split; [| split; [| split]].
  - unfold generateAuditSummary, queryAuditTrail. fold asked.
    destruct (AuditQuery.error (runSelect asked)); reflexivity.
  - intros n. unfold asked. rewrite in_limit_paging. simpl.
    split; [intros [= <-]; reflexivity | intros ->; reflexivity].
  - intros a b. unfold asked. rewrite in_range_paging, whenNumber_Some. simpl.
    tauto.
  - unfold asked. rewrite buildQuery_filters_part. reflexivity.
Qed.

End SummaryQuery.

End QueryClauses.

(** A request for 250 rows from row 40 on: the query carries the limit
    and the window of rows 40 to 289. *)
Lemma record_request_paging_witness :
  let searchParams := [("limit", "250"); ("offset", "40")]%string in
  plainPaging searchParams /\
  AuditRoute.get searchParams "summary" <> Some "true"%string /\
  In (AuditQuery.Limit 250) (AuditQuery.buildQuery (AuditRoute.buildFilters searchParams)) /\
  In (AuditQuery.Range 40 289)
     (AuditQuery.buildQuery (AuditRoute.buildFilters searchParams)).
Proof.
  intros searchParams.
  assert (Hplain : plainPaging searchParams).
  { split; intros v Hv; injection Hv as <-.
    - unfold asciiOnly. cbn. repeat (apply List.Forall_cons; [apply Nat.ltb_lt; reflexivity |]). apply List.Forall_nil.
    - split.
      + unfold asciiOnly. cbn. repeat (apply List.Forall_cons; [apply Nat.ltb_lt; reflexivity |]). apply List.Forall_nil.
      + intros m Hm. vm_compute in Hm. injection Hm as <-.
        unfold MAX_SAFE_INTEGER. lia. }
  assert (Hsummary : AuditRoute.get searchParams "summary" <> Some "true"%string)
    by discriminate.
  split; [exact Hplain |]. split; [exact Hsummary |].
  destruct (record_request_paging LedgerSample.runSelect Sample.isoNow searchParams
              Hplain Hsummary) as (_ & Hlimit & Hrange & _).
  assert (Hin : In (AuditQuery.Limit 250)
                   (AuditQuery.buildQuery (AuditRoute.buildFilters searchParams))).
  { apply Hlimit. exists "250"%string.
    split; [reflexivity |]. split; [reflexivity | lia]. }
  split; [exact Hin |].
  apply Hrange. exists "40"%string.
  split; [reflexivity |]. split; [reflexivity |]. split; [lia |].
  left. exists 250. split; [exact Hin | reflexivity].
Defined.

(** A summary over filters that ask for 5 rows from row 20 on: the
    query asks for 10000 rows, in the window of rows 20 to 10019. *)
Lemma summary_query_overrides_limit_witness :
  let filters :=
    {| AuditRoute.f_entity_type := Some "task"%string; AuditRoute.f_entity_id := None;
       AuditRoute.f_event_type := None; AuditRoute.f_onboarding_id := None;
       AuditRoute.f_customer_id := None; AuditRoute.f_date_from := None;
       AuditRoute.f_date_to := None; AuditRoute.f_source := None;
       AuditRoute.f_limit := Some 5; AuditRoute.f_offset := Some 20 |} in
  let asked := AuditQuery.buildQuery (AuditQuery.withLimit filters 10000) in
  safeWindow filters /\
  AuditQuery.generateAuditSummary LedgerSample.typeOf LedgerSample.idOf
    LedgerSample.eventOf AuditTrail.created_at LedgerSample.runSelect Sample.isoNow filters
  = inr LedgerSample.summary /\
  In (AuditQuery.Limit 10000) asked /\ ~ In (AuditQuery.Limit 5) asked /\
  In (AuditQuery.Range 20 10019) asked.
Proof.
  intros filters asked.
  assert (Hsafe : safeWindow filters).
  { intros a Ha. injection Ha as <-. unfold MAX_SAFE_INTEGER. lia. }
  split; [exact Hsafe |].
  destruct (summary_query_overrides_limit LedgerSample.typeOf LedgerSample.idOf
              LedgerSample.eventOf AuditTrail.created_at LedgerSample.runSelect
              Sample.isoNow filters Hsafe) as (Hrun & Hlimit & Hrange & _).
  split; [exact Hrun |].
  split; [apply Hlimit; reflexivity |].
  split; [intros Hin; apply Hlimit in Hin; discriminate Hin |].
  apply Hrange. split; [reflexivity |]. split; [discriminate | reflexivity].
Defined.

(** ** Audit summaries *)

Section SummaryCounters.
Import AuditQuery.

Lemma counted_insert_fresh (m : gmap string Counter) (k : string) (c : Counter) :
  m !! k = None -> counted (<[k := c]> m) = weight c + counted m.
Proof.
  intros Hk. unfold counted.
  rewrite map_fold_insert_L.
  - destruct c; reflexivity.
  - intros j1 j2 z1 z2 y _ _ _. destruct z1, z2; lia.
  - exact Hk.
Qed.

Lemma counted_insert_present (m : gmap string Counter) (k : string) (c0 c : Counter) :
  m !! k = Some c0 -> counted (<[k := c]> m) = weight c - weight c0 + counted m.
Proof.
  intros Hk.
  rewrite <- (insert_delete_eq m k c).
  rewrite <- (insert_delete_id m k c0 Hk) at 2.
  rewrite !counted_insert_fresh by apply lookup_delete_eq. lia.
Qed.

Lemma bump_ok (m : gmap string Counter) (key : string) :
  counters_ok m -> counters_ok (bump m key).
Proof.
  intros Hok. unfold bump.
  destruct (String.eqb key "__proto__"); [exact Hok |].
  intros k c. destruct (decide (key = k)) as [-> | Hne].
  - rewrite lookup_insert_eq. intros [= <-]. unfold Js.lookupLiteral.
    destruct (m !! k) as [[n|]|] eqn:Hk.
    + destruct (Hok _ _ Hk). split; [assumption | lia].
    + exact (Hok _ _ Hk).
    + case_bool_decide; [assumption | split; [assumption | lia]].
  - rewrite lookup_insert_ne by exact Hne. apply Hok.
Qed.

Lemma bump_counted (m : gmap string Counter) (key : string) :
  counters_ok m ->
  counted (bump m key)
  = counted m + (if bool_decide (key ∈ Js.objectPrototypeKeys) then 0 else 1).
Proof.
  intros Hok. unfold bump.
  destruct (String.eqb_spec key "__proto__") as [-> | Hne].
  { rewrite bool_decide_eq_true_2 by (vm_compute; set_solver). lia. }
  unfold Js.lookupLiteral. destruct (m !! key) as [[n|]|] eqn:Hk.
  - destruct (Hok _ _ Hk) as [Hnot _].
    rewrite (counted_insert_present _ _ _ _ Hk), bool_decide_eq_false_2 by exact Hnot.
    simpl. lia.
  - pose proof (Hok _ _ Hk) as Hin.
    rewrite (counted_insert_present _ _ _ _ Hk), bool_decide_eq_true_2 by exact Hin.
    simpl. lia.
  - case_bool_decide; rewrite (counted_insert_fresh _ _ _ Hk); simpl; lia.
Qed.

Lemma bump_lookup_other (m : gmap string Counter) (key k : string) :
  key <> k -> bump m key !! k = m !! k.
Proof.
  intros Hne. unfold bump. destruct (String.eqb key "__proto__"); [reflexivity |].
  now rewrite lookup_insert_ne.
Qed.

Lemma bump_lookup_same (m : gmap string Counter) (k : string) (n : Z) :
  k ∉ Js.objectPrototypeKeys -> 0 <= n ->
  m !! k = (if n =? 0 then None else Some (Count n)) ->
  bump m k !! k = Some (Count (n + 1)).
Proof.
  intros Hnot Hn Hk. unfold bump.
  destruct (String.eqb_spec k "__proto__") as [-> | Hne].
  { exfalso. apply Hnot. vm_compute. set_solver. }
  rewrite lookup_insert_eq. unfold Js.lookupLiteral. rewrite Hk.
  destruct (Z.eqb_spec n 0) as [-> | Hnz]; [| reflexivity].
  now rewrite bool_decide_eq_false_2.
Qed.

Context {Row : Type}.
Variable key : Row -> string.

Lemma occurrences_cons (k : string) (r : Row) (rs : list Row) :
  occurrences key k (r :: rs)
  = (if decide (key r = k) then 1 else 0) + occurrences key k rs.
Proof.
  unfold occurrences. rewrite filter_cons.
  destruct (decide (key r = k)); simpl length; lia.
Qed.

Lemma occurrences_nonneg (k : string) (rs : list Row) : 0 <= occurrences key k rs.
Proof. unfold occurrences. lia. Qed.

(** The counting loop over the records, from any well-formed counters. *)
Lemma bump_fold (rs : list Row) (m : gmap string Counter) :
  counters_ok m ->
  let m' := fold_left (fun m r => bump m (key r)) rs m in
  counters_ok m' /\
  counted m'
  = counted m
    + Z.of_nat (length (filter (fun r => key r ∉ Js.objectPrototypeKeys) rs)) /\
  forall k n, k ∉ Js.objectPrototypeKeys -> 0 <= n ->
              m !! k = (if n =? 0 then None else Some (Count n)) ->
              m' !! k = (if n + occurrences key k rs =? 0 then None
                         else Some (Count (n + occurrences key k rs))).
Proof.
  revert m. induction rs as [|r rs IH]; intros m Hok; cbv zeta.
  - simpl. split; [exact Hok |]. split; [lia |].
    intros k n _ _ Hk. unfold occurrences. simpl. now rewrite Z.add_0_r.
  - simpl fold_left.
    destruct (IH (bump m (key r)) (bump_ok m (key r) Hok)) as (Hok' & Hsum & Hlook).
    split; [exact Hok' |]. split.
    + rewrite Hsum, (bump_counted m (key r) Hok), filter_cons.
      destruct (decide (key r ∉ Js.objectPrototypeKeys)) as [Hn | Hy].
      * rewrite bool_decide_eq_false_2 by exact Hn. simpl length. lia.
      * rewrite bool_decide_eq_true_2 by (destruct (decide (key r ∈ Js.objectPrototypeKeys)); tauto).
        lia.
    + intros k n Hnot Hn Hk. rewrite occurrences_cons.
      pose proof (occurrences_nonneg k rs) as Hocc.
      destruct (decide (key r = k)) as [Heq | Hne].
      * rewrite Z.add_assoc. apply Hlook; [exact Hnot | lia |].
        rewrite Heq, (bump_lookup_same m k n Hnot Hn Hk).
        destruct (Z.eqb_spec (n + 1) 0); [lia | reflexivity].
      * rewrite Z.add_0_l. apply Hlook; [exact Hnot | exact Hn |].
        now rewrite bump_lookup_other.
Qed.

End SummaryCounters.

Section SummaryCounts.
Import AuditQuery.
Context {Row : Type}.
Variable rowEntityType : Row -> option string.
Variable rowEntityId : Row -> option string.
Variable rowEventType : Row -> option string.
Variable rowCreatedAt : Row -> string.

(** The five accumulators of the loop evolve independently. *)
Lemma tally_components (rs : list Row) (t : Tally) :
  let t' := fold_left (tallyRecord rowEntityType rowEntityId rowEventType rowCreatedAt)
              rs t in
  eventsByType t'
  = fold_left (fun m r => bump m (orUnknown (rowEventType r))) rs (eventsByType t) /\
  eventsByEntity t'
  = fold_left (fun m r => bump m (orUnknown (rowEntityType r))) rs (eventsByEntity t) /\
  entityActivity t'
  = fold_left (fun es r => bumpEntry es (entityKey rowEntityType rowEntityId r)) rs
              (entityActivity t) /\
  tallyEarliest t'
  = fold_left (fun e r => if String.ltb (rowCreatedAt r) e then rowCreatedAt r else e) rs
              (tallyEarliest t) /\
  tallyLatest t'
  = fold_left (fun l r => if String.ltb l (rowCreatedAt r) then rowCreatedAt r else l) rs
              (tallyLatest t).
Proof.
  revert t. induction rs as [|r rs IH]; intros t; [repeat split |].
  simpl fold_left. apply IH.
Qed.

Lemma counters_ok_empty : counters_ok ∅.
Proof. intros k c Hk. rewrite lookup_empty in Hk. discriminate. Qed.

(** X19. Counts of an audit summary.  [total_events] is the number of
    records.  In [events_by_type] (and likewise [events_by_entity], keyed
    by entity type, a missing or empty value counting as "unknown") a key
    that is not the name of an inherited object member holds the number of
    records with that key, and is absent when there is none; a key that is
    such a name never holds a number; so the numeric counts add up to the
    number of records whose key is not such a name, and to
    [total_events] when no record has one. *)
Theorem summary_counts (isoNow : string) (records : list Row) :
  let s := summarize rowEntityType rowEntityId rowEventType rowCreatedAt isoNow records in
  let typeOf := fun r => orUnknown (rowEventType r) in
  let entityOf := fun r => orUnknown (rowEntityType r) in
  total_events s = Z.of_nat (length records) /\
  (forall k, k ∉ Js.objectPrototypeKeys ->
     events_by_type s !! k
     = (if occurrences typeOf k records =? 0 then None
        else Some (Count (occurrences typeOf k records))) /\
     events_by_entity s !! k
     = (if occurrences entityOf k records =? 0 then None
        else Some (Count (occurrences entityOf k records)))) /\
  (forall k n, k ∈ Js.objectPrototypeKeys ->
     events_by_type s !! k <> Some (Count n) /\
     events_by_entity s !! k <> Some (Count n)) /\
  counted (events_by_type s)
  = Z.of_nat (length (filter (fun r => typeOf r ∉ Js.objectPrototypeKeys) records)) /\
  counted (events_by_entity s)
  = Z.of_nat (length (filter (fun r => entityOf r ∉ Js.objectPrototypeKeys) records)) /\
  (Forall (fun r => typeOf r ∉ Js.objectPrototypeKeys) records ->
   counted (events_by_type s) = total_events s).
Proof.
  intros s typeOf entityOf. subst typeOf entityOf.
  destruct (tally_components records
              {| eventsByType := ∅; eventsByEntity := ∅; entityActivity := [];
                 tallyEarliest := isoNow; tallyLatest := epochIso |})
    as (Hty & Hen & _).
  cbn [eventsByType eventsByEntity] in Hty, Hen.
  change (events_by_type s) with
    (eventsByType (fold_left (tallyRecord rowEntityType rowEntityId rowEventType rowCreatedAt)
                     records
                     {| eventsByType := ∅; eventsByEntity := ∅; entityActivity := [];
                        tallyEarliest := isoNow; tallyLatest := epochIso |})).
  change (events_by_entity s) with
    (eventsByEntity (fold_left (tallyRecord rowEntityType rowEntityId rowEventType rowCreatedAt)
                       records
                       {| eventsByType := ∅; eventsByEntity := ∅; entityActivity := [];
                          tallyEarliest := isoNow; tallyLatest := epochIso |})).
  rewrite Hty, Hen.
  destruct (bump_fold (fun r => orUnknown (rowEventType r)) records ∅ counters_ok_empty)
    as (Hok1 & Hsum1 & Hlook1).
  destruct (bump_fold (fun r => orUnknown (rowEntityType r)) records ∅ counters_ok_empty)
    as (Hok2 & Hsum2 & Hlook2).
  assert (Hzero : counted (∅ : gmap string Counter) = 0) by reflexivity.
  split; [reflexivity |]. split.
  { intros k Hk. split.
    - apply (Hlook1 k 0 Hk ltac:(lia)). apply lookup_empty.
    - apply (Hlook2 k 0 Hk ltac:(lia)). apply lookup_empty. }
  split.
  { intros k n Hk. split; intros Habs.
    - apply Hok1 in Habs as [Hnot _]. contradiction.
    - apply Hok2 in Habs as [Hnot _]. contradiction. }
  split; [rewrite Hsum1, Hzero; lia |].
  split; [rewrite Hsum2, Hzero; lia |].
  intros Hall. rewrite Hsum1, Hzero, Z.add_0_l.
  change (total_events s) with (Z.of_nat (length records)).
  do 2 f_equal. clear -Hall.
  induction Hall as [|r rs Hr _ IH]; [reflexivity |].
  rewrite filter_cons, decide_True by exact Hr. now rewrite IH.
Qed.

End SummaryCounts.

(** ** String order (the order of [<] on timestamps) *)

Section StringOrder.

Lemma ascii_compare_refl (a : ascii) : Ascii.compare a a = Eq.
Proof. unfold Ascii.compare. apply N.compare_refl. Qed.

Lemma ascii_compare_lt_trans (a b c : ascii) :
  Ascii.compare a b = Lt -> Ascii.compare b c = Lt -> Ascii.compare a c = Lt.
Proof.
  unfold Ascii.compare. rewrite !N.compare_lt_iff. apply N.lt_trans.
Qed.

Lemma string_compare_lt_trans (a b c : string) :
  String.compare a b = Lt -> String.compare b c = Lt -> String.compare a c = Lt.
Proof.
  revert b c. induction a as [|x a IH]; intros [|y b] [|z c]; simpl;
    try discriminate; try reflexivity.
  destruct (Ascii.compare x y) eqn:Hxy; try discriminate;
    destruct (Ascii.compare y z) eqn:Hyz; try discriminate; intros Hab Hbc.
  - apply Ascii.compare_eq_iff in Hxy as ->. apply Ascii.compare_eq_iff in Hyz as ->.
    rewrite ascii_compare_refl. eapply IH; eassumption.
  - apply Ascii.compare_eq_iff in Hxy as ->. now rewrite Hyz.
  - apply Ascii.compare_eq_iff in Hyz as <-. now rewrite Hxy.
  - now rewrite (ascii_compare_lt_trans x y z Hxy Hyz).
Qed.

Lemma ltb_trans (a b c : string) :
  String.ltb a b = true -> String.ltb b c = true -> String.ltb a c = true.
Proof.
  unfold String.ltb.
  destruct (String.compare a b) eqn:Hab; try discriminate.
  destruct (String.compare b c) eqn:Hbc; try discriminate.
  now rewrite (string_compare_lt_trans a b c Hab Hbc).
Qed.

Lemma ltb_irrefl (a : string) : String.ltb a a = false.
Proof.
  unfold String.ltb.
  assert (H : String.compare a a = Eq).
  { induction a as [|x a IH]; [reflexivity |]. simpl. now rewrite ascii_compare_refl. }
  now rewrite H.
Qed.

(** Not below: equal or above. *)
Lemma ltb_false (a b : string) :
  String.ltb a b = false -> a = b \/ String.ltb b a = true.
Proof.
  unfold String.ltb. rewrite (String.compare_antisym b a).
  destruct (String.compare a b) eqn:Hab; simpl; try discriminate; auto.
  left. now apply String.compare_eq_iff.
Qed.

Lemma ltb_asym (a b : string) : String.ltb a b = true -> String.ltb b a = false.
Proof.
  unfold String.ltb. rewrite (String.compare_antisym b a).
  destruct (String.compare a b); simpl; try discriminate; reflexivity.
Qed.

(** [a <= b] and [b <= c] give [a <= c], with [x <= y] read as "not
    [y < x]". *)
Lemma not_ltb_trans (a b c : string) :
  String.ltb b a = false -> String.ltb c b = false -> String.ltb c a = false.
Proof.
  intros Hab Hbc.
  destruct (String.ltb c a) eqn:Hca; [| reflexivity]. exfalso.
  destruct (ltb_false _ _ Hab) as [-> | Hab']; [congruence |].
  destruct (ltb_false _ _ Hbc) as [-> | Hbc']; [congruence |].
  pose proof (ltb_trans _ _ _ Hbc' Hca) as Hba.
  rewrite (ltb_asym _ _ Hab') in Hba. discriminate.
Qed.

Context {Row : Type}.
Variable created : Row -> string.

(** The running minimum of the loop. *)
Lemma earliest_fold (rs : list Row) (e0 : string) :
  let e := fold_left (fun e r => if String.ltb (created r) e then created r else e) rs e0 in
  String.ltb e0 e = false /\
  Forall (fun r => String.ltb (created r) e = false) rs /\
  (e = e0 \/ exists r, In r rs /\ e = created r).
Proof.
  revert e0. induction rs as [|r rs IH]; intros e0; cbv zeta.
  - simpl. split; [apply ltb_irrefl |]. split; [constructor | now left].
  - simpl fold_left.
    set (e1 := if String.ltb (created r) e0 then created r else e0).
    destruct (IH e1) as (Hle & Hall & Hfrom). cbv zeta in *.
    set (e := fold_left _ rs e1) in *.
    assert (H10 : String.ltb e0 e1 = false).
    { unfold e1. destruct (String.ltb (created r) e0) eqn:Hlt;
        [now apply ltb_asym | apply ltb_irrefl]. }
    assert (Hr1 : String.ltb (created r) e1 = false).
    { unfold e1. destruct (String.ltb (created r) e0) eqn:Hlt;
        [apply ltb_irrefl | exact Hlt]. }
    split; [exact (not_ltb_trans e e1 e0 Hle H10) |].
    split; [constructor; [exact (not_ltb_trans e e1 (created r) Hle Hr1) | exact Hall] |].
    destruct Hfrom as [-> | (r' & Hin & ->)].
    + unfold e1. destruct (String.ltb (created r) e0); [right | now left].
      exists r. split; [now left | reflexivity].
    + right. exists r'. split; [now right | reflexivity].
Qed.

(** The running maximum of the loop. *)
Lemma latest_fold (rs : list Row) (l0 : string) :
  let l := fold_left (fun l r => if String.ltb l (created r) then created r else l) rs l0 in
  String.ltb l l0 = false /\
  Forall (fun r => String.ltb l (created r) = false) rs /\
  (l = l0 \/ exists r, In r rs /\ l = created r).
Proof.
  revert l0. induction rs as [|r rs IH]; intros l0; cbv zeta.
  - simpl. split; [apply ltb_irrefl |]. split; [constructor | now left].
  - simpl fold_left.
    set (l1 := if String.ltb l0 (created r) then created r else l0).
    destruct (IH l1) as (Hle & Hall & Hfrom). cbv zeta in *.
    set (l := fold_left _ rs l1) in *.
    assert (H10 : String.ltb l1 l0 = false).
    { unfold l1. destruct (String.ltb l0 (created r)) eqn:Hlt;
        [now apply ltb_asym | apply ltb_irrefl]. }
    assert (Hr1 : String.ltb l1 (created r) = false).
    { unfold l1. destruct (String.ltb l0 (created r)) eqn:Hlt;
        [apply ltb_irrefl | exact Hlt]. }
    split; [exact (not_ltb_trans l0 l1 l H10 Hle) |].
    split; [constructor; [exact (not_ltb_trans (created r) l1 l Hr1 Hle) | exact Hall] |].
    destruct Hfrom as [-> | (r' & Hin & ->)].
    + unfold l1. destruct (String.ltb l0 (created r)); [right | now left].
      exists r. split; [now left | reflexivity].
    + right. exists r'. split; [now right | reflexivity].
Qed.

End StringOrder.

Section SummaryDateRange.
Import AuditQuery.
Context {Row : Type}.
Variable rowEntityType : Row -> option string.
Variable rowEntityId : Row -> option string.
Variable rowEventType : Row -> option string.
Variable rowCreatedAt : Row -> string.

(** X20. Date range of an audit summary, in the order [<] puts on strings.
    [earliest] is the least of the current time and the creation stamps of
    the records, [latest] the greatest of the epoch and those stamps: no
    record lies outside the range, and each bound is one of the values it
    is taken from.  With no record the range is therefore inverted:
    [earliest] is the current time and [latest] the epoch. *)
Theorem summary_date_range (isoNow : string) (records : list Row) :
  let s := summarize rowEntityType rowEntityId rowEventType rowCreatedAt isoNow records in
  Forall (fun r => String.ltb (rowCreatedAt r) (earliest s) = false /\
                   String.ltb (latest s) (rowCreatedAt r) = false) records /\
  String.ltb isoNow (earliest s) = false /\
  String.ltb (latest s) epochIso = false /\
  (earliest s = isoNow \/ exists r, In r records /\ earliest s = rowCreatedAt r) /\
  (latest s = epochIso \/ exists r, In r records /\ latest s = rowCreatedAt r) /\
  (records = [] -> earliest s = isoNow /\ latest s = epochIso).
Proof.
  intros s.
  destruct (tally_components rowEntityType rowEntityId rowEventType rowCreatedAt records
              {| eventsByType := ∅; eventsByEntity := ∅; entityActivity := [];
                 tallyEarliest := isoNow; tallyLatest := epochIso |})
    as (_ & _ & _ & He & Hl).
  cbn [tallyEarliest tallyLatest] in He, Hl.
  change (earliest s) with
    (tallyEarliest
       (fold_left (tallyRecord rowEntityType rowEntityId rowEventType rowCreatedAt) records
          {| eventsByType := ∅; eventsByEntity := ∅; entityActivity := [];
             tallyEarliest := isoNow; tallyLatest := epochIso |})).
  change (latest s) with
    (tallyLatest
       (fold_left (tallyRecord rowEntityType rowEntityId rowEventType rowCreatedAt) records
          {| eventsByType := ∅; eventsByEntity := ∅; entityActivity := [];
             tallyEarliest := isoNow; tallyLatest := epochIso |})).
  rewrite He, Hl.
  destruct (earliest_fold rowCreatedAt records isoNow) as (He0 & Heall & Hefrom).
  destruct (latest_fold rowCreatedAt records epochIso) as (Hl0 & Hlall & Hlfrom).
  cbv zeta in *.
  split.
  { rewrite Forall_forall in *. intros r Hr. split; [now apply Heall | now apply Hlall]. }
  split; [exact He0 |]. split; [exact Hl0 |].
  split; [exact Hefrom |]. split; [exact Hlfrom |].
  intros ->. split; reflexivity.
Qed.

End SummaryDateRange.

(** ** Entity activity *)

Section EntityActivity.
Import AuditQuery.

Lemma bumpEntry_keys (es : list (string * Z)) (k k' : string) :
  In k' (map fst (bumpEntry es k)) <-> k' = k \/ In k' (map fst es).
Proof.
  induction es as [|[k0 n0] es IH]; simpl.
  - intuition.
  - destruct (String.eqb_spec k0 k) as [-> | Hne]; simpl; [intuition |].
    rewrite IH. intuition.
Qed.

Lemma bumpEntry_NoDup (es : list (string * Z)) (k : string) :
  List.NoDup (map fst es) -> List.NoDup (map fst (bumpEntry es k)).
Proof.
  induction es as [|[k0 n0] es IH]; simpl; intros Hnd.
  - constructor; [intros [] | constructor].
  - inversion Hnd as [|? ? Hnotin Hnd']; subst.
    destruct (String.eqb_spec k0 k) as [-> | Hne]; simpl.
    + constructor; assumption.
    + constructor; [| now apply IH].
      rewrite bumpEntry_keys. intros [-> | Hin]; [now apply Hne | contradiction].
Qed.

Lemma in_entries_key (es : list (string * Z)) (k : string) (n : Z) :
  In (k, n) es -> In k (map fst es).
Proof. intros H. apply (in_map fst) in H. exact H. Qed.

Lemma bumpEntry_in (es : list (string * Z)) (k : string) :
  List.NoDup (map fst es) ->
  forall k' n,
    In (k', n) (bumpEntry es k) <->
    (k' <> k /\ In (k', n) es) \/
    (k' = k /\ ((exists n0, In (k, n0) es /\ n = n0 + 1) \/
                ((forall n0, ~ In (k, n0) es) /\ n = 1))).
Proof.
  induction es as [|[k0 n0] es IH]; simpl; intros Hnd k' n.
  - split.
    + intros [[= <- <-] | []]. right. split; [reflexivity |]. right. auto.
    + intros [[_ []] | [-> [(n0 & [] & _) | [_ ->]]]]. now left.
  - inversion Hnd as [|? ? Hnotin Hnd']; subst.
    destruct (String.eqb_spec k0 k) as [-> | Hne]; simpl.
    + split.
      * intros [[= <- <-] | Hin].
        -- right. split; [reflexivity |]. left. exists n0. auto.
        -- left. split; [| auto]. intros ->. apply Hnotin. eapply in_entries_key, Hin.
      * intros [[Hne Hin] | [-> Hcase]].
        -- destruct Hin as [[= -> ->] | Hin]; [contradiction | now right].
        -- destruct Hcase as [(n1 & [[= <-] | Hin] & ->) | [Hnone _]].
           ++ now left.
           ++ exfalso. apply Hnotin. eapply in_entries_key, Hin.
           ++ exfalso. apply (Hnone n0). now left.
    + rewrite (IH Hnd'). split.
      * intros [[= <- <-] | [[Hk Hin] | [-> Hcase]]].
        -- left. split; [exact Hne | now left].
        -- left. split; [exact Hk | now right].
        -- right. split; [reflexivity |].
           destruct Hcase as [(n1 & Hin & ->) | [Hnone ->]].
           ++ left. exists n1. split; [now right | reflexivity].
           ++ right. split; [| reflexivity].
              intros n1 [[= Habs _] | Hin]; [contradiction | exact (Hnone n1 Hin)].
      * intros [[Hk [[= <- <-] | Hin]] | [-> Hcase]].
        -- now left.
        -- right. left. auto.
        -- right. right. split; [reflexivity |].
           destruct Hcase as [(n1 & [[= Habs _] | Hin] & ->) | [Hnone ->]].
           ++ contradiction.
           ++ left. exists n1. auto.
           ++ right. split; [| reflexivity]. intros n1 Hin. apply (Hnone n1). now right.
Qed.

Context {Row : Type}.
Variable key : Row -> string.

Lemma occurrences_app (k : string) (rs1 rs2 : list Row) :
  occurrences key k (rs1 ++ rs2) = occurrences key k rs1 + occurrences key k rs2.
Proof. unfold occurrences. rewrite filter_app, length_app. lia. Qed.

Lemma occurrences_one (k : string) (r : Row) :
  occurrences key k [r] = if decide (key r = k) then 1 else 0.
Proof.
  unfold occurrences. rewrite filter_cons. destruct (decide (key r = k)); reflexivity.
Qed.

Lemma occurrences_positive (k : string) (rs : list Row) :
  1 <= occurrences key k rs -> exists r, In r rs /\ key r = k.
Proof.
  unfold occurrences. intros H.
  destruct (filter (fun r => key r = k) rs) as [|r l] eqn:Hf; [simpl in H; lia |].
  assert (Hin : r ∈ filter (fun r => key r = k) rs) by (rewrite Hf; left).
  apply list_elem_of_filter in Hin as [Hk Hin]. exists r.
  split; [now apply list_elem_of_In | exact Hk].
Qed.

Lemma occurrences_le_length (k : string) (rs : list Row) :
  occurrences key k rs <= Z.of_nat (length rs).
Proof.
  unfold occurrences. pose proof (length_filter (fun r => key r = k) rs). lia.
Qed.

(** The entries built from the records seen so far: one per key, holding
    the number of records with that key. *)
Lemma entries_step (es : list (string * Z)) (seen : list Row) (r : Row) :
  List.NoDup (map fst es) ->
  (forall k n, In (k, n) es <-> n = occurrences key k seen /\ 1 <= n) ->
  forall k n, In (k, n) (bumpEntry es (key r))
              <-> n = occurrences key k (seen ++ [r]) /\ 1 <= n.
Proof.
  intros Hnd Hes k n.
  rewrite (bumpEntry_in es (key r) Hnd), occurrences_app, occurrences_one.
  pose proof (occurrences_nonneg key k seen) as Hocc.
  destruct (decide (key r = k)) as [Heq | Hne].
  - subst k. split.
    + intros [[Habs _] | [_ [(n0 & Hin & ->) | [Hnone ->]]]]; [contradiction | |].
      * apply Hes in Hin as [-> Hge]. lia.
      * destruct (Z_le_gt_dec 1 (occurrences key (key r) seen)) as [Hge | Hlt].
        -- exfalso. apply (Hnone (occurrences key (key r) seen)). apply Hes. auto.
        -- lia.
    + intros [-> _]. right. split; [reflexivity |].
      destruct (Z_le_gt_dec 1 (occurrences key (key r) seen)) as [Hge | Hlt].
      * left. exists (occurrences key (key r) seen). split; [apply Hes; auto | reflexivity].
      * right. split; [| lia]. intros n0 Hin. apply Hes in Hin. lia.
  - rewrite Z.add_0_r. rewrite <- Hes. split.
    + intros [[_ Hin] | [-> _]]; [exact Hin | contradiction].
    + intros Hin. left. split; [congruence | exact Hin].
Qed.

Lemma entries_fold (rs : list Row) (es : list (string * Z)) (seen : list Row) :
  List.NoDup (map fst es) ->
  (forall k n, In (k, n) es <-> n = occurrences key k seen /\ 1 <= n) ->
  let es' := fold_left (fun es r => bumpEntry es (key r)) rs es in
  List.NoDup (map fst es') /\
  (forall k n, In (k, n) es' <-> n = occurrences key k (seen ++ rs) /\ 1 <= n).
Proof.
  revert es seen. induction rs as [|r rs IH]; intros es seen Hnd Hes; cbv zeta.
  - simpl. rewrite app_nil_r. auto.
  - simpl fold_left.
    destruct (IH (bumpEntry es (key r)) (seen ++ [r])
                 (bumpEntry_NoDup es (key r) Hnd) (entries_step es seen r Hnd Hes))
      as [Hnd' Hes'].
    split; [exact Hnd' |]. intros k n. rewrite Hes', <- app_assoc. reflexivity.
Qed.

End EntityActivity.

Section Ranking.
Import AuditQuery.

Lemma insertByCount_perm (e : ActiveEntity) (l : list ActiveEntity) :
  Permutation (insertByCount e l) (e :: l).
Proof.
  induction l as [|first rest IH]; simpl; [reflexivity |].
  destruct (event_count e <=? event_count first); [| reflexivity].
  rewrite IH. apply perm_swap.
Qed.

Lemma insertByCount_sorted (e : ActiveEntity) (l : list ActiveEntity) :
  StronglySorted (fun a b => event_count b <= event_count a) l ->
  StronglySorted (fun a b => event_count b <= event_count a) (insertByCount e l).
Proof.
  induction l as [|first rest IH]; simpl; intros Hs.
  - repeat constructor.
  - apply StronglySorted_inv in Hs as [Hrest Hall].
    destruct (Z.leb_spec (event_count e) (event_count first)) as [Hle | Hgt].
    + constructor; [now apply IH |].
      eapply Permutation_Forall; [symmetry; apply insertByCount_perm |].
      constructor; assumption.
    + constructor; [constructor; assumption |].
      constructor; [lia |].
      eapply Forall_impl; [exact Hall |]. simpl. intros x Hx. lia.
Qed.

Lemma sortByCount_fold (l acc : list ActiveEntity) :
  StronglySorted (fun a b => event_count b <= event_count a) acc ->
  StronglySorted (fun a b => event_count b <= event_count a)
                 (fold_left (fun sorted e => insertByCount e sorted) l acc) /\
  Permutation (fold_left (fun sorted e => insertByCount e sorted) l acc) (acc ++ l).
Proof.
  revert acc. induction l as [|e l IH]; intros acc Hs; simpl.
  - rewrite app_nil_r. auto.
  - destruct (IH (insertByCount e acc) (insertByCount_sorted e acc Hs)) as [Hs' Hp].
    split; [exact Hs' |].
    rewrite Hp, insertByCount_perm. simpl. apply Permutation_middle.
Qed.

Lemma sortByCount_spec (l : list ActiveEntity) :
  StronglySorted (fun a b => event_count b <= event_count a) (sortByCount l) /\
  Permutation (sortByCount l) l.
Proof.
  destruct (sortByCount_fold l [] ltac:(constructor)) as [Hs Hp]. auto.
Qed.

(** *** Splitting keys at colons *)

Lemma colonFree_cons (c : ascii) (s : string) :
  colonFree (String c s) <-> c <> ":"%char /\ colonFree s.
Proof. unfold colonFree. simpl. intuition. Qed.

Lemma splitColon_parts (s : string) :
  splitColon s <> [] /\ Forall colonFree (splitColon s).
Proof.
  induction s as [|c s [Hne Hall]]; simpl.
  - split; [discriminate |]. repeat constructor. intros [].
  - destruct (Ascii.eqb_spec c ":") as [-> | Hc].
    + split; [discriminate |]. constructor; [intros [] | exact Hall].
    + destruct (splitColon s) as [|first others]; [contradiction |].
      split; [discriminate |].
      apply Forall_cons in Hall as [Hfirst Hothers].
      constructor; [| exact Hothers]. apply colonFree_cons. auto.
Qed.

(** Joining two colon-free strings with a colon and splitting again gives
    them back. *)
Lemma splitColon_join (a b : string) :
  colonFree a ->
  splitColon (a +:+ ":" +:+ b)
  = a :: splitColon b.
Proof.
  induction a as [|c a IH]; intros Ha; [reflexivity |].
  apply colonFree_cons in Ha as [Hc Ha].
  change (String c a +:+ ":" +:+ b) with (String c (a +:+ ":" +:+ b)).
  cbn [splitColon].
  destruct (Ascii.eqb_spec c ":") as [-> | _]; [contradiction |].
  now rewrite (IH Ha).
Qed.

Lemma splitColon_colonFree (s : string) : colonFree s -> splitColon s = [s].
Proof.
  induction s as [|c s IH]; intros Hs; [reflexivity |].
  apply colonFree_cons in Hs as [Hc Hs]. simpl.
  destruct (Ascii.eqb_spec c ":") as [-> | _]; [contradiction |].
  now rewrite (IH Hs).
Qed.

(** A key with a colon splits into at least two parts. *)
Lemma splitColon_two (a b : string) :
  exists p0 p1 others, splitColon (a +:+ ":" +:+ b) = p0 :: p1 :: others.
Proof.
  induction a as [|c a (p0 & p1 & others & IH)].
  - destruct (splitColon_parts b) as [Hne _].
    destruct (splitColon b) as [|p1 others] eqn:Hb; [contradiction |].
    exists ""%string, p1, others.
    change (splitColon ("" +:+ ":" +:+ b)) with (""%string :: splitColon b).
    now rewrite Hb.
  - change (String c a +:+ ":" +:+ b) with (String c (a +:+ ":" +:+ b)).
    cbn [splitColon].
    destruct (Ascii.eqb c ":").
    + exists ""%string, p0, (p1 :: others). now rewrite IH.
    + rewrite IH. eauto.
Qed.

End Ranking.

Section MostActive.
Import AuditQuery.
Context {Row : Type}.
Variable rowEntityType : Row -> option string.
Variable rowEntityId : Row -> option string.
Variable rowEventType : Row -> option string.
Variable rowCreatedAt : Row -> string.

(** Where the list of most active entities comes from. *)
Lemma most_active_from_entries (isoNow : string) (records : list Row) :
  let s := summarize rowEntityType rowEntityId rowEventType rowCreatedAt isoNow records in
  let keyOf := entityKey rowEntityType rowEntityId in
  exists entries rest,
    List.NoDup (map fst entries) /\
    (forall k n, In (k, n) entries <-> n = occurrences keyOf k records /\ 1 <= n) /\
    Permutation (most_active_entities s ++ rest) (map activeEntityOf entries) /\
    StronglySorted (fun a b => event_count b <= event_count a)
                   (most_active_entities s ++ rest) /\
    length (most_active_entities s) = Nat.min 10 (length entries).
Proof.
  intros s keyOf.
  destruct (tally_components rowEntityType rowEntityId rowEventType rowCreatedAt records
              {| eventsByType := ∅; eventsByEntity := ∅; entityActivity := [];
                 tallyEarliest := isoNow; tallyLatest := epochIso |})
    as (_ & _ & Hact & _).
  cbn [entityActivity] in Hact.
  set (entries := fold_left (fun es r => bumpEntry es (keyOf r)) records []).
  assert (Htop : most_active_entities s
                 = firstn 10 (sortByCount (map activeEntityOf entries))).
  { unfold s, summarize. cbn [most_active_entities]. rewrite Hact. reflexivity. }
  destruct (entries_fold keyOf records [] [] ltac:(constructor))
    as [Hnd Hes].
  { intros k n. split; [intros [] |]. intros [-> Hge]. unfold occurrences in Hge.
    simpl in Hge. lia. }
  fold entries in Hnd, Hes. simpl in Hes.
  destruct (sortByCount_spec (map activeEntityOf entries)) as [Hsorted Hperm].
  exists entries, (skipn 10 (sortByCount (map activeEntityOf entries))).
  rewrite Htop, firstn_skipn.
  split; [exact Hnd |]. split; [exact Hes |]. split; [exact Hperm |].
  split; [exact Hsorted |].
  rewrite List.length_firstn, (Permutation_length Hperm), length_map. reflexivity.
Qed.

(** X21. The most active entities of a summary are the at most ten
    entities with the most records: there is one candidate per distinct
    "type:id" key of the records, with the number of records of that key as
    its count; the list is the first ten candidates (all of them when there
    are fewer) in non-increasing order of count, so no candidate left out
    has more records than one that is listed. *)
Theorem summary_most_active (isoNow : string) (records : list Row) :
  let s := summarize rowEntityType rowEntityId rowEventType rowCreatedAt isoNow records in
  let keyOf := entityKey rowEntityType rowEntityId in
  (exists entries rest,
     List.NoDup (map fst entries) /\
     (forall k n, In (k, n) entries <-> n = occurrences keyOf k records /\ 1 <= n) /\
     Permutation (most_active_entities s ++ rest) (map activeEntityOf entries) /\
     StronglySorted (fun a b => event_count b <= event_count a)
                    (most_active_entities s ++ rest) /\
     length (most_active_entities s) = Nat.min 10 (length entries)) /\
  (length (most_active_entities s) <= 10)%nat /\
  Forall (fun e => 1 <= event_count e <= total_events s) (most_active_entities s) /\
  (records = [] -> most_active_entities s = []).
Proof.
  intros s keyOf.
  pose proof (most_active_from_entries isoNow records) as Hfrom.
  cbv zeta in Hfrom. fold s keyOf in Hfrom.
  split; [exact Hfrom |].
  destruct Hfrom as (entries & rest & Hnd & Hes & Hperm & Hsorted & Hlen).
  split; [lia |]. split.
  - apply Forall_forall. intros e He. apply list_elem_of_In in He.
    assert (Hin : In e (map activeEntityOf entries)).
    { eapply Permutation_in; [exact Hperm |]. apply in_or_app. now left. }
    apply in_map_iff in Hin as ([k n] & <- & Hkn). simpl.
    apply Hes in Hkn as [-> Hge]. split; [exact Hge |].
    apply occurrences_le_length.
  - intros ->. reflexivity.
Qed.

(** X22. How the summary names an entity.  Every listed entity stands for
    the records sharing the "type:id" key of some record, and is named by
    the first two colon-separated parts of that key, which contain no
    colon; when the record's entity type and id contain no colon these are
    exactly its type and id (a [null] column reading "null"), and
    otherwise the name is cut at the colon. *)
Theorem reported_entity_identity
    (isoNow : string) (records : list Row) (e : ActiveEntity) :
  In e (most_active_entities
          (summarize rowEntityType rowEntityId rowEventType rowCreatedAt isoNow records)) ->
  exists r ty id,
    In r records /\
    event_count e
    = occurrences (entityKey rowEntityType rowEntityId)
                  (entityKey rowEntityType rowEntityId r) records /\
    active_entity_type e = Some ty /\ active_entity_id e = Some id /\
    colonFree ty /\ colonFree id /\
    (colonFree (showColumn (rowEntityType r)) ->
     ty = showColumn (rowEntityType r) /\
     (colonFree (showColumn (rowEntityId r)) -> id = showColumn (rowEntityId r))).
Proof.
  intros He.
  destruct (most_active_from_entries isoNow records)
    as (entries & rest & _ & Hes & Hperm & _).
  cbv zeta in Hes, Hperm.
  assert (Hin : In e (map activeEntityOf entries)).
  { eapply Permutation_in; [exact Hperm |]. apply in_or_app. now left. }
  apply in_map_iff in Hin as ([k n] & <- & Hkn).
  apply Hes in Hkn as [-> Hge].
  destruct (occurrences_positive _ _ _ Hge) as (r & Hr & <-).
  exists r.
  set (a := showColumn (rowEntityType r)). set (b := showColumn (rowEntityId r)).
  unfold activeEntityOf. cbn [fst snd active_entity_type active_entity_id event_count].
  change (entityKey rowEntityType rowEntityId r) with (a +:+ ":" +:+ b).
  destruct (splitColon_two a b) as (p0 & p1 & others & Hsplit).
  destruct (splitColon_parts (a +:+ ":" +:+ b)) as [_ Hfree].
  rewrite Hsplit in Hfree |- *.
  apply Forall_cons in Hfree as [Hp0 Hfree]. apply Forall_cons in Hfree as [Hp1 _].
  exists p0, p1. simpl.
  repeat (split; [first [assumption | reflexivity] |]).
  intros Ha. rewrite (splitColon_join a b Ha) in Hsplit.
  injection Hsplit as <- Hb. split; [reflexivity |].
  intros Hb'. rewrite (splitColon_colonFree b Hb') in Hb. now injection Hb.
Qed.

End MostActive.

(** The sample ledger: three events for task [t1], and an integration
    whose identifier has colons and is reported up to the first one. *)
Lemma reported_entity_identity_witness :
  let e := {| AuditQuery.active_entity_type := Some "integration"%string;
              AuditQuery.active_entity_id := Some "urn"%string;
              AuditQuery.event_count := 1 |} in
  In e (AuditQuery.most_active_entities LedgerSample.summary) /\
  exists r ty id,
    In r LedgerSample.rows /\
    AuditQuery.event_count e =
      occurrences (AuditQuery.entityKey LedgerSample.typeOf LedgerSample.idOf)
        (AuditQuery.entityKey LedgerSample.typeOf LedgerSample.idOf r) LedgerSample.rows /\
    AuditQuery.active_entity_type e = Some ty /\ AuditQuery.active_entity_id e = Some id /\
    colonFree ty /\ colonFree id /\
    (colonFree (AuditQuery.showColumn (LedgerSample.typeOf r)) ->
     ty = AuditQuery.showColumn (LedgerSample.typeOf r) /\
     (colonFree (AuditQuery.showColumn (LedgerSample.idOf r)) ->
      id = AuditQuery.showColumn (LedgerSample.idOf r))).
Proof.
  intros e. split.
  - vm_compute. right. left. reflexivity.
  - apply (reported_entity_identity LedgerSample.typeOf LedgerSample.idOf
             LedgerSample.eventOf AuditTrail.created_at Sample.isoNow LedgerSample.rows e).
    vm_compute. right. left. reflexivity.
Defined.

(** * The audit routes by path *)

Section PathRoutes.
Import AuditQuery AuditPathRoutes.
Context {Row : Type}.
Variable runSelect : list Clause -> QueryResponse Row.

(** X23. [GET /api/audit/entity/[entity_type]/[entity_id]] answers 400
    exactly when a path parameter is empty or the entity type is not one
    of the eight known types, and then without consulting the ledger;
    otherwise it runs exactly one query -- the two equalities on
    [entity_type] and [entity_id], newest first, without paging -- and
    answers 500 with the wrapped message when the query fails, 200 with
    the rows (none when the data is null) and their number otherwise. *)
Theorem entity_route_validates (entity_type entity_id : string) :
  let response := entityGET runSelect entity_type entity_id in
  let asked := runSelect [WhereEq "entity_type" entity_type;
                          WhereEq "entity_id" entity_id;
                          OrderDescending "created_at"] in
  (statusCode response = 400 <->
     entity_type = ""%string \/ entity_id = ""%string \/ entity_type ∉ validEntityTypes) /\
  (statusCode response = 400 ->
     forall other : list Clause -> QueryResponse Row,
       entityGET other entity_type entity_id = response) /\
  (statusCode response <> 400 ->
     match AuditQuery.error asked with
     | Some msg =>
         response = JsonFailure "Failed to retrieve entity audit trail"
                                ("Audit query failed: " +:+ msg)
     | None =>
         response = JsonEntityTrail entity_type entity_id (default [] (data asked))
                                    (Z.of_nat (length (default [] (data asked))))
     end).
Proof.
  intros response asked. subst response asked.
  unfold entityGET, getEntityAuditTrail, queryAuditTrail.
  destruct (String.eqb_spec entity_type "") as [-> | Hty].
  { cbn [orb statusCode]. split; [| split].
    - split; [intros _; left; reflexivity | reflexivity].
    - reflexivity.
    - intros H. contradiction H. reflexivity. }
  destruct (String.eqb_spec entity_id "") as [-> | Hid].
  { cbn [orb statusCode]. split; [| split].
    - split; [intros _; right; left; reflexivity | reflexivity].
    - reflexivity.
    - intros H. contradiction H. reflexivity. }
  cbn [orb]. case_bool_decide as Hvalid; cbn [negb].
  - assert (Hquery :
      buildQuery
        {| AuditRoute.f_entity_type := Some entity_type;
           AuditRoute.f_entity_id := Some entity_id;
           AuditRoute.f_event_type := None; AuditRoute.f_onboarding_id := None;
           AuditRoute.f_customer_id := None; AuditRoute.f_date_from := None;
           AuditRoute.f_date_to := None; AuditRoute.f_source := None;
           AuditRoute.f_limit := None; AuditRoute.f_offset := None |}
      = [WhereEq "entity_type" entity_type; WhereEq "entity_id" entity_id;
         OrderDescending "created_at"]).
    { unfold buildQuery, whenText, whenNumber. cbn [AuditRoute.f_entity_type
        AuditRoute.f_entity_id AuditRoute.f_event_type AuditRoute.f_onboarding_id
        AuditRoute.f_customer_id AuditRoute.f_date_from AuditRoute.f_date_to
        AuditRoute.f_source AuditRoute.f_limit AuditRoute.f_offset].
      destruct (String.eqb_spec entity_type "") as [? | _]; [contradiction |].
      destruct (String.eqb_spec entity_id "") as [? | _]; [contradiction |].
      reflexivity. }
    rewrite Hquery.
    destruct (AuditQuery.error (runSelect _)) as [msg |] eqn:Herr.
    + cbn [statusCode]. split; [| split].
      * split; [discriminate | intros [? | [? | ?]]; contradiction].
      * discriminate.
      * intros _. reflexivity.
    + cbn [statusCode]. split; [| split].
      * split; [discriminate | intros [? | [? | ?]]; contradiction].
      * discriminate.
      * intros _. reflexivity.
  - cbn [statusCode]. split; [| split].
    + split; [intros _; right; right; exact Hvalid | reflexivity].
    + reflexivity.
    + intros H. contradiction H. reflexivity.
Qed.

(** X24. [GET /api/audit/onboarding/[onboarding_id]] answers 400 exactly
    when the path parameter is empty; otherwise it runs exactly one query
    -- the equality on the [onboarding_id] of the metadata, newest first,
    whatever the entity or event type -- and answers 500 with the wrapped
    message when the query fails, 200 with the rows and their number
    otherwise. *)
Theorem onboarding_route_query (onboarding_id : string) :
  let response := onboardingGET runSelect onboarding_id in
  let asked := runSelect [WhereEq "metadata->onboarding_id" onboarding_id;
                          OrderDescending "created_at"] in
  (statusCode response = 400 <-> onboarding_id = ""%string) /\
  (onboarding_id <> ""%string ->
     match AuditQuery.error asked with
     | Some msg =>
         response = JsonFailure "Failed to retrieve onboarding audit trail"
                                ("Audit query failed: " +:+ msg)
     | None =>
         response = JsonOnboardingTrail onboarding_id (default [] (data asked))
                                        (Z.of_nat (length (default [] (data asked))))
     end).
Proof.
  intros response asked. subst response asked.
  unfold onboardingGET, getOnboardingAuditTrail, queryAuditTrail.
  destruct (String.eqb_spec onboarding_id "") as [-> | Hid].
  { cbn [statusCode]. split.
    - split; reflexivity.
    - intros H. contradiction H. reflexivity. }
  assert (Hquery :
    buildQuery
      {| AuditRoute.f_entity_type := None; AuditRoute.f_entity_id := None;
         AuditRoute.f_event_type := None;
         AuditRoute.f_onboarding_id := Some onboarding_id;
         AuditRoute.f_customer_id := None; AuditRoute.f_date_from := None;
         AuditRoute.f_date_to := None; AuditRoute.f_source := None;
         AuditRoute.f_limit := None; AuditRoute.f_offset := None |}
    = [WhereEq "metadata->onboarding_id" onboarding_id; OrderDescending "created_at"]).
  { unfold buildQuery, whenText, whenNumber. cbn [AuditRoute.f_entity_type
      AuditRoute.f_entity_id AuditRoute.f_event_type AuditRoute.f_onboarding_id
      AuditRoute.f_customer_id AuditRoute.f_date_from AuditRoute.f_date_to
      AuditRoute.f_source AuditRoute.f_limit AuditRoute.f_offset].
    destruct (String.eqb_spec onboarding_id "") as [? | _]; [contradiction |].
    reflexivity. }
  rewrite Hquery.
  destruct (AuditQuery.error (runSelect _)) as [msg |] eqn:Herr; cbn [statusCode].
  - split; [split; [discriminate | intros ?; contradiction] | intros _; reflexivity].
  - split; [split; [discriminate | intros ?; contradiction] | intros _; reflexivity].
Qed.

End PathRoutes.

(** * Stakeholder notifications *)

Lemma collectRecipients_exact
    (stakeholders : list Stakeholder) (roles : list string) (a : string) :
  In a (Escalation.collectRecipients stakeholders roles) <->
  exists r s, In r roles /\ findByRole stakeholders r = Some s /\ email s = a.
Proof.
  induction roles as [| r rest IH]; simpl.
  - split; [intros [] | intros (? & ? & [] & _)].
  - destruct (findByRole stakeholders r) as [s |] eqn:Hf; simpl; rewrite ?IH.
    + split.
      * intros [<- | (r' & s' & Hin & Hf' & He)]; [exists r, s; auto | exists r', s'; auto].
      * intros (r' & s' & [<- | Hin] & Hf' & He).
        -- left. rewrite Hf in Hf'. injection Hf' as <-. exact He.
        -- right. exists r', s'. auto.
    + split.
      * intros (r' & s' & Hin & Hf' & He). exists r', s'. auto.
      * intros (r' & s' & [<- | Hin] & Hf' & He).
        -- rewrite Hf in Hf'. discriminate.
        -- exists r', s'. auto.
Qed.

Lemma collectRecipients_nil (stakeholders : list Stakeholder) (roles : list string) :
  Escalation.collectRecipients stakeholders roles = [] <->
  forall r, In r roles -> ~ hasRole stakeholders r.
Proof.
  induction roles as [| r rest IH]; simpl.
  - split; [intros _ ? [] | reflexivity].
  - destruct (findByRole stakeholders r) as [s |] eqn:Hf.
    + split; [discriminate |]. intros H. exfalso. apply (H r); [now left |].
      exists s. now apply findByRole_Some.
    + rewrite IH. apply findByRole_None in Hf. split.
      * intros H r' [<- | Hin]; [exact Hf | now apply H].
      * intros H r' Hin. apply H. now right.
Qed.

Section Notices.
Import Notification.
Context {World : Type}.
Variable webhookUrl : option string.
Variable post : string -> NotificationPayload -> World -> World * FetchOutcome.
Variable dateNow : World -> Z.
Variable generateBlockerNotificationMessage : OnboardingTask -> string -> string.
Variable generateEscalationNotificationMessage :
  OnboardingTask -> Escalation.EscalationResult -> string -> string.
Variable generateBlockerResolutionMessage :
  OnboardingTask -> string -> option string -> string.
Variable blockerMetadata : OnboardingTask -> string -> list (string * Js.JsValue).
Variable escalationMetadata :
  OnboardingTask -> Escalation.EscalationResult -> string -> list (string * Js.JsValue).
Variable resolutionMetadata :
  OnboardingTask -> string -> option string -> list (string * Js.JsValue).

(** Sending hands the payload to the host at most once, succeeds exactly
    when the host takes it, and gives a well-formed result. *)
Lemma sendNotification_outcome (n : NotificationPayload) (w : World) :
  let out := sendNotification webhookUrl post dateNow n w in
  fst out = handed webhookUrl post n w /\
  success (snd out) = accepted webhookUrl post n w /\
  wellFormed (snd out).
Proof.
  unfold sendNotification, handed, accepted, wellFormed.
  destruct webhookUrl as [url |]; [| simpl; repeat split; discriminate].
  destruct (String.eqb url ""); [simpl; repeat split; discriminate |].
  destruct (post url n w) as [w' [status | reason]]; simpl.
  - destruct (ok status); simpl; repeat split; discriminate.
  - repeat split; discriminate.
Qed.

(** X25. The escalation notice.  Its recipients are exactly the
    addresses of the first stakeholder of each role of the verdict that
    some stakeholder holds.  With no such stakeholder the notice is
    refused with an error and nothing is handed to the host; otherwise
    one payload of type [task_escalated] with the verdict's urgency is
    handed over, and the call succeeds exactly when the host takes it
    (no webhook configured, or a 2xx answer).  The result carries an
    identifier or an error, never both. *)
Theorem escalation_notice_outcome
    (task : OnboardingTask) (verdict : Escalation.EscalationResult)
    (stakeholders : list Stakeholder) (customerName : string) (w : World) :
  let to := Escalation.collectRecipients stakeholders (Escalation.escalateTo verdict) in
  let notice :=
    escalationNotice generateEscalationNotificationMessage escalationMetadata
                     task verdict customerName to in
  let out :=
    notifyStakeholdersAboutEscalation webhookUrl post dateNow
      generateEscalationNotificationMessage escalationMetadata
      task verdict stakeholders customerName w in
  (forall a, In a to <->
     exists r s, In r (Escalation.escalateTo verdict) /\
                 findByRole stakeholders r = Some s /\ email s = a) /\
  type notice = task_escalated /\ recipients notice = to /\
  urgency notice = Escalation.urgencyLevel verdict /\
  (to = [] -> out = (w, failed "No valid recipients found for escalation")) /\
  (to <> [] -> fst out = handed webhookUrl post notice w) /\
  (success (snd out) = true <-> to <> [] /\ accepted webhookUrl post notice w = true) /\
  wellFormed (snd out).
Proof.
  intros to notice out.
  split; [intros a; apply collectRecipients_exact |].
  split; [reflexivity |]. split; [reflexivity |]. split; [reflexivity |].
  subst out. unfold notifyStakeholdersAboutEscalation. fold to. fold notice.
  destruct to as [| a rest] eqn:Hto.
  - split; [reflexivity |]. split; [intros H; contradiction H; reflexivity |].
    split; [| simpl; split; [reflexivity | discriminate]].
    simpl. split; [discriminate | intros [H _]; contradiction H; reflexivity].
  - destruct (sendNotification_outcome notice w) as (Hw & Hs & Hwf).
    split; [discriminate |]. split; [intros _; exact Hw |].
    split; [| exact Hwf]. rewrite Hs.
    split; [intros H; split; [discriminate | exact H] | intros [_ H]; exact H].
Qed.

(** X26. An overdue task whose verdict is to escalate, taken through the
    notice.  The rule's chain has a first role.  When a stakeholder holds
    it, the notice is never refused for want of recipients: one payload
    goes to the host, its first recipient is the first such stakeholder's
    address, and the call succeeds exactly when the host takes it.  When
    no stakeholder holds any role the verdict names, the notice is refused
    and nothing reaches the host. *)
Theorem overdue_notice_reaches_first_role
    (startOfDay : Z -> Z) (now : Z) (task : OnboardingTask)
    (stakeholders : list Stakeholder) (customerName : string) (w : World) :
  let verdict := Escalation.shouldEscalateTask startOfDay now task in
  let to := Escalation.collectRecipients stakeholders (Escalation.escalateTo verdict) in
  let notice :=
    escalationNotice generateEscalationNotificationMessage escalationMetadata
                     task verdict customerName to in
  let out :=
    notifyStakeholdersAboutEscalation webhookUrl post dateNow
      generateEscalationNotificationMessage escalationMetadata
      task verdict stakeholders customerName w in
  Escalation.shouldEscalate verdict = true ->
  exists first others,
    Escalation.escalationChain (Escalation.ruleFor (task_type task)) = first :: others /\
    (forall s, findByRole stakeholders first = Some s ->
       head (recipients notice) = Some (email s) /\
       fst out = handed webhookUrl post notice w /\
       success (snd out) = accepted webhookUrl post notice w) /\
    ((forall r, In r (Escalation.escalateTo verdict) -> ~ hasRole stakeholders r) ->
       out = (w, failed "No valid recipients found for escalation")).
Proof.
  intros verdict to notice out Hesc.
  destruct (shouldEscalateTask_true startOfDay now task Hesc)
    as (due & _ & _ & _ & _ & _ & Hto).
  fold verdict in Hto.
  pose proof (ruleFor_shape (task_type task)) as (_ & [Hlen _] & _).
  destruct (Escalation.escalationChain (Escalation.ruleFor (task_type task)))
    as [| first others] eqn:Hchain; [simpl in Hlen; lia |].
  exists first, others. split; [reflexivity |].
  assert (Hlevel : 0 <= Escalation.escalationLevel (Escalation.ruleFor (task_type task))
                          (Escalation.computeDaysOverdue startOfDay now due)).
  { apply escalationLevel_bounds. rewrite Hchain. simpl. lia. }
  assert (Hhead : exists more, Escalation.escalateTo verdict = first :: more).
  { rewrite Hto. unfold Js.slice0.
    destruct (Z.ltb_spec
                (Escalation.escalationLevel (Escalation.ruleFor (task_type task))
                   (Escalation.computeDaysOverdue startOfDay now due) + 1) 0);
      [lia |].
    destruct (Z.to_nat _) as [| k] eqn:Hk; [lia |].
    simpl. eexists. reflexivity. }
  destruct Hhead as [more Hmore].
  split.
  - intros s Hs.
    assert (Hrec : to = email s :: Escalation.collectRecipients stakeholders more).
    { subst to. rewrite Hmore. simpl. rewrite Hs. reflexivity. }
    subst out. unfold notifyStakeholdersAboutEscalation. fold to. fold notice.
    destruct (sendNotification_outcome notice w) as (Hw & Hsucc & _).
    split; [simpl; rewrite Hrec; reflexivity |].
    destruct to as [| a rest]; [discriminate |].
    split; [exact Hw | exact Hsucc].
  - intros Hnone. apply collectRecipients_nil in Hnone.
    subst out. unfold notifyStakeholdersAboutEscalation. fold to.
    replace to with (@nil string). reflexivity.
Qed.

(** X27. The blocker notice, after [getBlockerEscalationRecipients].
    Whatever the recipients -- an empty list included -- one payload of
    type [blocker_created] goes to the host and the call succeeds exactly
    when the host takes it.  Its urgency is [critical] for a critical
    priority and [high] otherwise: it is below the urgency computed with
    the recipients exactly for a task type with a critical word
    (security, sis) at a lower priority, and above it exactly for a
    priority of low or medium with no critical or high word in the type. *)
Theorem blocker_notice_outcome
    (task : OnboardingTask) (stakeholders : list Stakeholder)
    (customerName : string) (w : World) (found : Escalation.BlockerEscalation) :
  let to := Escalation.blockerEscalateTo found in
  let notice :=
    blockerNotice generateBlockerNotificationMessage blockerMetadata
                  task customerName to in
  let out :=
    notifyStakeholdersAboutBlocker webhookUrl post dateNow
      generateBlockerNotificationMessage blockerMetadata
      task stakeholders customerName to w in
  Escalation.getBlockerEscalationRecipients task stakeholders = Some found ->
  type notice = blocker_created /\ recipients notice = to /\
  fst out = handed webhookUrl post notice w /\
  success (snd out) = accepted webhookUrl post notice w /\
  wellFormed (snd out) /\
  (urgency notice = critical <-> priority task = critical) /\
  (urgency notice <> critical -> urgency notice = high) /\
  (levelRank (urgency notice) < levelRank (Escalation.blockerUrgencyLevel found) <->
     priority task <> critical /\ criticalWord (task_type task) = true) /\
  (levelRank (Escalation.blockerUrgencyLevel found) < levelRank (urgency notice) <->
     (priority task = low \/ priority task = medium) /\
     criticalWord (task_type task) = false /\ highWord (task_type task) = false).
Proof.
  intros to notice out Hfound.
  assert (Hurg : Escalation.blockerUrgencyLevel found = Escalation.blockerUrgency task).
  { unfold Escalation.getBlockerEscalationRecipients in Hfound.
    destruct (Js.lookupLiteral _ _); try discriminate;
      injection Hfound as <-; reflexivity. }
  destruct (sendNotification_outcome notice w) as (Hw & Hs & Hwf).
  split; [reflexivity |]. split; [reflexivity |].
  split; [exact Hw |]. split; [exact Hs |]. split; [exact Hwf |].
  rewrite Hurg. unfold Escalation.blockerUrgency, criticalWord, highWord.
  subst notice. cbn [urgency blockerNotice].
  destruct (priority task); repeat case_bool_decide; try congruence;
    destruct (Js.includes (task_type task) "security");
    destruct (Js.includes (task_type task) "sis");
    destruct (Js.includes (task_type task) "setup");
    destruct (Js.includes (task_type task) "go_live");
    cbn [orb levelRank];
    (split; [split; congruence |]);
    (split; [congruence |]);
    (split; (split; [intros ?; try lia; repeat split; try congruence; auto
                    | intros Hyp; try lia; exfalso;
                      repeat match goal with
                             | K : _ /\ _ |- _ => destruct K
                             | K : _ \/ _ |- _ => destruct K
                             end; congruence])).
Qed.

(** X28. The notice of a resolved blocker.  Its recipients are the
    assignee (when set and not empty) followed by the address of the first
    project manager unless that is the assignee: at most two entries,
    without repetition.  With neither, the notice is refused with an error
    and nothing is handed to the host; otherwise one payload of type
    [blocker_resolved] and urgency [medium] is handed over and the call
    succeeds exactly when the host takes it. *)
Theorem resolution_notice_outcome
    (task : OnboardingTask) (stakeholders : list Stakeholder) (customerName : string)
    (resolutionNotes : option string) (w : World) :
  let to := resolutionRecipients task stakeholders in
  let notice :=
    resolutionNotice generateBlockerResolutionMessage resolutionMetadata
                     task customerName resolutionNotes to in
  let out :=
    notifyBlockerResolution webhookUrl post dateNow
      generateBlockerResolutionMessage resolutionMetadata
      task stakeholders customerName resolutionNotes w in
  (length to <= 2)%nat /\ List.NoDup to /\
  (forall a, In a to <->
     (assigned_to task = Some a /\ a <> ""%string) \/
     (exists s, findByRole stakeholders "project_manager" = Some s /\ email s = a)) /\
  (forall a, assigned_to task = Some a -> a <> ""%string -> head to = Some a) /\
  (to = [] ->
     out = (w, failed "No valid recipients found for blocker resolution notification")) /\
  (to <> [] ->
     fst out = handed webhookUrl post notice w /\
     success (snd out) = accepted webhookUrl post notice w /\
     type notice = blocker_resolved /\ urgency notice = medium /\
     recipients notice = to) /\
  wellFormed (snd out).
Proof.
  intros to notice out.
  assert (Hshape :
    (length to <= 2)%nat /\ List.NoDup to /\
    (forall a, In a to <->
       (assigned_to task = Some a /\ a <> ""%string) \/
       (exists s, findByRole stakeholders "project_manager" = Some s /\ email s = a)) /\
    (forall a, assigned_to task = Some a -> a <> ""%string -> head to = Some a)).
  { subst to. unfold resolutionRecipients.
    destruct (assigned_to task) as [a |] eqn:Ha.
    - destruct (String.eqb_spec a "") as [-> | Hne].
      + destruct (findByRole stakeholders "project_manager") as [pm |] eqn:Hpm.
        * case_bool_decide as Hin; [inversion Hin |]. simpl.
          split; [lia |]. split; [repeat constructor; intros [] |].
          split; [| intros a' [= <-] Hne; contradiction Hne; reflexivity].
          intros a'. split.
          -- intros [<- | []]. right. exists pm. auto.
          -- intros [[[= <-] Hne] | (s & [= <-] & <-)];
               [contradiction Hne; reflexivity | now left].
        * simpl. split; [lia |]. split; [constructor |].
          split; [| intros a' [= <-] Hne; contradiction Hne; reflexivity].
          intros a'. split; [intros [] |].
          intros [[[= <-] Hne] | (s & [=] & _)]. contradiction Hne; reflexivity.
      + destruct (findByRole stakeholders "project_manager") as [pm |] eqn:Hpm.
        * case_bool_decide as Hin.
          -- apply list_elem_of_In in Hin. destruct Hin as [Heq | []].
             simpl. split; [lia |]. split; [repeat constructor; intros [] |].
             split; [| intros a' [= <-] _; reflexivity].
             intros a'. split.
             ++ intros [<- | []]. left. auto.
             ++ intros [[[= <-] _] | (s & [= <-] & <-)]; left; auto.
          -- assert (Hdiff : a <> email pm).
             { intros E. apply Hin. rewrite E. apply list_elem_of_In. now left. }
             simpl. split; [lia |].
             split; [repeat constructor; [intros [E | []]; congruence | intros []] |].
             split; [| intros a' [= <-] _; reflexivity].
             intros a'. split.
             ++ intros [<- | [<- | []]]; [left; auto | right; exists pm; auto].
             ++ intros [[[= <-] _] | (s & [= <-] & <-)]; [left | right; left]; auto.
        * simpl. split; [lia |]. split; [repeat constructor; intros [] |].
          split; [| intros a' [= <-] _; reflexivity].
          intros a'. split.
          -- intros [<- | []]. left. auto.
          -- intros [[[= <-] _] | (s & [=] & _)]. now left.
    - destruct (findByRole stakeholders "project_manager") as [pm |] eqn:Hpm.
      + case_bool_decide as Hin; [inversion Hin |]. simpl.
        split; [lia |]. split; [repeat constructor; intros [] |].
        split; [| intros a' [=]].
        intros a'. split.
        * intros [<- | []]. right. exists pm. auto.
        * intros [[[=] _] | (s & [= <-] & <-)]. now left.
      + simpl. split; [lia |]. split; [constructor |].
        split; [| intros a' [=]].
        intros a'. split; [intros [] |]. intros [[[=] _] | (s & [=] & _)]. }
  destruct Hshape as (Hlen & Hnd & Hin & Hhead).
  split; [exact Hlen |]. split; [exact Hnd |]. split; [exact Hin |].
  split; [exact Hhead |].
  subst out. unfold notifyBlockerResolution. fold to. fold notice.
  destruct (sendNotification_outcome notice w) as (Hw & Hs & Hwf).
  destruct to as [| a rest] eqn:Hto.
  - split; [reflexivity |]. split; [intros H; contradiction H; reflexivity |].
    simpl. split; [reflexivity | discriminate].
  - split; [discriminate |]. split; [| exact Hwf].
    intros _. repeat split; assumption.
Qed.

End Notices.

(** A kickoff meeting three days late, with only a project manager on
    the onboarding: the notice goes to the project manager. *)
Lemma overdue_notice_reaches_first_role_witness :
  let task := Sample.task "kickoff_meeting" "owner" pending (Sample.daysAgo 3) in
  let stakeholders := [Sample.manager] in
  let message := fun (_ : OnboardingTask) (_ : Escalation.EscalationResult)
                     (_ : string) => ""%string in
  let details := fun (_ : OnboardingTask) (_ : Escalation.EscalationResult)
                     (_ : string) => @nil (string * Js.JsValue) in
  let verdict := Escalation.shouldEscalateTask Escalation.utcStartOfDay Sample.now task in
  let to := Escalation.collectRecipients stakeholders (Escalation.escalateTo verdict) in
  let notice := Notification.escalationNotice message details task verdict "Acme" to in
  let out :=
    Notification.notifyStakeholdersAboutEscalation NoticeSample.webhookUrl
      NoticeSample.post NoticeSample.dateNow message details
      task verdict stakeholders "Acme" [] in
  Escalation.shouldEscalate verdict = true /\
  exists first others,
    Escalation.escalationChain (Escalation.ruleFor (task_type task)) = first :: others /\
    (forall s, findByRole stakeholders first = Some s ->
       head (Notification.recipients notice) = Some (email s) /\
       fst out = Notification.handed NoticeSample.webhookUrl NoticeSample.post notice [] /\
       Notification.success (snd out)
       = Notification.accepted NoticeSample.webhookUrl NoticeSample.post notice []) /\
    ((forall r, In r (Escalation.escalateTo verdict) -> ~ hasRole stakeholders r) ->
       out = ([], Notification.failed "No valid recipients found for escalation")).
Proof.
  intros task stakeholders message details verdict to notice out.
  split; [reflexivity |].
  apply (overdue_notice_reaches_first_role NoticeSample.webhookUrl NoticeSample.post
           NoticeSample.dateNow message details Escalation.utcStartOfDay Sample.now
           task stakeholders "Acme" []).
  reflexivity.
Defined.

(** A blocked SIS task of medium priority: the recipients come with
    urgency critical, the notice goes out as high. *)
Lemma blocker_notice_outcome_witness :
  let task := NoticeSample.blockedTask in
  let stakeholders := [Sample.lead; Sample.manager] in
  let found := {| Escalation.blockerEscalateTo := ["lee@example.edu"; "pat@example.edu"]%string;
                  Escalation.blockerUrgencyLevel := critical |} in
  let to := Escalation.blockerEscalateTo found in
  let notice :=
    Notification.blockerNotice NoticeSample.noMessage NoticeSample.noMetadata
                               task "Acme" to in
  let out :=
    Notification.notifyStakeholdersAboutBlocker NoticeSample.webhookUrl
      NoticeSample.post NoticeSample.dateNow NoticeSample.noMessage NoticeSample.noMetadata
      task stakeholders "Acme" to [] in
  Escalation.getBlockerEscalationRecipients task stakeholders = Some found /\
  (Notification.type notice = Notification.blocker_created /\
   Notification.recipients notice = to /\
   fst out = Notification.handed NoticeSample.webhookUrl NoticeSample.post notice [] /\
   Notification.success (snd out)
   = Notification.accepted NoticeSample.webhookUrl NoticeSample.post notice [] /\
   wellFormed (snd out) /\
   (Notification.urgency notice = critical <-> priority task = critical) /\
   (Notification.urgency notice <> critical -> Notification.urgency notice = high) /\
   (levelRank (Notification.urgency notice) < levelRank (Escalation.blockerUrgencyLevel found) <->
      priority task <> critical /\ criticalWord (task_type task) = true) /\
   (levelRank (Escalation.blockerUrgencyLevel found) < levelRank (Notification.urgency notice) <->
      (priority task = low \/ priority task = medium) /\
      criticalWord (task_type task) = false /\ highWord (task_type task) = false)).
Proof.
  intros task stakeholders found to notice out.
  split; [reflexivity |].
  apply (blocker_notice_outcome NoticeSample.webhookUrl NoticeSample.post
           NoticeSample.dateNow NoticeSample.noMessage NoticeSample.noMetadata
           task stakeholders "Acme" [] found).
  reflexivity.
Defined.

(** * The escalation route *)

Lemma tally_app (kind : EscalationRoute.Event -> bool) (l1 l2 : list EscalationRoute.Event) :
  tally kind (l1 ++ l2) = tally kind l1 + tally kind l2.
Proof.
  unfold tally. rewrite List.filter_app, List.length_app. lia.
Qed.

Lemma tally_nonneg (kind : EscalationRoute.Event -> bool) (l : list EscalationRoute.Event) :
  0 <= tally kind l.
Proof. unfold tally. lia. Qed.

Lemma overdueRecord_row (env : AuditTrail.Env) (iso onboardingId customerName : string)
    (task : OnboardingTask) (verdict : Escalation.EscalationResult) :
  routeEvent (EscalationRoute.Inserted
    [AuditTrail.enhanceRecord env iso
       (EscalationRoute.overdueRecord onboardingId customerName task verdict)]).
Proof.
  eexists. split; [reflexivity |]. split; [reflexivity |]. split; [reflexivity |].
  cbn [AuditTrail.enhanceRecord AuditTrail.row_metadata].
  rewrite !enhanceMetadata_kept by discriminate.
  split; reflexivity.
Qed.

Lemma blockerRecord_row (env : AuditTrail.Env) (iso onboardingId customerName : string)
    (task : OnboardingTask) :
  routeEvent (EscalationRoute.Inserted
    [AuditTrail.enhanceRecord env iso
       (EscalationRoute.blockerRecord onboardingId customerName task)]).
Proof.
  eexists. split; [reflexivity |]. split; [reflexivity |]. split; [reflexivity |].
  cbn [AuditTrail.enhanceRecord AuditTrail.row_metadata].
  rewrite !enhanceMetadata_kept by discriminate.
  split; reflexivity.
Qed.

Section EscalationRun.
Import EscalationRoute.
Context {World DbError : Type}.
Variable DEMO_MODE : bool.
Variable showDbError : DbError -> string.
Variable notIterable : string.
Variable selectTasks : string -> World -> World * (DbError + list OnboardingTask).
Variable selectStakeholders : string -> World -> World * (DbError + list Stakeholder).
Variable selectOnboarding : string -> World -> World * (DbError + option string).
Variable selectRecent : list Call -> World -> World * (DbError + list string).
Variable insertSelect :
  list AuditTrail.AuditRow -> World -> World * (string + list AuditTrail.EventsAudit).
Variable env : AuditTrail.Env.
Variable dateNow : World -> Z.
Variable toISOString : Z -> string.
Variable startOfDay : Z -> Z.
Variable webhookUrl : option string.
Variable post :
  string -> Notification.NotificationPayload -> World -> World * Notification.FetchOutcome.
Variable generateBlockerNotificationMessage : OnboardingTask -> string -> string.
Variable generateEscalationNotificationMessage :
  OnboardingTask -> Escalation.EscalationResult -> string -> string.
Variable blockerMetadata : OnboardingTask -> string -> list (string * Js.JsValue).
Variable escalationMetadata :
  OnboardingTask -> Escalation.EscalationResult -> string -> list (string * Js.JsValue).

Local Notation "'nowR'" := (fun wl : World * list Event => dateNow (fst wl)).
Local Notation "'postR'" := (fun url : string => recording Posted (post url)).
Local Notation "'askR'" := (recording Asked selectRecent).
Local Notation "'insertR'" := (recording Inserted insertSelect).

(** Sending on the recording host: the same result, and the payload in
    the log when it was posted. *)
Lemma sendNotification_recorded
    (n : Notification.NotificationPayload) (wl : World * list Event) :
  exists new,
    Notification.sendNotification webhookUrl postR nowR n wl
    = ((fst (Notification.sendNotification webhookUrl post dateNow n (fst wl)),
        snd wl ++ new),
       snd (Notification.sendNotification webhookUrl post dateNow n (fst wl))) /\
    (new = [] \/ new = [Posted n]).
Proof.
  unfold Notification.sendNotification, recording.
  destruct wl as [w log]. cbn [fst snd].
  destruct webhookUrl as [url |].
  - destruct (String.eqb url "").
    + exists []. rewrite app_nil_r. auto.
    + destruct (post url n w) as [w' [status | reason]].
      * destruct (Notification.ok status); exists [Posted n]; auto.
      * exists [Posted n]. auto.
  - exists []. rewrite app_nil_r. auto.
Qed.

(** Writing the audit record on the recording ledger: the same result,
    and the one enhanced row in the log. *)
Lemma writeAudit_recorded
    (record : AuditTrail.CreateAuditRecord) (wl : World * list Event) :
  writeAudit insertR env nowR toISOString record wl
  = ((fst (writeAudit insertSelect env dateNow toISOString record (fst wl)),
      snd wl ++ [Inserted [AuditTrail.enhanceRecord env (toISOString (dateNow (fst wl)))
                             record]]),
     snd (writeAudit insertSelect env dateNow toISOString record (fst wl))).
Proof.
  unfold writeAudit, AuditTrail.createAuditRecord, recording.
  destruct wl as [w log]. cbn [fst snd].
  destruct (insertSelect _ w) as [w' [msg | rows]]; [reflexivity |].
  destruct (AuditTrail.single rows); reflexivity.
Qed.

Lemma escalateOverdue_advanced
    (onboardingId customerName : string) (stakeholders : list Stakeholder)
    (wl : World * list Event) (t : Z) (e : list string)
    (item : OnboardingTask * Escalation.EscalationResult) :
  advanced 1 0 1 (wl, t, e)
    (escalateOverdue insertR env nowR toISOString webhookUrl postR
       generateEscalationNotificationMessage escalationMetadata
       onboardingId customerName stakeholders (wl, t, e) item)
    (escalateOverdue insertSelect env dateNow toISOString webhookUrl post
       generateEscalationNotificationMessage escalationMetadata
       onboardingId customerName stakeholders (fst wl, t, e) item).
Proof.
  destruct item as [task verdict].
  unfold escalateOverdue, Notification.notifyStakeholdersAboutEscalation.
  destruct (Escalation.collectRecipients stakeholders (Escalation.escalateTo verdict))
    as [| a rest].
  - cbn [Notification.success Notification.failed Notification.error default].
    exists []. rewrite app_nil_r, List.length_app. unfold tally; cbn.
    repeat split; try reflexivity; try constructor; try lia.
  - set (notice := Notification.escalationNotice _ _ task verdict customerName (a :: rest)).
    destruct (sendNotification_recorded notice wl) as (new & -> & Hnew).
    destruct (Notification.sendNotification webhookUrl post dateNow notice (fst wl))
      as [w1 r].
    cbn [fst snd].
    assert (Hposted : Forall routeEvent new /\ tally isInserted new = 0 /\
                      tally isPosted new <= 1 /\ tally isAsked new = 0).
    { destruct Hnew as [-> | ->]; unfold tally; cbn; repeat split; try constructor; try lia.
      - left. reflexivity.
      - constructor. }
    destruct Hposted as (Hall & Hins & Hpost & Hask).
    destruct (Notification.success r).
    + rewrite writeAudit_recorded. cbn [fst snd].
      destruct (writeAudit insertSelect env dateNow toISOString _ w1) as [w2 [msg | stored]].
      * eexists. split; [rewrite <- app_assoc; reflexivity |].
        split; [reflexivity |].
        split; [apply Forall_app; split; [exact Hall |];
                constructor; [apply overdueRecord_row | constructor] |].
        rewrite !tally_app, Hins, Hask, List.length_app. unfold tally in *; cbn in *.
        repeat split; lia.
      * eexists. split; [rewrite <- app_assoc; reflexivity |].
        split; [reflexivity |].
        split; [apply Forall_app; split; [exact Hall |];
                constructor; [apply overdueRecord_row | constructor] |].
        rewrite !tally_app, Hins, Hask. unfold tally in *; cbn in *.
        repeat split; lia.
    + exists new. split; [reflexivity |]. split; [reflexivity |].
      split; [exact Hall |]. rewrite Hins, Hask, List.length_app. unfold tally in *; cbn in *.
      repeat split; lia.
Qed.

Lemma escalateBlocker_advanced
    (onboardingId customerName : string) (stakeholders : list Stakeholder)
    (wl : World * list Event) (t : Z) (e : list string) (task : OnboardingTask) :
  advanced 1 1 0 (wl, t, e)
    (escalateBlocker showDbError notIterable askR insertR env nowR toISOString
       webhookUrl postR generateBlockerNotificationMessage blockerMetadata
       onboardingId customerName stakeholders (wl, t, e) task)
    (escalateBlocker showDbError notIterable selectRecent insertSelect env dateNow
       toISOString webhookUrl post generateBlockerNotificationMessage blockerMetadata
       onboardingId customerName stakeholders (fst wl, t, e) task).
Proof.
  unfold escalateBlocker, Notification.notifyStakeholdersAboutBlocker.
  unfold recording at 1. cbn [fst snd].
  set (query := recentQuery task _).
  assert (Hquery : routeEvent (Asked query)) by (eexists _, _; reflexivity).
  destruct (selectRecent query (fst wl)) as [w1 [err | recent]].
  - exists [Asked query]. rewrite List.length_app. unfold tally; cbn.
    repeat split; try reflexivity; try lia. constructor; [exact Hquery | constructor].
  - destruct recent as [| stamp more].
    + destruct (Escalation.getBlockerEscalationRecipients task stakeholders)
        as [found |].
      * set (notice := Notification.blockerNotice _ _ task customerName _).
        destruct (sendNotification_recorded notice (w1, snd wl ++ [Asked query]))
          as (new & -> & Hnew).
        cbn [fst snd].
        destruct (Notification.sendNotification webhookUrl post dateNow notice w1)
          as [w2 r].
        cbn [fst snd].
        assert (Hposted : Forall routeEvent new /\ tally isInserted new = 0 /\
                          tally isPosted new <= 1 /\ tally isAsked new = 0).
        { destruct Hnew as [-> | ->]; unfold tally; cbn; repeat split; try constructor; try lia.
          - right. reflexivity.
          - constructor. }
        destruct Hposted as (Hall & Hins & Hpost & Hask).
        destruct (Notification.success r).
        -- rewrite writeAudit_recorded. cbn [fst snd].
           destruct (writeAudit insertSelect env dateNow toISOString _ w2)
             as [w3 [msg | stored]].
           ++ eexists. split; [rewrite <- !app_assoc; reflexivity |].
              split; [reflexivity |].
              split; [constructor; [exact Hquery |]; apply Forall_app; split;
                      [exact Hall |];
                      constructor; [apply blockerRecord_row | constructor] |].
              change (Asked query :: new ++ ?l) with ([Asked query] ++ new ++ l).
              rewrite !tally_app, Hins, Hask, List.length_app. unfold tally in *; cbn in *.
              repeat split; lia.
           ++ eexists. split; [rewrite <- !app_assoc; reflexivity |].
              split; [reflexivity |].
              split; [constructor; [exact Hquery |]; apply Forall_app; split;
                      [exact Hall |];
                      constructor; [apply blockerRecord_row | constructor] |].
              change (Asked query :: new ++ ?l) with ([Asked query] ++ new ++ l).
              rewrite !tally_app, Hins, Hask. unfold tally in *; cbn in *.
              repeat split; lia.
        -- eexists. split; [rewrite <- !app_assoc; reflexivity |].
           split; [reflexivity |].
           split; [constructor; [exact Hquery | exact Hall] |].
           change (Asked query :: new) with ([Asked query] ++ new).
           rewrite !tally_app, Hins, Hask, List.length_app. unfold tally in *; cbn in *.
           repeat split; lia.
      * exists [Asked query]. rewrite List.length_app. unfold tally; cbn.
        repeat split; try reflexivity; try lia.
        constructor; [exact Hquery | constructor].
    + exists [Asked query]. unfold tally; cbn.
      repeat split; try reflexivity; try lia.
      constructor; [exact Hquery | constructor].
Qed.

Lemma fold_advanced {A : Type}
    (stepR : (World * list Event) * Z * list string -> A
             -> (World * list Event) * Z * list string)
    (stepP : World * Z * list string -> A -> World * Z * list string)
    (asked lo : Z) :
  (forall wl t e a, advanced 1 asked lo (wl, t, e) (stepR (wl, t, e) a)
                             (stepP (fst wl, t, e) a)) ->
  forall items wl t e,
    advanced (Z.of_nat (length items)) (asked * Z.of_nat (length items))
             (lo * Z.of_nat (length items))
             (wl, t, e) (fold_left stepR items (wl, t, e))
             (fold_left stepP items (fst wl, t, e)).
Proof.
  intros Hstep items. induction items as [| a rest IH]; intros wl t e.
  - exists []. cbn [fold_left length]. rewrite app_nil_r. unfold tally. cbn.
    repeat split; try constructor; lia.
  - cbn [fold_left]. specialize (Hstep wl t e a).
    destruct (stepR (wl, t, e) a) as [[wl1 t1] e1].
    destruct Hstep as (new1 & Hlog1 & Hplain1 & Hall1 & Hins1 & Hpost1 & Hask1
                       & Hsum1 & Hcount1 & Herr1).
    rewrite Hplain1. specialize (IH wl1 t1 e1).
    destruct (fold_left stepR rest (wl1, t1, e1)) as [[wl2 t2] e2].
    destruct IH as (new2 & Hlog2 & Hplain2 & Hall2 & Hins2 & Hpost2 & Hask2
                    & Hsum2 & Hcount2 & Herr2).
    exists (new1 ++ new2).
    split; [rewrite Hlog2, Hlog1, app_assoc; reflexivity |].
    split; [exact Hplain2 |].
    split; [apply Forall_app; split; assumption |].
    rewrite !tally_app. cbn [length]. rewrite Nat2Z.inj_succ.
    repeat split; lia.
Qed.

(** The two loops, one after the other. *)
Lemma loops_advanced
    (onboardingId customerName : string) (stakeholders : list Stakeholder)
    (items : list (OnboardingTask * Escalation.EscalationResult))
    (blockedTasks : list OnboardingTask) (wl : World * list Event) :
  let overdue := Z.of_nat (length items) in
  let blockers := Z.of_nat (length blockedTasks) in
  exists w' new t' e',
    fold_left
      (escalateBlocker showDbError notIterable askR insertR env nowR toISOString
         webhookUrl postR generateBlockerNotificationMessage blockerMetadata
         onboardingId customerName stakeholders)
      blockedTasks
      (fold_left
         (escalateOverdue insertR env nowR toISOString webhookUrl postR
            generateEscalationNotificationMessage escalationMetadata
            onboardingId customerName stakeholders)
         items (wl, 0, []))
    = ((w', snd wl ++ new), t', e') /\
    fold_left
      (escalateBlocker showDbError notIterable selectRecent insertSelect env dateNow
         toISOString webhookUrl post generateBlockerNotificationMessage blockerMetadata
         onboardingId customerName stakeholders)
      blockedTasks
      (fold_left
         (escalateOverdue insertSelect env dateNow toISOString webhookUrl post
            generateEscalationNotificationMessage escalationMetadata
            onboardingId customerName stakeholders)
         items (fst wl, 0, []))
    = (w', t', e') /\
    Forall routeEvent new /\
    tally isAsked new = blockers /\
    tally isPosted new <= overdue + blockers /\
    tally isInserted new <= overdue + blockers /\
    0 <= t' <= tally isInserted new /\
    overdue <= t' + Z.of_nat (length e') <= overdue + blockers.
Proof.
  intros overdue blockers. unfold Progress.
  pose proof (fold_advanced _ _ 0 1
                (escalateOverdue_advanced onboardingId customerName stakeholders)
                items wl 0 []) as H1.
  destruct (fold_left _ items (wl, 0, [])) as [[wl1 t1] e1].
  destruct H1 as (new1 & Hlog1 & Hplain1 & Hall1 & Hins1 & Hpost1 & Hask1
                  & Hsum1 & Hcount1 & Herr1).
  rewrite Hplain1.
  pose proof (fold_advanced _ _ 1 0
                (escalateBlocker_advanced onboardingId customerName stakeholders)
                blockedTasks wl1 t1 e1) as H2.
  destruct (fold_left _ blockedTasks (wl1, t1, e1)) as [[wl2 t2] e2].
  destruct H2 as (new2 & Hlog2 & Hplain2 & Hall2 & Hins2 & Hpost2 & Hask2
                  & Hsum2 & Hcount2 & Herr2).
  exists (fst wl2), (new1 ++ new2), t2, e2.
  split; [destruct wl2 as [w2 log2]; cbn [fst snd] in *;
          rewrite Hlog2, Hlog1, app_assoc; reflexivity |].
  split; [exact Hplain2 |].
  split; [apply Forall_app; split; assumption |].
  rewrite !tally_app. cbn [length] in *. subst overdue blockers.
  repeat split; lia.
Qed.

Local Notation "'observed'" :=
  (observedRun DEMO_MODE showDbError notIterable selectTasks selectStakeholders
     selectOnboarding selectRecent insertSelect env dateNow toISOString startOfDay
     webhookUrl post generateBlockerNotificationMessage
     generateEscalationNotificationMessage blockerMetadata escalationMetadata).
Local Notation "'plain'" :=
  (plainRun DEMO_MODE showDbError notIterable selectTasks selectStakeholders
     selectOnboarding selectRecent insertSelect env dateNow toISOString startOfDay
     webhookUrl post generateBlockerNotificationMessage
     generateEscalationNotificationMessage blockerMetadata escalationMetadata).

(** Everything a run records is a route event. *)
Lemma observedRun_events (onboardingId : string) (w : World) :
  Forall routeEvent (snd (fst (observed onboardingId w))).
Proof.
  unfold observedRun, processOnboardingEscalations, silent. cbn [fst snd].
  destruct DEMO_MODE; [constructor |].
  destruct (selectTasks onboardingId w) as [w1 [failure | tasks]]; [constructor |].
  cbn [fst snd].
  destruct (selectStakeholders onboardingId w1) as [w2 [failure | stakeholders]];
    [constructor |].
  cbn [fst snd].
  destruct (selectOnboarding onboardingId w2) as [w3 [failure | name]]; [constructor |].
  cbn [fst snd].
  destruct (loops_advanced onboardingId (AuditTrail.orElse name "Unknown Customer")
              stakeholders
              (Escalation.findTasksNeedingEscalation startOfDay (dateNow w3) tasks)
              (List.filter is_blocker tasks) (w3, []))
    as (w' & new & t' & e' & HR & _ & Hall & _).
  cbn [fst snd] in HR. unfold Progress in *. rewrite HR. cbn [fst snd app]. exact Hall.
Qed.

(** X29. Accounting of a run of [processOnboardingEscalations], on
    services that record what they are asked.  Recording changes neither
    the world nor the outcome.  In demo mode, and when one of the three
    reads fails, nothing is posted, looked up or written, the counter is
    0 and there is exactly one error.  Otherwise, with [overdue] the
    tasks [findTasksNeedingEscalation] returns and [blockers] the tasks
    flagged as blockers: each blocker costs exactly one look-up; at most
    one post and one insert are made per overdue task and per blocker;
    [escalationsTriggered] is at most the number of inserts; and every
    overdue task ends in the counter or in the errors, every blocker in
    at most one of them. *)
Theorem escalation_run_accounting (onboardingId : string) (w : World) :
  let log := snd (fst (observed onboardingId w)) in
  let outcome := snd (plain onboardingId w) in
  fst (fst (observed onboardingId w)) = fst (plain onboardingId w) /\
  snd (observed onboardingId w) = outcome /\
  onboarding_id outcome = onboardingId /\
  (DEMO_MODE = true ->
     log = [] /\ fst (plain onboardingId w) = w /\
     escalationsTriggered outcome = 0 /\
     errors outcome = ["Database not configured"%string]) /\
  (DEMO_MODE = false ->
     match selectTasks onboardingId w with
     | (w1, inl failure) =>
         log = [] /\ outcome = generalError showDbError onboardingId failure
     | (w1, inr tasks) =>
         match selectStakeholders onboardingId w1 with
         | (w2, inl failure) =>
             log = [] /\ outcome = generalError showDbError onboardingId failure
         | (w2, inr stakeholders) =>
             match selectOnboarding onboardingId w2 with
             | (w3, inl failure) =>
                 log = [] /\ outcome = generalError showDbError onboardingId failure
             | (w3, inr name) =>
                 let overdue :=
                   Z.of_nat (length (Escalation.findTasksNeedingEscalation
                                       startOfDay (dateNow w3) tasks)) in
                 let blockers := Z.of_nat (length (List.filter is_blocker tasks)) in
                 tally isAsked log = blockers /\
                 tally isPosted log <= overdue + blockers /\
                 tally isInserted log <= overdue + blockers /\
                 0 <= escalationsTriggered outcome <= tally isInserted log /\
                 overdue <= escalationsTriggered outcome
                            + Z.of_nat (length (errors outcome))
                         <= overdue + blockers
             end
         end
     end).
Proof.
  intros log outcome. subst log outcome.
  unfold observedRun, plainRun, processOnboardingEscalations, silent. cbn [fst snd].
  destruct DEMO_MODE.
  { cbn. repeat split; try reflexivity; try discriminate. }
  destruct (selectTasks onboardingId w) as [w1 [failure | tasks]].
  { cbn. repeat split; try reflexivity; try discriminate. }
  cbn [fst snd].
  destruct (selectStakeholders onboardingId w1) as [w2 [failure | stakeholders]].
  { cbn. repeat split; try reflexivity; try discriminate. }
  cbn [fst snd].
  destruct (selectOnboarding onboardingId w2) as [w3 [failure | name]].
  { cbn. repeat split; try reflexivity; try discriminate. }
  cbn [fst snd].
  destruct (loops_advanced onboardingId (AuditTrail.orElse name "Unknown Customer")
              stakeholders
              (Escalation.findTasksNeedingEscalation startOfDay (dateNow w3) tasks)
              (List.filter is_blocker tasks) (w3, []))
    as (w' & new & t' & e' & HR & HP & Hall & Hask & Hpost & Hins & Hcount & Hsum).
  cbn [fst snd] in HR, HP. unfold Progress in *. rewrite HR, HP.
  cbn [fst snd app escalationsTriggered errors onboarding_id].
  split; [reflexivity |]. split; [reflexivity |]. split; [reflexivity |].
  split; [discriminate |]. intros _.
  repeat split; lia.
Qed.

(** X30. What the route files never answers what it asks.  Every insert
    of a run puts one row in the ledger, under the entity type
    [escalation] and the event type [escalation_triggered], with the
    source [system] and the trigger [automated].  No such row passes the
    look-up for a recent blocker escalation, which asks for the event type
    [blocker_escalated], nor the listing of [GET /api/escalations], which
    asks for [task_escalated] or [blocker_escalated]: the rows a run
    writes never hold back a later blocker notice and are never listed. *)
Theorem escalation_rows_escape_route_queries (onboardingId : string) (w : World) :
  let log := snd (fst (observed onboardingId w)) in
  forall rows, In (Inserted rows) log ->
    exists row,
      rows = [row] /\
      AuditTrail.row_entity_type row = "escalation"%string /\
      AuditTrail.row_event_type row = "escalation_triggered"%string /\
      AuditTrail.row_metadata row !! "source"%string = Some (Js.JsString "system") /\
      AuditTrail.row_metadata row !! "trigger"%string = Some (Js.JsString "automated") /\
      (forall query, In (Asked query) log ->
         In (eq "event_type" "blocker_escalated") query /\ admitted query row = false) /\
      (forall listed, admitted (listingQuery listed) row = false).
Proof.
  intros log rows Hin.
  pose proof (observedRun_events onboardingId w) as Hall. fold log in Hall.
  rewrite List.Forall_forall in Hall.
  destruct (Hall _ Hin) as (row & -> & Hentity & Hevent & Hsource & Htrigger).
  exists row. repeat (split; [assumption || reflexivity |]).
  split.
  - intros query Hq. destruct (Hall _ Hq) as (task & since & ->).
    split; [right; right; left; reflexivity |].
    unfold admitted, recentQuery. cbn [forallb admits textColumn String.eqb Ascii.eqb
                                          Bool.eqb].
    rewrite Hentity, Hevent. cbn.
    destruct (String.eqb (AuditTrail.row_entity_id row) (task_id task)); reflexivity.
  - intros listed. unfold admitted, listingQuery. rewrite forallb_app.
    cbn [forallb admits textColumn String.eqb Ascii.eqb Bool.eqb].
    rewrite Hentity, Hevent. reflexivity.
Qed.

End EscalationRun.

(** A run over one blocked task files one row, which neither its own
    look-up nor the listing lets through. *)
Lemma escalation_rows_escape_route_queries_witness :
  let log := snd (fst (RouteSample.run "onb-1" [])) in
  In (EscalationRoute.Inserted [RouteSample.filed]) log /\
  exists row,
    [RouteSample.filed] = [row] /\
    AuditTrail.row_entity_type row = "escalation"%string /\
    AuditTrail.row_event_type row = "escalation_triggered"%string /\
    AuditTrail.row_metadata row !! "source"%string = Some (Js.JsString "system") /\
    AuditTrail.row_metadata row !! "trigger"%string = Some (Js.JsString "automated") /\
    (forall query, In (EscalationRoute.Asked query) log ->
       In (EscalationRoute.eq "event_type" "blocker_escalated") query /\
       admitted query row = false) /\
    (forall listed, admitted (EscalationRoute.listingQuery listed) row = false).
Proof.
  intros log. split.
  - vm_compute. right. right. left. reflexivity.
  - apply (escalation_rows_escape_route_queries false (fun e : string => e)
             "TypeError: escalationRoles is not iterable"
             RouteSample.selectTasks RouteSample.selectStakeholders
             RouteSample.selectOnboarding RouteSample.selectRecent AuditTrail.memoryInsert
             Sample.env RouteSample.dateNow RouteSample.toISOString
             Escalation.utcStartOfDay NoticeSample.webhookUrl RouteSample.post
             NoticeSample.noMessage RouteSample.noVerdictMessage
             NoticeSample.noMetadata RouteSample.noVerdictMetadata
             "onb-1" [] [RouteSample.filed]).
    vm_compute. right. right. left. reflexivity.
Defined.

(** On the in-memory ledger the look-up filters the rows the route
    itself filed: a second run over the same blocked task posts and files
    again. *)
Example second_run_files_again :
  let first := RouteSample.run "onb-1" [] in
  let second := RouteSample.run "onb-1" (fst (fst first)) in
  length (fst (fst first)) = 1%nat /\
  length (fst (fst second)) = 2%nat /\
  tally isPosted (snd (fst second)) = 1 /\
  EscalationRoute.escalationsTriggered (snd second) = 1 /\
  EscalationRoute.errors (snd second) = [].
Proof. vm_compute. repeat split; reflexivity. Qed.
